(** * Mood journaling pipeline: a shallow embedding and its verified properties

    The development follows the modules of the repository:
    - [convert_journal.py]: filename/date parsing, entry extraction, batch
      conversion;
    - [app/nlp_utils.py]: mood categorisation, keyword extraction, summary
      statistics;
    - [app/db.py]: the SQLite-backed entry store;
    - [test_date_validation.py]: the check of the dates of a directory.

    Python [str] values are modelled as [string] over 8-bit code points
    (the Latin-1 range), Python [float] as binary64 primitive floats, Python
    [int] as [Z], and a DataFrame row (a mapping from column names to cells)
    as a [gmap string _]. *)

From Stdlib Require Import ZArith Floats Ascii String.
From stdpp Require Import gmap strings list sorting.

Local Open Scope Z_scope.
Set Warnings "-inexact-float".

(** ** Python string operations used by the program *)

Module PyStr.

Local Open Scope string_scope.

Definition code (c : ascii) : N := N_of_ascii c.
Definition in_range (lo hi : N) (c : ascii) : bool :=
  ((lo <=? code c) && (code c <=? hi))%N.

(** [str.isspace] / the regex class [\s] on code points below 256. *)
Definition is_space (c : ascii) : bool :=
  in_range 9 13 c || in_range 28 32 c || (code c =? 133)%N || (code c =? 160)%N.
Definition is_digit (c : ascii) : bool := in_range 48 57 c.
Definition is_upper_az (c : ascii) : bool := in_range 65 90 c.
Definition is_lower_az (c : ascii) : bool := in_range 97 122 c.
(** the regex class [[a-zA-Z]] *)
Definition is_letter (c : ascii) : bool := is_upper_az c || is_lower_az c.
(** the regex class [[a-f0-9]] *)
Definition is_hex_lower (c : ascii) : bool := in_range 97 102 c || is_digit c.
(** the regex class [\w] (alphanumeric or underscore) on code points below 256 *)
Definition is_word (c : ascii) : bool :=
  is_letter c || is_digit c || (code c =? 95)%N
  || (code c =? 170)%N || (code c =? 178)%N || (code c =? 179)%N
  || (code c =? 181)%N || (code c =? 185)%N || (code c =? 186)%N
  || in_range 188 190 c || in_range 192 214 c || in_range 216 246 c
  || in_range 248 255 c.

(** [str.isalpha] on one code point below 256 *)
Definition is_alpha (c : ascii) : bool :=
  is_letter c || (code c =? 170)%N || (code c =? 181)%N || (code c =? 186)%N
  || in_range 192 214 c || in_range 216 246 c || in_range 248 255 c.

(** [str.lower] on one code point below 256. *)
Definition lower_char (c : ascii) : ascii :=
  if is_upper_az c || in_range 192 214 c || in_range 216 222 c
  then ascii_of_N (code c + 32) else c.

Fixpoint lower (s : string) : string :=
  match s with
  | "" => ""
  | String c s' => String (lower_char c) (lower s')
  end.

Fixpoint filter_chars (p : ascii → bool) (s : string) : string :=
  match s with
  | "" => ""
  | String c s' => if p c then String c (filter_chars p s') else filter_chars p s'
  end.

Fixpoint all_chars (p : ascii → bool) (s : string) : bool :=
  match s with
  | "" => true
  | String c s' => p c && all_chars p s'
  end.

(** [s.isalpha()]: not empty, and alphabetic throughout *)
Definition isalpha (s : string) : bool :=
  negb (String.eqb s "") && all_chars is_alpha s.

Fixpoint drop_while (p : ascii → bool) (s : string) : string :=
  match s with
  | "" => ""
  | String c s' => if p c then drop_while p s' else s
  end.

Definition lstrip_by (p : ascii → bool) (s : string) : string := drop_while p s.
Definition rstrip_by (p : ascii → bool) (s : string) : string :=
  String.rev (drop_while p (String.rev s)).
(** [s.strip()] *)
Definition strip (s : string) : string := rstrip_by is_space (lstrip_by is_space s).
(** [s.lstrip(c)] for a one-character argument *)
Definition lstrip_char (c : ascii) (s : string) : string :=
  lstrip_by (Ascii.eqb c) s.

(** [s[n:]] and [s[:n]] for [0 <= n] *)
Fixpoint str_drop (n : nat) (s : string) : string :=
  match n, s with
  | S n', String _ s' => str_drop n' s'
  | _, _ => s
  end.
Fixpoint str_take (n : nat) (s : string) : string :=
  match n, s with
  | S n', String c s' => String c (str_take n' s')
  | _, _ => ""
  end.

(** The last character, if there is one. *)
Fixpoint str_last (s : string) : option ascii :=
  match s with
  | "" => None
  | String c "" => Some c
  | String _ s' => str_last s'
  end.

(** [s.startswith(p)] *)
Definition startswith (p s : string) : bool := String.prefix p s.

(** [s.split(sep)] for a one-character separator: never the empty list. *)
Fixpoint split_go (sep : ascii) (cur : string) (s : string) : list string :=
  match s with
  | "" => [String.rev cur]
  | String c s' =>
      if Ascii.eqb c sep then String.rev cur :: split_go sep "" s'
      else split_go sep (String c cur) s'
  end.
Definition split (sep : ascii) (s : string) : list string := split_go sep "" s.

(** [s.split()]: maximal runs of non-whitespace characters. *)
Fixpoint split_ws_go (cur : option string) (s : string) : list string :=
  match s with
  | "" => option_list (String.rev <$> cur)
  | String c s' =>
      if is_space c then option_list (String.rev <$> cur) ++ split_ws_go None s'
      else split_ws_go (Some (String c (default "" cur))) s'
  end.
Definition split_ws (s : string) : list string := split_ws_go None s.

(** [sep.join(l)] *)
Fixpoint join (sep : string) (l : list string) : string :=
  match l with
  | [] => ""
  | [x] => x
  | x :: l' => x +:+ sep +:+ join sep l'
  end.

(** [s.rfind(c)] for one character: the last index, or [-1]. *)
Fixpoint rfind_go (c : ascii) (s : string) (i : Z) (last : Z) : Z :=
  match s with
  | "" => last
  | String a s' => rfind_go c s' (i + 1) (if Ascii.eqb a c then i else last)
  end.
Definition rfind (c : ascii) (s : string) : Z := rfind_go c s 0 (-1).

(** Decimal digits. *)
Definition digit_val (c : ascii) : Z := Z.of_N (code c) - 48.
Definition digit_char (d : Z) : ascii := ascii_of_N (Z.to_N (48 + d)).

(** [int(s)] for a string of decimal digits *)
Fixpoint int_go (acc : Z) (s : string) : Z :=
  match s with
  | "" => acc
  | String c s' => int_go (10 * acc + digit_val c) s'
  end.
Definition int_of (s : string) : Z := int_go 0 s.

(** [str(n)] for [0 <= n] *)
Fixpoint dec_go (fuel : nat) (n : Z) (acc : string) : string :=
  match fuel with
  | O => acc
  | S f =>
      let acc' := String (digit_char (n mod 10)) acc in
      if (n <? 10)%Z then acc' else dec_go f (n / 10) acc'
  end.
Definition str_of_int (n : Z) : string := dec_go (S (Z.to_nat (Z.log2 n))) n "".

(** [f"{n:02d}"] for [0 <= n] *)
Definition format_02d (n : Z) : string :=
  let s := str_of_int n in
  if (String.length s <? 2)%nat then "0" +:+ s else s.

End PyStr.

(** ** The pandas operations the program relies on

    [Timestamp] values are restricted to whole seconds, which is all that the
    program produces (dates parsed from file names and CSV date columns). *)

Module Pandas.

Import PyStr.
Local Open Scope string_scope.

Record Timestamp := mkTs {
  year : Z; month : Z; day : Z; hour : Z; minute : Z; second : Z
}.

Global Instance Timestamp_eq_dec : EqDecision Timestamp.
Proof. solve_decision. Defined.

Definition is_leap (y : Z) : bool :=
  (y mod 4 =? 0)%Z && (negb (y mod 100 =? 0)%Z || (y mod 400 =? 0)%Z).

Definition days_in_month (y m : Z) : Z :=
  if (m =? 2)%Z then (if is_leap y then 29 else 28)
  else if (m =? 4)%Z || (m =? 6)%Z || (m =? 9)%Z || (m =? 11)%Z then 30
  else 31.

(** Days between 1970-01-01 and the civil date [y-m-d]. *)
Definition days_from_civil (y m d : Z) : Z :=
  let y' := if (m <=? 2)%Z then y - 1 else y in
  let era := y' / 400 in
  let yoe := y' - era * 400 in
  let mp := (m + 9) mod 12 in
  let doy := (153 * mp + 2) / 5 + d - 1 in
  let doe := yoe * 365 + yoe / 4 - yoe / 100 + doy in
  era * 146097 + doe - 719468.

(** The [datetime64[ns]] integer behind a timestamp: nanoseconds since the epoch. *)
Definition value (t : Timestamp) : Z :=
  (((days_from_civil (year t) (month t) (day t) * 24 + hour t) * 60
    + minute t) * 60 + second t) * 1000000000.

Definition calendar_ok (t : Timestamp) : bool :=
  (1 <=? year t)%Z && (year t <=? 9999)%Z
  && (1 <=? month t)%Z && (month t <=? 12)%Z
  && (1 <=? day t)%Z && (day t <=? days_in_month (year t) (month t))%Z
  && (0 <=? hour t)%Z && (hour t <? 24)%Z
  && (0 <=? minute t)%Z && (minute t <? 60)%Z
  && (0 <=? second t)%Z && (second t <? 60)%Z.

(** Representable in 64 bits of nanoseconds (the smallest one is reserved for NaT). *)
Definition in_bounds (t : Timestamp) : bool :=
  (- 2 ^ 63 <? value t)%Z && (value t <=? 2 ^ 63 - 1)%Z.

Definition valid (t : Timestamp) : bool := calendar_ok t && in_bounds t.

Definition fmt2 (n : Z) : string :=
  String (digit_char (n / 10)) (String (digit_char (n mod 10)) "").
Definition fmt4 (n : Z) : string :=
  String (digit_char (n / 1000)) (String (digit_char (n / 100 mod 10)) (fmt2 (n mod 100))).

(** The day of a timestamp as [YYYY-MM-DD]. *)
Definition date_str (t : Timestamp) : string :=
  fmt4 (year t) +:+ "-" +:+ fmt2 (month t) +:+ "-" +:+ fmt2 (day t).

(** [str(t)]: the ISO form with a space between date and time. *)
Definition ts_str (t : Timestamp) : string :=
  date_str t +:+ " " +:+ fmt2 (hour t) +:+ ":" +:+ fmt2 (minute t) +:+ ":" +:+ fmt2 (second t).

(** [n] decimal digits at the head of [s]: their value and the rest. *)
Definition digits_n (n : nat) (s : string) : option (Z * string) :=
  let d := str_take n s in
  if (String.length d =? n)%nat && all_chars is_digit d
  then Some (int_of d, str_drop n s) else None.

Definition expect (c : ascii) (s : string) : option string :=
  match s with
  | String a s' => if Ascii.eqb a c then Some s' else None
  | "" => None
  end.

Definition check (t : Timestamp) : option Timestamp :=
  if valid t then Some t else None.

(** Modelled from the pandas documentation: [pd.to_datetime] on one string,
    for the two ISO forms this program hands to it, [YYYY-MM-DD] and
    [YYYY-MM-DD HH:MM:SS]; [None] stands for a string that does not parse to a
    representable timestamp ([NaT] under [errors='coerce'], an exception
    otherwise). *)
Definition to_datetime (s : string) : option Timestamp :=
  '(y, s) ← digits_n 4 s;
  s ← expect "-" s;
  '(m, s) ← digits_n 2 s;
  s ← expect "-" s;
  '(d, s) ← digits_n 2 s;
  if String.eqb s "" then check (mkTs y m d 0 0 0)
  else
    s ← expect " " s;
    '(h, s) ← digits_n 2 s;
    s ← expect ":" s;
    '(mi, s) ← digits_n 2 s;
    s ← expect ":" s;
    '(sec, s) ← digits_n 2 s;
    if String.eqb s "" then check (mkTs y m d h mi sec) else None.

(** [Series.max() - Series.min()] in whole days ([Timedelta.days]). *)
Definition days_between (lo hi : Timestamp) : Z :=
  (value hi - value lo) / 86400000000000.

Definition count_of (x : string) (col : list string) : nat :=
  length (filter (λ y, y = x) col).

(** Modelled from the pandas documentation: [Series.mode()] returns the values
    that occur most often, in sorted order. *)
Definition mode (col : list string) : list string :=
  let top := max_list ((λ x, count_of x col) <$> col) in
  merge_sort String.le (remove_dups (filter (λ x, count_of x col = top) col)).

(** *** The days in their order *)

(** The days from the epoch to the day of a timestamp. *)
Definition day_number (t : Timestamp) : Z := days_from_civil (year t) (month t) (day t).

(** The days before the first of March of year [y], from the first of March
    of year 0. *)
Definition year_start (y : Z) : Z := 365 * y + y / 4 - y / 100 + y / 400.

(** The days of year [y] before its month [m]. *)
Definition days_before_month (y m : Z) : Z :=
  if (m <=? 1)%Z then 0
  else if (m <=? 2)%Z then 31
  else (if is_leap y then 60 else 59) + (153 * (m - 3) + 2) / 5.

(** The day number of the first of January of year [y]. *)
Definition jan1 (y : Z) : Z := year_start (y - 1) + 306 - 719468.

(** A date of the calendar. *)
Definition is_date (y m d : Z) : Prop :=
  (1 <= m <= 12)%Z ∧ (1 <= d <= days_in_month y m)%Z.

(** Comparing by a first key, and by a second one where the first is equal. *)
Definition lex (c1 c2 : comparison) : comparison :=
  match c1 with Eq => c2 | _ => c1 end.

End Pandas.

(** ** Library sorts

    [DataFrame.sort_values] with its default [kind] and SQL's [ORDER BY]
    promise a sorted rearrangement of their input and no more: neither is
    documented to keep the order of rows that compare equal. A sort is
    therefore any function with that contract. *)

Class SortBy {A : Type} (le : A → A → Prop) := {
  sort_by : list A → list A;
  sort_by_perm : ∀ l, sort_by l ≡ₚ l;
  sort_by_sorted : ∀ l, Sorted le (sort_by l)
}.
Global Arguments sort_by {A le} _ _.

(** A merge sort meets the contract of a library sort. *)
Program Definition merge_sorter {A} (le : relation A)
    `{!RelDecision le, !Total le} : SortBy le :=
  {| sort_by := merge_sort le |}.
Next Obligation. intros. apply merge_sort_Permutation. Qed.
Next Obligation. intros. by apply Sorted_merge_sort. Qed.





(** Python's [sorted(l, key=..., reverse=True)] is stable, also under
    [reverse]: elements whose keys are equal keep the order they have in [l].
    The sorted list is then determined by [l]; it is the one that insertion
    in front of the later elements of the same key builds. *)
Fixpoint insert_desc {A} (key : A → nat) (x : A) (l : list A) : list A :=
  match l with
  | [] => [x]
  | y :: l' => if (key y <=? key x)%nat then x :: l else y :: insert_desc key x l'
  end.
Definition sorted_reverse {A} (key : A → nat) (l : list A) : list A :=
  foldr (insert_desc key) [] l.

(** ** Regular expressions: a backtracking matcher with Python's priorities

    Alternatives are tried left to right and repetitions are greedy, so the
    first match found is the one [re] reports. Every repeated expression of
    this program consumes at least one character per round. *)

Module Regex.

Import PyStr.
Local Open Scope nat_scope.
Local Open Scope string_scope.

Inductive regex :=
| Chr (p : ascii → bool)                        (* one character of a class *)
| Cat (r1 r2 : regex)                           (* r1 r2 *)
| Alt (r1 r2 : regex)                           (* r1|r2 *)
| Rep (lo : nat) (hi : option nat) (r : regex)  (* r{lo,hi}, greedy *)
| Grp (g : nat) (r : regex)                     (* capturing group number g *)
| Bos                                           (* ^ *)
| Eos.                                          (* $ *)

Record mstate := mkSt {
  pos : nat;                        (* characters consumed so far *)
  rest : string;                    (* what is left of the subject *)
  groups : list (nat * (nat * nat)) (* group number, start and end *)
}.

Definition cont := mstate → option mstate.

Definition newline : ascii := ascii_of_N 10.

(** [$] matches at the end and just before a newline that ends the subject. *)
Definition at_end (s : string) : bool :=
  match s with
  | "" => true
  | String c "" => Ascii.eqb c newline
  | _ => false
  end.

Definition may_repeat (hi : option nat) : bool :=
  match hi with Some O => false | _ => true end.

Fixpoint rep_loop (body : cont → cont) (fuel lo : nat) (hi : option nat)
    (k : cont) (st : mstate) : option mstate :=
  match fuel with
  | O => None
  | S fuel' =>
      let again :=
        if may_repeat hi then
          body (λ st', if (pos st <? pos st')%nat
                       then rep_loop body fuel' (pred lo) (pred <$> hi) k st'
                       else None) st
        else None in
      match again with
      | Some m => Some m
      | None => if (lo =? 0)%nat then k st else None
      end
  end.

Fixpoint run (r : regex) (k : cont) (st : mstate) : option mstate :=
  match r with
  | Chr p =>
      match rest st with
      | String c s' => if p c then k (mkSt (S (pos st)) s' (groups st)) else None
      | "" => None
      end
  | Cat r1 r2 => run r1 (run r2 k) st
  | Alt r1 r2 =>
      match run r1 k st with
      | Some m => Some m
      | None => run r2 k st
      end
  | Rep lo hi r' => rep_loop (run r') (S (String.length (rest st))) lo hi k st
  | Grp g r' =>
      run r' (λ st', k (mkSt (pos st') (rest st') ((g, (pos st, pos st')) :: groups st'))) st
  | Bos => if (pos st =? 0)%nat then k st else None
  | Eos => if at_end (rest st) then k st else None
  end.

(** A match object: where the match starts and ends, and its groups. *)
Record rmatch := mkMatch {
  m_start : nat; m_end : nat; m_groups : list (nat * (nat * nat)); m_subject : string
}.

Definition match_at (r : regex) (subject : string) (start : nat) (s : string) : option rmatch :=
  (λ st, mkMatch start (pos st) (groups st) subject) <$> run r Some (mkSt start s []).

(** [re.match(r, s)] *)
Definition re_match (r : regex) (s : string) : option rmatch := match_at r s 0 s.

(** [re.search(r, s)]: the leftmost position at which [r] matches. *)
Fixpoint search_from (r : regex) (subject : string) (start : nat) (s : string) : option rmatch :=
  match match_at r subject start s with
  | Some m => Some m
  | None =>
      match s with
      | "" => None
      | String _ s' => search_from r subject (S start) s'
      end
  end.
Definition re_search (r : regex) (s : string) : option rmatch := search_from r s 0 s.

(** [m.group(g)] *)
Definition group (m : rmatch) (g : nat) : string :=
  match list_find (λ e, e.1 = g) (m_groups m) with
  | Some (_, (_, (b, e))) => str_take (e - b) (str_drop b (m_subject m))
  | None => ""
  end.

(** [re.sub(r, '', s)]: every non-overlapping match, left to right, removed. *)
Fixpoint sub_go (r : regex) (fuel : nat) (start : nat) (s : string) : string :=
  match fuel with
  | O => s
  | S fuel' =>
      match run r Some (mkSt start s []) with
      | Some st =>
          if (start <? pos st)%nat then sub_go r fuel' (pos st) (rest st)
          else match s with
               | "" => ""
               | String c s' => String c (sub_go r fuel' (S start) s')
               end
      | None =>
          match s with
          | "" => ""
          | String c s' => String c (sub_go r fuel' (S start) s')
          end
      end
  end.
Definition re_sub_empty (r : regex) (s : string) : string :=
  sub_go r (S (String.length s)) 0 s.

(** Building blocks *)
Definition plus (r : regex) : regex := Rep 1 None r.
Definition star (r : regex) : regex := Rep 0 None r.
Definition opt (r : regex) : regex := Rep 0 (Some 1) r.
Definition between (lo hi : nat) (r : regex) : regex := Rep lo (Some hi) r.
Definition Emp : regex := Rep 0 (Some 0) Bos.
Fixpoint seq (rs : list regex) : regex :=
  match rs with
  | [] => Emp
  | [r] => r
  | r :: rs' => Cat r (seq rs')
  end.
Fixpoint alts (rs : list regex) : regex :=
  match rs with
  | [] => Chr (λ _, false)
  | [r] => r
  | r :: rs' => Alt r (alts rs')
  end.
(** a literal, under [re.IGNORECASE] *)
Definition ichar (c : ascii) : regex :=
  Chr (λ x, Ascii.eqb (lower_char x) (lower_char c)).
Fixpoint ilit (s : string) : regex :=
  match s with
  | "" => Emp
  | String c "" => ichar c
  | String c s' => Cat (ichar c) (ilit s')
  end.

(** *** What a match is *)

(** [n] rounds of a relation on states. *)
Fixpoint iter (R : mstate → mstate → Prop) (n : nat) (a b : mstate) : Prop :=
  match n with
  | O => a = b
  | S n' => ∃ m, R a m ∧ iter R n' m b
  end.

(** What it is for an expression to match from one state to another: the
    meaning of the expressions, without the order in which the matcher tries
    the alternatives. *)
Fixpoint spans (r : regex) (a b : mstate) : Prop :=
  match r with
  | Chr p =>
      ∃ c, rest a = String c (rest b) ∧ p c = true
           ∧ pos b = S (pos a) ∧ groups b = groups a
  | Cat r1 r2 => ∃ m, spans r1 a m ∧ spans r2 m b
  | Alt r1 r2 => spans r1 a b ∨ spans r2 a b
  | Rep lo hi r' => ∃ n, lo <= n ∧ (∀ h, hi = Some h → n <= h) ∧ iter (spans r') n a b
  | Grp g r' =>
      ∃ m, spans r' a m ∧ b = mkSt (pos m) (rest m) ((g, (pos a, pos m)) :: groups m)
  | Bos => pos a = 0 ∧ b = a
  | Eos => at_end (rest a) = true ∧ b = a
  end.

(** An expression without capturing groups. *)
Fixpoint group_free (r : regex) : bool :=
  match r with
  | Chr _ | Bos | Eos => true
  | Cat r1 r2 | Alt r1 r2 => group_free r1 && group_free r2
  | Rep _ _ r' => group_free r'
  | Grp _ _ => false
  end.

(** The state stands in [subject] where its position says. *)
Definition at_pos (subject : string) (st : mstate) : Prop :=
  rest st = str_drop (pos st) subject.

(** The 256 code points. *)
Definition all_ascii : list ascii := ascii_of_nat <$> List.seq 0 256.

(** Every character that [r] can consume is of the class [p]. *)
Fixpoint chars_within (p : ascii → bool) (r : regex) : bool :=
  match r with
  | Chr q => forallb (λ c, implb (q c) (p c)) all_ascii
  | Cat r1 r2 | Alt r1 r2 => chars_within p r1 && chars_within p r2
  | Rep _ _ r' | Grp _ r' => chars_within p r'
  | Bos | Eos => true
  end.

End Regex.

(** ** convert_journal.py *)

Module Converter.

Import PyStr Regex.
Local Open Scope string_scope.

(** [os.path.splitext(p)[0]] (POSIX): cut at the last dot of the last path
    component, unless that component has only dots before it. *)
Definition splitext_root (p : string) : string :=
  let sepIndex := rfind "/" p in
  let dotIndex := rfind "." p in
  if (sepIndex <? dotIndex)%Z
     && negb (all_chars (Ascii.eqb ".")
                (str_take (Z.to_nat (dotIndex - (sepIndex + 1))) (str_drop (Z.to_nat (sepIndex + 1)) p)))
  then str_take (Z.to_nat dotIndex) p
  else p.

(** [\s[a-f0-9]{32}$] *)
Definition hash_re : regex :=
  seq [Chr is_space; between 32 32 (Chr is_hex_lower); Eos].

(** What it is for [hash_re] to match at the head of [s]. *)
Definition hash_here (s : string) : bool :=
  match s with
  | "" => false
  | String c s' =>
      is_space c && (32 <=? String.length s')%nat
      && all_chars is_hex_lower (str_take 32 s') && at_end (str_drop 32 s')
  end.

(** [^(?:\w+)\s+(\d{1,2})\s+(\d{1,2})\s+(\d{2,4})] *)
Definition weekday_re : regex :=
  seq [Bos; plus (Chr is_word); plus (Chr is_space);
       Grp 1 (between 1 2 (Chr is_digit)); plus (Chr is_space);
       Grp 2 (between 1 2 (Chr is_digit)); plus (Chr is_space);
       Grp 3 (between 2 4 (Chr is_digit))].

(** [^(\d{1,2})\s+(\d{1,2})\s+(\d{2,4})] *)
Definition numeric_re : regex :=
  seq [Bos;
       Grp 1 (between 1 2 (Chr is_digit)); plus (Chr is_space);
       Grp 2 (between 1 2 (Chr is_digit)); plus (Chr is_space);
       Grp 3 (between 2 4 (Chr is_digit))].

Definition month_table : list (string * Z) :=
  [("jan", 1); ("feb", 2); ("mar", 3); ("apr", 4); ("may", 5); ("jun", 6);
   ("jul", 7); ("aug", 8); ("sep", 9); ("oct", 10); ("nov", 11); ("dec", 12)]%Z.
Definition month_map : gmap string Z := list_to_map month_table.

(** [(?P<month_name>jan|...|dec)[a-z]*\s+(?P<day>\d{1,2})(?:st|nd|rd|th)?(?:,)?\s+(?P<year>\d{4})]
    under [re.IGNORECASE]; the groups month_name, day and year are 1, 2 and 3. *)
Definition month_name_re : regex :=
  seq [Grp 1 (alts (ilit <$> month_table.*1)); star (Chr is_letter);
       plus (Chr is_space);
       Grp 2 (between 1 2 (Chr is_digit));
       opt (alts [ilit "st"; ilit "nd"; ilit "rd"; ilit "th"]);
       opt (ichar ",");
       plus (Chr is_space);
       Grp 3 (between 4 4 (Chr is_digit))].

(** The cleaned name: extension and trailing export hash removed. *)
Definition clean_name (filename : string) : string :=
  strip (re_sub_empty hash_re (splitext_root filename)).

(** The date and title of the first two patterns. *)
Definition numeric_date (name : string) (m : rmatch) : option string * string :=
  let month := group m 1 in
  let day := group m 2 in
  let year := group m 3 in
  let year := if (String.length year =? 2)%nat then "20" +:+ year else year in
  let date_str := year +:+ "-" +:+ format_02d (int_of month) +:+ "-" +:+ format_02d (int_of day) in
  let title := strip (lstrip_char "-" (strip (str_drop (m_end m) name))) in
  (Some date_str, title).

(** The three patterns, tried in order on the cleaned name. *)
Definition match_patterns (name : string) : option string * string :=
  match re_match weekday_re name with
  | Some m => numeric_date name m
  | None =>
  match re_match numeric_re name with
  | Some m => numeric_date name m
  | None =>
  match re_search month_name_re name with
  | Some m =>
      (* the key is one of the twelve names: the lookup always finds it *)
      let month := default 0%Z (month_map !! lower (str_take 3 (group m 1))) in
      let day := group m 2 in
      let year := group m 3 in
      let date_str := year +:+ "-" +:+ format_02d month +:+ "-" +:+ format_02d (int_of day) in
      (Some date_str, name)
  | None => (None, name)
  end end end.

Definition extract_date_from_filename (filename : string) : option string * string :=
  match_patterns (clean_name filename).

(** A Markdown file of the journal directory: its name and its text, [None]
    when reading it raises. *)
Record MdFile := mkFile { name : string; text : option string }.

Definition is_blank (line : string) : bool := String.eqb (strip line) "".

(** The loop over the lines of a document, with the lines still to come. *)
Fixpoint scan_lines (lines : list string) (title_from_content : option string)
    (content_lines : list string) : option string * list string :=
  match lines with
  | [] => (title_from_content, content_lines)
  | line :: rest =>
      if startswith "# " line && bool_decide (title_from_content = None) then
        let title := Some (strip (str_drop 2 line)) in
        match rest with
        | next :: _ =>
            if is_blank next
            then scan_lines rest title content_lines   (* continue *)
            else scan_lines rest title content_lines
        | [] => scan_lines rest title content_lines
        end
      else if startswith "Created:" line || startswith "Updated:" line then
        scan_lines rest title_from_content content_lines
      else
        scan_lines rest title_from_content (content_lines ++ [line])
  end.

(** Python's [a or b] on strings: the first one that is not empty. *)
Definition str_or (a b : string) : string := if String.eqb a "" then b else a.

Definition entry_details (filename content : string) : option string * string * string :=
  let '(date_str, title_from_filename) := extract_date_from_filename filename in
  let lines := split newline content in
  let '(title_from_content, content_lines) := scan_lines lines None [] in
  let final_title :=
    str_or (default "" title_from_content) (str_or title_from_filename "Untitled Entry") in
  let final_content := strip (join (String newline "") content_lines) in
  (date_str, final_title, final_content).

(** [None] when reading the file raises. *)
Definition get_entry_details (md_file : MdFile) : option (option string * string * string) :=
  entry_details (name md_file) <$> text md_file.

(** A row of the table: the entries as collected, then with parsed dates. *)
Record Entry := mkEntry { date : string; title : string; content : string }.
Record Row := mkRow { r_date : Pandas.Timestamp; r_title : string; r_content : string }.

Record Progress := mkProgress {
  entries : list Entry; processed_files : nat; skipped_files : nat
}.

Definition process_file (acc : Progress) (md_file : MdFile) : Progress :=
  match get_entry_details md_file with
  | Some (Some date_str, title, content) =>
      mkProgress (entries acc ++ [mkEntry date_str title content])
                 (S (processed_files acc)) (skipped_files acc)
  | Some (None, _, _) =>
      mkProgress (entries acc) (processed_files acc) (S (skipped_files acc))
  | None =>
      mkProgress (entries acc) (processed_files acc) (S (skipped_files acc))
  end.

Definition process_files (md_files : list MdFile) : Progress :=
  foldl process_file (mkProgress [] 0 0) md_files.

(** [pd.to_datetime(df['date'], errors='coerce')] then [dropna]: the rows
    whose date parses, in their order. *)
Definition valid_rows (es : list Entry) : list Row :=
  omap (λ e, (λ t, mkRow t (title e) (content e)) <$> Pandas.to_datetime (date e)) es.

Definition date_le (a b : Row) : Prop :=
  (Pandas.value (r_date a) <= Pandas.value (r_date b))%Z.

Record Outcome := mkOutcome {
  returned : option string;       (* the value returned: [None] or the output path *)
  written : option (list Row);    (* the table written to the output, if any *)
  processed : nat;
  skipped : nat;
  dropped : nat                   (* rows dropped for an invalid date *)
}.


(** [s1 + '\n' + s2 + ...]: a text from its lines *)
Definition text_of_lines (lines : list string) : string := join (String newline "") lines.

(** A directory with two entries of one day, for examples. *)
Definition two_same_day : list MdFile :=
  [mkFile "Friday 1 10 25 Morning.md" (Some "first");
   mkFile "Friday 1 10 25 Evening.md" (Some "second");
   mkFile "Thursday 1 9 25 Before.md" (Some "earlier")].

Section Convert.

(** [df.sort_values(by='date')]: ascending, with the default
    [kind='quicksort'], of which pandas says that only [mergesort] and
    [stable] are stable. *)
Context (sort_values : SortBy date_le).

(** [journal_dir] is [None] when the path does not exist, and else the
    Markdown files the directory lists, in the order [glob] yields them. *)
Definition convert_journal_files (journal_dir : option (list MdFile))
    (output_file : string) : Outcome :=
  match journal_dir with
  | None => mkOutcome None None 0 0 0
  | Some md_files =>
      let p := process_files md_files in
      match entries p with
      | [] => mkOutcome None None (processed_files p) (skipped_files p) 0
      | _ =>
          let df := valid_rows (entries p) in
          let df := sort_by sort_values df in
          mkOutcome (Some output_file) (Some df) (processed_files p) (skipped_files p)
                    (length (entries p) - length (valid_rows (entries p)))
      end
  end.

End Convert.

(** *** Lines, headings and date texts *)

(** A line of Notion's export that carries a time stamp of the page. *)
Definition is_metadata (line : string) : bool :=
  startswith "Created:" line || startswith "Updated:" line.

(** The lines without the first one that starts with the level-1 marker. *)
Fixpoint without_first_heading (lines : list string) : list string :=
  match lines with
  | [] => []
  | line :: rest => if startswith "# " line then rest else line :: without_first_heading rest
  end.

(** The text of the first line that starts with the level-1 marker. *)
Definition first_heading (lines : list string) : option string :=
  (λ line, strip (str_drop 2 line)) <$> head (filter (λ line, startswith "# " line = true) lines).

(** A text of the form Y-MM-DD: a year of three or four digits, a month and
    a day of two digits each. *)
Definition is_date_text (d : string) : bool :=
  match split "-" d with
  | [y; m; dd] =>
      all_chars is_digit y && ((String.length y =? 3)%nat || (String.length y =? 4)%nat)
      && all_chars is_digit m && (String.length m =? 2)%nat
      && all_chars is_digit dd && (String.length dd =? 2)%nat
  | _ => false
  end.

(** [(\d{1,2})\s+(\d{1,2})\s+(\d{2,4})], the end of the first two patterns *)
Definition digit_groups : regex :=
  seq [Grp 1 (between 1 2 (Chr is_digit)); plus (Chr is_space);
       Grp 2 (between 1 2 (Chr is_digit)); plus (Chr is_space);
       Grp 3 (between 2 4 (Chr is_digit))].

End Converter.

(** ** app/nlp_utils.py *)

Module Nlp.

Import PyStr.
Local Open Scope string_scope.

Definition categorize_mood (sentiment_score : float) : string :=
  if (sentiment_score <=? -0.5)%float then "Very Negative"
  else if (sentiment_score <=? -0.1)%float then "Negative"
  else if (sentiment_score <=? 0.1)%float then "Neutral"
  else if (sentiment_score <=? 0.5)%float then "Positive"
  else "Very Positive".

Definition stop_words : gset string := list_to_set [
  "about"; "above"; "after"; "again"; "against"; "all"; "am"; "an"; "and"; "any"; "are"; "as"; "at";
  "be"; "because"; "been"; "before"; "being"; "below"; "between"; "both"; "but"; "by";
  "can"; "could"; "did"; "do"; "does"; "doing"; "down"; "during"; "each";
  "few"; "for"; "from"; "further"; "had"; "has"; "have"; "having"; "he"; "her"; "here"; "hers"; "herself";
  "him"; "himself"; "his"; "how"; "if"; "in"; "into"; "is"; "it"; "its"; "itself";
  "just"; "me"; "more"; "most"; "my"; "myself"; "no"; "nor"; "not"; "now"; "of"; "off"; "on"; "once";
  "only"; "or"; "other"; "our"; "ours"; "ourselves"; "out"; "over"; "own"; "same"; "she"; "should"; "so";
  "some"; "still"; "such"; "than"; "that"; "the"; "their"; "theirs"; "them"; "themselves"; "then"; "there";
  "these"; "they"; "this"; "those"; "through"; "to"; "too"; "under"; "until"; "up"; "very"; "was"; "we";
  "were"; "what"; "when"; "where"; "which"; "while"; "who"; "whom"; "why"; "will"; "with"; "would";
  "you"; "your"; "yours"; "yourself"; "yourselves"; "like"; "im"; "ive"; "also"; "get"; "got"
].

(** [l[:k]]: a negative [k] counts from the end. *)
Definition slice_to {A} (l : list A) (k : Z) : list A :=
  if (k <? 0)%Z then take (Z.to_nat (Z.of_nat (length l) + k)) l
  else take (Z.to_nat k) l.

(** [re.sub(r'[^a-zA-Z]', '', word)] *)
Definition clean (word : string) : string := filter_chars is_letter word.

(** The test that admits a cleaned word. *)
Definition keeps (min_length : Z) (clean_word : string) : bool :=
  (min_length <=? Z.of_nat (String.length clean_word))%Z
  && bool_decide (clean_word ∉ stop_words)
  && isalpha clean_word.

(** The loop that fills [cleaned_words]. *)
Fixpoint clean_and_filter (min_length : Z) (words : list string) : list string :=
  match words with
  | [] => []
  | word :: words' =>
      let clean_word := clean word in
      if keeps min_length clean_word
      then clean_word :: clean_and_filter min_length words'
      else clean_and_filter min_length words'
  end.

Definition extract_keywords (text : string) (min_length max_words : Z) : list string :=
  let words := split_ws (lower text) in
  let cleaned_words := clean_and_filter min_length words in
  slice_to cleaned_words max_words.


(** A row of the analysed table. *)
Record AnalyzedRow := mkAnalyzed {
  date : Pandas.Timestamp;
  title : string;
  content : string;
  sentiment_score : float;
  subjectivity_score : float;
  mood_category : string;
  keywords : list string
}.

Definition ts_max (a b : Pandas.Timestamp) : Pandas.Timestamp :=
  if (Pandas.value a <? Pandas.value b)%Z then b else a.
Definition ts_min (a b : Pandas.Timestamp) : Pandas.Timestamp :=
  if (Pandas.value b <? Pandas.value a)%Z then b else a.

(** The entries the data model admits: a date that is a timestamp, a score
    between -1 and 1, and keywords that are words of lower-case letters. *)
Definition keyword_ok (k : string) : bool :=
  negb (String.eqb k "") && all_chars is_lower_az k.
Definition well_formed (e : AnalyzedRow) : Prop :=
  Pandas.valid (date e) = true
  ∧ (-1 <=? sentiment_score e)%float = true ∧ (sentiment_score e <=? 1)%float = true
  ∧ Forall (λ k, keyword_ok k = true) (keywords e).

(** The mode as the specification words it: among the categories that share
    the highest count, the one met first in the order of the rows. *)
Definition spec_first_encountered_mode (col : list string) : option string :=
  head (filter (λ x, Pandas.count_of x col
                     = max_list ((λ y, Pandas.count_of y col) <$> col)) col).

Section Scorer.

(** TextBlob's polarity and subjectivity of a text, and the mean of a float
    column: both are taken as given. *)
Variable analyze_sentiment : string → float * float.
Variable series_mean : list float → float.

(** One row of [analyze_journal_entries], for a row whose date has been parsed. *)
Definition analyze_row (d : Pandas.Timestamp) (title content : string) : AnalyzedRow :=
  let sentiments := analyze_sentiment content in
  mkAnalyzed d title content sentiments.1 sentiments.2
             (categorize_mood sentiments.1) (extract_keywords content 4 50).

(** [None] stands for the [IndexError] of [.iloc[0]] on an empty mode. *)
Definition get_mood_statistics (df : list AnalyzedRow) : option (nat * float * string * Z) :=
  match df with
  | [] => Some (O, 0%float, "N/A", 0%Z)
  | r :: df' =>
      let total_entries := length df in
      let avg_mood := series_mean (sentiment_score <$> df) in
      most_common_mood ← head (Pandas.mode (mood_category <$> df));
      let date_range :=
        Pandas.days_between (foldr ts_min (date r) (date <$> df'))
                            (foldr ts_max (date r) (date <$> df')) in
      Some (total_entries, avg_mood, most_common_mood, date_range)
  end.

End Scorer.

(** The third component of the statistics. *)
Definition most_common_of (r : option (nat * float * string * Z)) : option string :=
  (λ '(_, _, m, _), m) <$> r.

(** A row with a given mood, for examples. *)
Definition sample_row (mood : string) : AnalyzedRow :=
  mkAnalyzed (Pandas.mkTs 2025 1 10 0 0 0) "title" "content" 0%float 0%float mood [].

(** *** The scale of the moods *)

(** The five categories, from the most negative to the most positive, and
    the place of a category on that scale. *)
Definition mood_scale : list string :=
  ["Very Negative"; "Negative"; "Neutral"; "Positive"; "Very Positive"].
Definition mood_rank (category : string) : nat :=
  default 0%nat (fst <$> list_find (λ c, c = category) mood_scale).

(** *** The most frequent keywords *)

(** [keyword_counts[keyword] = keyword_counts.get(keyword, 0) + 1] on a dict,
    whose items stand in the order in which their keys came in. *)
Fixpoint count_keyword (keyword_counts : list (string * nat)) (keyword : string)
    : list (string * nat) :=
  match keyword_counts with
  | [] => [(keyword, 1%nat)]
  | (k, n) :: d =>
      if String.eqb k keyword then (k, S n) :: d else (k, n) :: count_keyword d keyword
  end.

Definition get_common_keywords (df : list AnalyzedRow) (top_n : Z) : list (string * nat) :=
  let all_keywords := foldl (λ all_keywords keywords, (all_keywords ++ keywords)%list) []
                             (keywords <$> df) in
  let keyword_counts := foldl count_keyword [] all_keywords in
  let sorted_keywords := sorted_reverse snd keyword_counts in
  slice_to sorted_keywords top_n.

End Nlp.

(** ** app/db.py *)

Module Db.

Import PyStr.
Local Open Scope string_scope.

(** A cell of a DataFrame row. *)
Inductive Cell :=
| CNone
| CStr (s : string)
| CFloat (f : float)
| CList (l : list string)
| CTimestamp (t : Pandas.Timestamp).

(** A value held by SQLite. *)
Inductive SqlVal :=
| SNull
| SText (s : string)
| SReal (f : float).

Global Instance SqlVal_inhabited : Inhabited SqlVal := populate SNull.

Inductive Exn :=
| KeyError (key : string)
| TypeError
| SqliteError        (* any [sqlite3.Error] *)
| ValueError         (* a date that [pd.to_datetime] rejects *)
| Unmodelled.        (* a conversion this model does not describe *)

Inductive result (A : Type) :=
| Ok (a : A)
| Raise (e : Exn).
Global Arguments Ok {A} _.
Global Arguments Raise {A} _.

Definition bind {A B} (m : result A) (k : A → result B) : result B :=
  match m with
  | Ok a => k a
  | Raise e => Raise e
  end.
Notation "'do' x <- m ; k" := (bind m (λ x, k))
  (at level 10, x name, m at level 100, k at level 200).

(** The DataFrame row of an analysed entry. *)
Definition row_of (e : Nlp.AnalyzedRow) : gmap string Cell :=
  {[ "date" := CTimestamp (Nlp.date e);
     "title" := CStr (Nlp.title e);
     "content" := CStr (Nlp.content e);
     "sentiment_score" := CFloat (Nlp.sentiment_score e);
     "subjectivity_score" := CFloat (Nlp.subjectivity_score e);
     "mood_category" := CStr (Nlp.mood_category e);
     "keywords" := CList (Nlp.keywords e) ]}.

(** A row of the table [journal_entries]; the columns [id] and
    [created_at], which no query reads, are left out. *)
Record StoredRow := mkStored {
  s_date : string;
  s_title : SqlVal;
  s_content : SqlVal;
  s_sentiment_score : SqlVal;
  s_mood_category : SqlVal;
  s_keywords : string
}.

(** The table in insertion order: what the connection sees, and what the
    last commit made durable. *)
Record Store := mkStore {
  rows : list StoredRow;
  committed : list StoredRow
}.

Definition empty_store : Store := mkStore [] [].

(** [row[key]] and [row.get(key, default)] *)
Definition getitem (row : gmap string Cell) (key : string) : result Cell :=
  match row !! key with
  | Some c => Ok c
  | None => Raise (KeyError key)
  end.
Definition get (row : gmap string Cell) (key : string) (dflt : Cell) : Cell :=
  default dflt (row !! key).

(** Python truth of a cell *)
Definition truthy (c : Cell) : bool :=
  match c with
  | CNone => false
  | CStr s => negb (String.eqb s "")
  | CFloat f => negb (f =? 0)%float
  | CList l => negb (bool_decide (l = []))
  | CTimestamp _ => true
  end.

(** [str(c)] *)
Definition py_str (c : Cell) : result string :=
  match c with
  | CStr s => Ok s
  | CTimestamp t => Ok (Pandas.ts_str t)
  | CNone => Ok "None"
  | CFloat _ | CList _ => Raise Unmodelled
  end.

Fixpoint chars (s : string) : list string :=
  match s with
  | "" => []
  | String c s' => String c "" :: chars s'
  end.

(** [','.join(c)] *)
Definition join_cell (c : Cell) : result string :=
  match c with
  | CList l => Ok (join "," l)
  | CStr s => Ok (join "," (chars s))
  | _ => Raise TypeError
  end.

(** Binding a parameter for a TEXT and for a REAL column. *)
Definition bind_text (c : Cell) : result SqlVal :=
  match c with
  | CNone => Ok SNull
  | CStr s => Ok (SText s)
  | CFloat _ => Raise Unmodelled
  | CList _ | CTimestamp _ => Raise SqliteError
  end.
Definition bind_real (c : Cell) : result SqlVal :=
  match c with
  | CNone => Ok SNull
  | CFloat f => Ok (if is_nan f then SNull else SReal f)
  | CStr _ => Raise Unmodelled
  | CList _ | CTimestamp _ => Raise SqliteError
  end.

Definition not_null (v : SqlVal) : result SqlVal :=
  match v with
  | SNull => Raise SqliteError
  | _ => Ok v
  end.

(** The body of the loop of [insert_entries], for one row: the keyword text,
    the arguments of [execute] from left to right, then the statement itself,
    which binds its parameters in order and checks [content] for NULL. *)
Definition insert_row (row : gmap string Cell) : result StoredRow :=
  do keywords_str <-
    (if truthy (get row "keywords" CNone)
     then join_cell (get row "keywords" (CList []))
     else Ok "");
  do date <- getitem row "date";
  do date <- py_str date;
  let title := get row "title" (CStr "") in
  do content <- getitem row "content";
  let sentiment_score := get row "sentiment_score" (CFloat 0%float) in
  let mood_category := get row "mood_category" (CStr "Neutral") in
  do title <- bind_text title;
  do content <- bind_text content;
  do sentiment_score <- bind_real sentiment_score;
  do mood_category <- bind_text mood_category;
  do content <- not_null content;
  Ok (mkStored date title content sentiment_score mood_category keywords_str).

(** The loop: the store as the connection sees it after each row. *)
Fixpoint insert_loop (db : Store) (df : list (gmap string Cell)) (inserted_count : nat)
    : Store * result nat :=
  match df with
  | [] => (db, Ok inserted_count)
  | row :: df' =>
      match insert_row row with
      | Ok r => insert_loop (mkStore (rows db ++ [r]) (committed db)) df' (S inserted_count)
      | Raise e => (db, Raise e)
      end
  end.

(** [insert_entries]: commit on success, roll back on an [sqlite3.Error],
    and let any other exception pass. *)
Definition insert_entries (db : Store) (df : list (gmap string Cell)) : Store * result nat :=
  match insert_loop db df 0 with
  | (db', Ok n) => (mkStore (rows db') (rows db'), Ok n)
  | (db', Raise SqliteError) => (mkStore (committed db') (committed db'), Raise SqliteError)
  | (db', Raise e) => (db', Raise e)
  end.

(** A row of a query result. *)
Record QueryRow := mkQuery {
  q_date : Pandas.Timestamp;
  q_title : SqlVal;
  q_content : SqlVal;
  q_sentiment_score : SqlVal;
  q_mood_category : SqlVal;
  q_keywords : list string
}.

(** [x.split(',') if x else []] *)
Definition split_keywords (x : string) : list string :=
  if String.eqb x "" then [] else split "," x.

(** The two conversions applied to every query result. *)
Definition read_row (r : StoredRow) : result QueryRow :=
  match Pandas.to_datetime (s_date r) with
  | Some t =>
      Ok (mkQuery t (s_title r) (s_content r) (s_sentiment_score r) (s_mood_category r)
                  (split_keywords (s_keywords r)))
  | None => Raise ValueError
  end.
Fixpoint read_rows (rs : list StoredRow) : result (list QueryRow) :=
  match rs with
  | [] => Ok []
  | r :: rs' =>
      do q <- read_row r;
      do qs <- read_rows rs';
      Ok (q :: qs)
  end.

(** What one analysed entry becomes in the table. *)
Definition stored_of (e : Nlp.AnalyzedRow) : StoredRow :=
  mkStored (Pandas.ts_str (Nlp.date e)) (SText (Nlp.title e)) (SText (Nlp.content e))
           (if is_nan (Nlp.sentiment_score e) then SNull else SReal (Nlp.sentiment_score e))
           (SText (Nlp.mood_category e))
           (if bool_decide (Nlp.keywords e = []) then "" else join "," (Nlp.keywords e)).

(** The record an analysed entry is expected to come back as. *)
Definition query_of (e : Nlp.AnalyzedRow) : QueryRow :=
  mkQuery (Nlp.date e) (SText (Nlp.title e)) (SText (Nlp.content e))
          (SReal (Nlp.sentiment_score e)) (SText (Nlp.mood_category e)) (Nlp.keywords e).

(** A store whose dates all parse, as they do when every row was inserted
    with a timestamp for its date. *)
Definition readable (db : Store) : Prop :=
  Forall (λ r, is_Some (Pandas.to_datetime (s_date r))) (rows db).

(** [ORDER BY date DESC]: text compared code point by code point. *)
Definition date_desc (a b : StoredRow) : Prop := String.le (s_date b) (s_date a).

Section Queries.

(** The sort behind [ORDER BY], which SQL leaves free among equal dates. *)
Context (order_by_date_desc : SortBy date_desc).

Definition get_all_entries (db : Store) : result (list QueryRow) :=
  read_rows (sort_by order_by_date_desc (rows db)).

(** [WHERE date BETWEEN ? AND ?] *)
Definition between_dates (start_date end_date : string) (r : StoredRow) : bool :=
  bool_decide (String.le start_date (s_date r)) && bool_decide (String.le (s_date r) end_date).

Definition get_entries_by_date_range (db : Store) (start_date end_date : string)
    : result (list QueryRow) :=
  read_rows (sort_by order_by_date_desc
               (filter (λ r, between_dates start_date end_date r = true) (rows db))).

End Queries.

(** *** The other queries *)

(** [WHERE mood_category = ?]: text equal to the parameter; NULL is equal
    to nothing. *)
Definition has_mood (mood_category : string) (r : StoredRow) : bool :=
  match s_mood_category r with
  | SText m => String.eqb m mood_category
  | _ => false
  end.

(** SQLite folds the case of the 26 letters of ASCII, and of no other
    character, when it compares for [LIKE]. *)
Definition fold_case (c : ascii) : ascii :=
  if is_upper_az c then ascii_of_N (code c + 32) else c.

(** Modelled from the SQLite documentation: [text LIKE pattern], where [%]
    stands for any run of characters, [_] for any one character, and any
    other character for itself in either case. The limit that SQLite puts
    on the length of a pattern (50000 bytes by default) is left out. *)
Fixpoint like (pattern : string) : string → bool :=
  match pattern with
  | "" => λ text, String.eqb text ""
  | String p pattern' =>
      if Ascii.eqb p "%" then
        fix any (text : string) : bool :=
          like pattern' text
          || match text with
             | String _ text' => any text'
             | "" => false
             end
      else if Ascii.eqb p "_" then
        λ text, match text with
                | String _ text' => like pattern' text'
                | "" => false
                end
      else
        λ text, match text with
                | String c text' =>
                    Ascii.eqb (fold_case c) (fold_case p) && like pattern' text'
                | "" => false
                end
  end.

(** [column LIKE ?] on the value of a TEXT column, which is a text or NULL:
    NULL is like nothing. *)
Definition like_value (pattern : string) (v : SqlVal) : bool :=
  match v with
  | SText s => like pattern s
  | _ => false
  end.

(** [WHERE content LIKE ? OR title LIKE ?] *)
Definition matches_search (search_pattern : string) (r : StoredRow) : bool :=
  like_value search_pattern (s_content r) || like_value search_pattern (s_title r).

(** [DELETE FROM journal_entries], committed. *)
Definition clear_database (db : Store) : Store := mkStore [] [].

Section MoreQueries.

Context (order_by_date_desc : SortBy date_desc).

Definition get_entries_by_mood (db : Store) (mood_category : string)
    : result (list QueryRow) :=
  read_rows (sort_by order_by_date_desc
               (filter (λ r, has_mood mood_category r = true) (rows db))).

Definition search_entries (db : Store) (search_term : string) : result (list QueryRow) :=
  let search_pattern := "%" +:+ search_term +:+ "%" in
  read_rows (sort_by order_by_date_desc
               (filter (λ r, matches_search search_pattern r = true) (rows db))).

End MoreQueries.



(** A store whose dates are the texts of timestamps, as [insert_entries]
    writes them for the rows whose date is a timestamp. *)
Definition timestamped (db : Store) : Prop :=
  Forall (λ r, ∃ t, Pandas.valid t = true ∧ s_date r = Pandas.ts_str t) (rows db).

End Db.

(** ** test_date_validation.py *)

Module DateValidation.

Import PyStr Regex.
Local Open Scope string_scope.

(** The date text of the first two patterns. *)
Definition numeric_date_str (m : rmatch) : string :=
  let month := group m 1 in
  let day := group m 2 in
  let year := group m 3 in
  let year := if (String.length year =? 2)%nat then "20" +:+ year else year in
  year +:+ "-" +:+ format_02d (int_of month) +:+ "-" +:+ format_02d (int_of day).

(** The copy of [extract_date_from_filename] that the validation script
    keeps: the same cleaning and the same three patterns, and the date text
    alone for a result. *)
Definition extract_date_from_filename (filename : string) : option string :=
  let name := strip (re_sub_empty Converter.hash_re (Converter.splitext_root filename)) in
  match re_match Converter.weekday_re name with
  | Some m => Some (numeric_date_str m)
  | None =>
  match re_match Converter.numeric_re name with
  | Some m => Some (numeric_date_str m)
  | None =>
  match re_search Converter.month_name_re name with
  | Some m =>
      let month := default 0%Z (Converter.month_map !! lower (str_take 3 (group m 1))) in
      let day := group m 2 in
      let year := group m 3 in
      Some (year +:+ "-" +:+ format_02d month +:+ "-" +:+ format_02d (int_of day))
  | None => None
  end end end.

(** A class of the form [[a-b]] *)
Definition range (lo hi : ascii) : regex := Chr (in_range (code lo) (code hi)).

(** Modelled from the Python library: the expression to which [strptime]
    compiles the format [%Y-%m-%d], under [re.IGNORECASE],
    [(?P<Y>\d\d\d\d)-(?P<m>1[0-2]|0[1-9]|[1-9])-(?P<d>3[0-1]|[1-2]\d|0[1-9]|[1-9]| [1-9])];
    the groups Y, m and d are 1, 2 and 3. *)
Definition format_regex : regex :=
  seq [Grp 1 (seq [Chr is_digit; Chr is_digit; Chr is_digit; Chr is_digit]);
       ichar "-";
       Grp 2 (alts [seq [ichar "1"; range "0" "2"];
                    seq [ichar "0"; range "1" "9"];
                    range "1" "9"]);
       ichar "-";
       Grp 3 (alts [seq [ichar "3"; range "0" "1"];
                    seq [range "1" "2"; Chr is_digit];
                    seq [ichar "0"; range "1" "9"];
                    range "1" "9";
                    seq [ichar " "; range "1" "9"]])].

(** The characters of the group of the day. *)
Definition digit_or_space (c : ascii) : bool := is_digit c || Ascii.eqb c " ".

(** [int(s)] for digits with white space around them *)
Definition py_int (s : string) : Z := int_of (strip s).

(** [datetime.strptime(date_str, '%Y-%m-%d')]: the year, the month and the
    day of the date, and [None] for a [ValueError]: a text that the format
    does not match, a text with more behind the match, or numbers that are
    no date of the calendar. *)
Definition strptime (date_str : string) : option (Z * Z * Z) :=
  match re_match format_regex date_str with
  | None => None
  | Some found =>
      if negb (m_end found =? String.length date_str)%nat then None
      else
        let year := py_int (group found 1) in
        let month := py_int (group found 2) in
        let day := py_int (group found 3) in
        if (1 <=? year)%Z && (year <=? 9999)%Z && (1 <=? month)%Z && (month <=? 12)%Z
           && (1 <=? day)%Z && (day <=? Pandas.days_in_month year month)%Z
        then Some (year, month, day)
        else None
  end.

(** The message that comes with the answer of [is_valid_date]. *)
Inductive Message :=
| ValidDate
| YearOutsideRange (year : Z)      (* outside 1900-2100 *)
| TooFarInFuture                   (* more than 10 years from now *)
| TooFarInPast                     (* more than 50 years ago *)
| InvalidFormat.                   (* the [ValueError] of [strptime] *)

(** [current_year] is [datetime.now().year]. *)
Definition is_valid_date (current_year : Z) (date_str : string) : bool * Message :=
  match strptime date_str with
  | Some (year, _, _) =>
      if (year <? 1900)%Z || (2100 <? year)%Z then (false, YearOutsideRange year)
      else if (current_year + 10 <? year)%Z then (false, TooFarInFuture)
      else if (year <? current_year - 50)%Z then (false, TooFarInPast)
      else (true, ValidDate)
  | None => (false, InvalidFormat)
  end.

(** An entry of [issues_found]. *)
Inductive Issue :=
| NoDateFound (file : string)                              (* a warning *)
| DateIssue (file date : string) (issue : Message).        (* an error *)

(** One round of the loop over the files. *)
Definition check_file (current_year : Z) (acc : list Issue * nat) (file_name : string)
    : list Issue * nat :=
  let '(issues_found, valid_files) := acc in
  match extract_date_from_filename file_name with
  | Some date_str =>
      if String.eqb date_str "" then ((issues_found ++ [NoDateFound file_name])%list, valid_files)
      else
        let '(is_valid, message) := is_valid_date current_year date_str in
        if is_valid then (issues_found, S valid_files)
        else ((issues_found ++ [DateIssue file_name date_str message])%list, valid_files)
  | None => ((issues_found ++ [NoDateFound file_name])%list, valid_files)
  end.

(** [journal_dir] is [None] when the directory does not exist, and else the
    names of its Markdown files. *)
Definition test_journal_dates (current_year : Z) (journal_dir : option (list string)) : bool :=
  match journal_dir with
  | None => false
  | Some md_files =>
      if bool_decide (md_files = []) then false
      else
        let '(issues_found, valid_files) := foldl (check_file current_year) ([], 0%nat) md_files in
        bool_decide (issues_found = [])
  end.

End DateValidation.

(** * Properties *)

(** ** Binary64 comparisons *)

Module F64.

Definition lt_cmp (c : option comparison) : bool :=
  match c with Some Lt => true | _ => false end.
Definition le_cmp (c : option comparison) : bool :=
  match c with Some (Lt | Eq) => true | _ => false end.

Lemma pos_cont_Eq (m n : positive) : Pos.compare_cont Eq m n = (m ?= n)%positive.
Proof. reflexivity. Qed.

Ltac cmp_cases :=
  repeat match goal with
  | |- context [Pos.compare_cont Eq ?a ?b] =>
      change (Pos.compare_cont Eq a b) with (Pos.compare a b)
  | H : context [Pos.compare_cont Eq ?a ?b] |- _ =>
      change (Pos.compare_cont Eq a b) with (Pos.compare a b) in H
  | |- context [Z.compare ?a ?b] =>
      destruct (Z.compare_spec a b); subst; simpl
  | H : context [Z.compare ?a ?b] |- _ =>
      destruct (Z.compare_spec a b); subst; simpl in H
  | |- context [Pos.compare ?a ?b] =>
      destruct (Pos.compare_spec a b); subst; simpl
  | H : context [Pos.compare ?a ?b] |- _ =>
      destruct (Pos.compare_spec a b); subst; simpl in H
  end.

Lemma SFcompare_antisym (x y : spec_float) :
  SFcompare y x = option_map CompOpp (SFcompare x y).
Proof.
  destruct x as [[]|[]| |[] mx ex], y as [[]|[]| |[] my ey]; simpl; try reflexivity;
    rewrite ?pos_cont_Eq, (Z.compare_antisym ex ey), (Pos.compare_antisym mx my);
    destruct (ex ?= ey); simpl; try reflexivity;
    destruct (mx ?= my)%positive; reflexivity.
Qed.

Lemma SFcompare_le_lt_trans (x y z : spec_float) :
  le_cmp (SFcompare x y) = true → lt_cmp (SFcompare y z) = true →
  lt_cmp (SFcompare x z) = true.
Proof.
  destruct x as [[]|[]| |[] mx ex], y as [[]|[]| |[] my ey], z as [[]|[]| |[] mz ez];
    simpl; try congruence; rewrite ?pos_cont_Eq; intros H1 H2;
    cmp_cases; simpl in *; try congruence; try lia.
Qed.

Lemma SFcompare_lt_le_trans (x y z : spec_float) :
  lt_cmp (SFcompare x y) = true → le_cmp (SFcompare y z) = true →
  lt_cmp (SFcompare x z) = true.
Proof.
  destruct x as [[]|[]| |[] mx ex], y as [[]|[]| |[] my ey], z as [[]|[]| |[] mz ez];
    simpl; try congruence; rewrite ?pos_cont_Eq; intros H1 H2;
    cmp_cases; simpl in *; try congruence; try lia.
Qed.

(** [a < b] excludes [b <= a]. *)
Lemma ltb_not_leb (a b : float) : (a <? b)%float = true → (b <=? a)%float = false.
Proof.
  rewrite ltb_spec, leb_spec. unfold SFltb, SFleb.
  rewrite (SFcompare_antisym (Prim2SF a) (Prim2SF b)).
  destruct (SFcompare (Prim2SF a) (Prim2SF b)) as [[]|]; simpl; congruence.
Qed.

Lemma leb_ltb_trans (a b c : float) :
  (a <=? b)%float = true → (b <? c)%float = true → (a <? c)%float = true.
Proof. rewrite !ltb_spec, leb_spec. apply SFcompare_le_lt_trans. Qed.

Lemma ltb_leb_trans (a b c : float) :
  (a <? b)%float = true → (b <=? c)%float = true → (a <? c)%float = true.
Proof. rewrite !ltb_spec, leb_spec. apply SFcompare_lt_le_trans. Qed.

(** On comparable values (neither is NaN) the order is total. *)
Lemma leb_false_ltb (a b : float) :
  (a <=? a)%float = true → (b <=? b)%float = true →
  (a <=? b)%float = false → (b <? a)%float = true.
Proof.
  rewrite ltb_spec, !leb_spec. unfold SFltb, SFleb.
  rewrite (SFcompare_antisym (Prim2SF a) (Prim2SF b)).
  destruct (Prim2SF a) as [[]|[]| |[] ma ea], (Prim2SF b) as [[]|[]| |[] mb eb];
    simpl; try congruence; intros Ha Hb Hab;
    cmp_cases; simpl in *; try congruence; try lia.
Qed.

Lemma leb_refl_l (a b : float) : (a <=? b)%float = true → (a <=? a)%float = true.
Proof.
  rewrite !leb_spec. unfold SFleb.
  destruct (Prim2SF a) as [[]|[]| |[] ma ea], (Prim2SF b) as [[]|[]| |[] mb eb];
    simpl; try congruence; intros _;
    change (Pos.compare_cont Eq ma ma) with (Pos.compare ma ma);
    rewrite Z.compare_refl, Pos.compare_refl; reflexivity.
Qed.

(** A value that compares below another one is a number. *)
Lemma leb_not_nan (a b : float) : (a <=? b)%float = true → is_nan a = false.
Proof.
  unfold is_nan. rewrite FloatAxioms.eqb_spec, leb_spec. unfold SFeqb, SFleb.
  destruct (Prim2SF a) as [[]|[]| |[] ma ea], (Prim2SF b) as [[]|[]| |[] mb eb];
    simpl; try congruence; intros _;
    change (Pos.compare_cont Eq ma ma) with (Pos.compare ma ma);
    rewrite Z.compare_refl, Pos.compare_refl; reflexivity.
Qed.

End F64.

(** ** Strings *)

Module PyStrFacts.

Import PyStr.
Local Open Scope string_scope.

Lemma app_cons (c : ascii) (s t : string) : String c s +:+ t = String c (s +:+ t).
Proof. reflexivity. Qed.
Lemma app_nil_l (t : string) : "" +:+ t = t.
Proof. reflexivity. Qed.
Lemma app_nil_r (s : string) : s +:+ "" = s.
Proof. induction s as [|c s IH]; [done|]. by rewrite app_cons, IH. Qed.
Lemma app_assoc (s t u : string) : (s +:+ t) +:+ u = s +:+ t +:+ u.
Proof. induction s as [|c s IH]; [done|]. by rewrite !app_cons, IH. Qed.
Lemma length_app (s t : string) :
  String.length (s +:+ t) = (String.length s + String.length t)%nat.
Proof. induction s as [|c s IH]; [done|]. rewrite app_cons. simpl. by rewrite IH. Qed.

Lemma rev_app_rev_app (k a b : string) :
  String.rev_app (String.rev_app k a) b = String.rev_app a (k +:+ b).
Proof.
  revert a b. induction k as [|c k IH]; intros a b; [done|].
  simpl. by rewrite IH.
Qed.

Lemma rev_involutive (s : string) : String.rev (String.rev s) = s.
Proof. unfold String.rev. rewrite rev_app_rev_app. simpl. apply app_nil_r. Qed.

Example strip_ex : strip "  - a b  " = "- a b".
Proof. reflexivity. Qed.
Example lstrip_char_ex : lstrip_char "-" "-- a-b" = " a-b".
Proof. reflexivity. Qed.
Example split_ex : split "," "a,,b" = ["a"; ""; "b"] ∧ split "," "" = [""].
Proof. split; reflexivity. Qed.
Example split_ws_ex : split_ws "  ab   c d " = ["ab"; "c"; "d"] ∧ split_ws "   " = [].
Proof. split; reflexivity. Qed.
Example join_ex : join "," ["a"; "b"; "c"] = "a,b,c" ∧ join "," [] = "".
Proof. split; reflexivity. Qed.
Example format_ex : format_02d 7 = "07" ∧ format_02d 45 = "45" ∧ str_of_int 2025 = "2025".
Proof. split_and!; reflexivity. Qed.
Example rfind_ex : rfind "." "a.b.c" = 3%Z ∧ rfind "/" "abc" = (-1)%Z.
Proof. split; reflexivity. Qed.
Example lower_ex : lower "Hello, World" = "hello, world".
Proof. reflexivity. Qed.

(** *** Blank lines *)

Lemma all_chars_rev_app (p : ascii → bool) (s acc : string) :
  all_chars p (String.rev_app s acc) = all_chars p s && all_chars p acc.
Proof.
  revert acc. induction s as [|c s IH]; intros acc; [done|].
  simpl. rewrite IH. simpl. destruct (p c), (all_chars p s); simpl; auto.
Qed.

Lemma all_chars_rev (p : ascii → bool) (s : string) :
  all_chars p (String.rev s) = all_chars p s.
Proof. unfold String.rev. rewrite all_chars_rev_app. simpl. by rewrite andb_true_r. Qed.

Lemma drop_while_nil (p : ascii → bool) (s : string) :
  drop_while p s = "" → all_chars p s = true.
Proof.
  induction s as [|c s IH]; [done|]. simpl. destruct (p c); [|done]. intros. by apply IH.
Qed.

Lemma all_chars_drop_while (p : ascii → bool) (s : string) :
  all_chars p (drop_while p s) = true → all_chars p s = true.
Proof.
  induction s as [|c s IH]; [done|]. simpl. destruct (p c) eqn:E; [done|].
  simpl. by rewrite E.
Qed.

Lemma rev_nil (s : string) : String.rev s = "" → s = "".
Proof. intros H. by rewrite <- (rev_involutive s), H. Qed.

(** A string that strips to nothing is made of white space. *)
Lemma strip_nil (s : string) : strip s = "" → all_chars is_space s = true.
Proof.
  unfold strip, rstrip_by, lstrip_by. intros H%rev_nil%drop_while_nil.
  rewrite all_chars_rev in H. by apply all_chars_drop_while.
Qed.

(** *** Prefixes, suffixes and the last character *)

Lemma length_drop (n : nat) (s : string) :
  String.length (str_drop n s) = (String.length s - n)%nat.
Proof. revert s. induction n as [|n IH]; intros [|c s]; simpl; auto. Qed.

Lemma take_app_length (a b : string) : str_take (String.length a) (a +:+ b) = a.
Proof. induction a as [|c a IH]; [by destruct b|]. rewrite app_cons. simpl. by rewrite IH. Qed.

Lemma drop_app_length (a b : string) : str_drop (String.length a) (a +:+ b) = b.
Proof. induction a as [|c a IH]; [by destruct b|]. rewrite app_cons. simpl. by rewrite IH. Qed.

Lemma take_length (a : string) : str_take (String.length a) a = a.
Proof. induction a as [|c a IH]; [done|]. simpl. by rewrite IH. Qed.

Lemma take_drop_app (k : nat) (a b : string) :
  (k <= String.length a)%nat →
  str_take (String.length a - k) (str_drop k (a +:+ b)) = str_drop k a.
Proof.
  revert a. induction k as [|k IH]; intros a Hk.
  - rewrite Nat.sub_0_r. simpl. destruct (a +:+ b) eqn:E; destruct a; try done;
      rewrite <- E; apply take_app_length.
  - destruct a as [|c a]; [simpl in Hk; lia|]. rewrite app_cons. simpl.
    apply IH. simpl in Hk. lia.
Qed.

Lemma str_last_app (a b : string) : b ≠ "" → str_last (a +:+ b) = str_last b.
Proof.
  intros Hb. induction a as [|c a IH]; [done|]. rewrite app_cons. simpl.
  destruct (a +:+ b) eqn:E; [|done]. destruct a; [|done]. by rewrite app_nil_l in E.
Qed.

Lemma str_last_drop (n : nat) (s : string) :
  (n < String.length s)%nat → str_last (str_drop n s) = str_last s.
Proof.
  revert s. induction n as [|n IH]; intros [|c s] Hn; simpl in Hn; try lia; [done|].
  cbn [str_drop]. rewrite IH by lia.
  destruct s; [simpl in Hn; lia|done].
Qed.

Lemma str_last_all (p : ascii → bool) (s : string) (c : ascii) :
  all_chars p s = true → str_last s = Some c → p c = true.
Proof.
  induction s as [|a s IH]; [done|]. simpl. intros [Ha Hs]%andb_prop.
  destruct s; [by intros [= <-]|]. by apply IH.
Qed.

Lemma str_last_is_Some (s : string) : s ≠ "" → is_Some (str_last s).
Proof.
  induction s as [|a s IH]; [done|]. intros _. simpl. destruct s; [by eexists|].
  by apply IH.
Qed.

Lemma drop_all (n : nat) (s : string) : (String.length s <= n)%nat → str_drop n s = "".
Proof.
  revert s. induction n as [|n IH]; intros [|c s] Hn; simpl in *; try done; try lia.
  apply IH. lia.
Qed.

Lemma take_all (n : nat) (s : string) : (String.length s <= n)%nat → str_take n s = s.
Proof.
  revert s. induction n as [|n IH]; intros [|c s] Hn; simpl in *; try done; try lia.
  rewrite IH; [done|lia].
Qed.

Lemma snoc_last (s : string) :
  s ≠ "" → ∃ s' c, s = s' +:+ String c "" ∧ str_last s = Some c.
Proof.
  induction s as [|a s IH]; [done|]. intros _. destruct s as [|b s].
  - by exists "", a.
  - destruct IH as (s' & c & Hs & Hc); [done|]. exists (String a s'), c.
    rewrite app_cons, <- Hs. split; [done|]. by rewrite <- Hc.
Qed.

(** *** The last index of a character *)

Lemma rfind_go_app (c : ascii) (a b : string) (i last : Z) :
  rfind_go c (a +:+ b) i last
  = rfind_go c b (i + Z.of_nat (String.length a)) (rfind_go c a i last).
Proof.
  revert i last. induction a as [|x a IH]; intros i last.
  - rewrite app_nil_l. simpl. by rewrite Z.add_0_r.
  - rewrite app_cons. cbn [rfind_go String.length]. rewrite IH. f_equal. lia.
Qed.

Lemma rfind_go_absent (c : ascii) (s : string) (i last : Z) :
  all_chars (λ x, negb (Ascii.eqb x c)) s = true → rfind_go c s i last = last.
Proof.
  revert i last. induction s as [|x s IH]; intros i last; [done|].
  simpl. intros [Hx Hs]%andb_prop. apply negb_true_iff in Hx. rewrite Hx. by apply IH.
Qed.

Lemma rfind_go_bound (c : ascii) (s : string) (i last : Z) :
  (last < i)%Z → (last <= rfind_go c s i last < i + Z.of_nat (String.length s))%Z.
Proof.
  revert i last. induction s as [|x s IH]; intros i last Hl.
  - simpl. lia.
  - cbn [rfind_go String.length]. destruct (Ascii.eqb x c).
    + pose proof (IH (i + 1)%Z i ltac:(lia)). lia.
    + pose proof (IH (i + 1)%Z last ltac:(lia)). lia.
Qed.

(** *** Decimal digits *)

Lemma digit_cases (d : Z) (P : Z → Prop) :
  (0 <= d < 10)%Z →
  P 0%Z → P 1%Z → P 2%Z → P 3%Z → P 4%Z → P 5%Z → P 6%Z → P 7%Z → P 8%Z → P 9%Z → P d.
Proof.
  intros Hd ??????????.
  assert (d = 0 ∨ d = 1 ∨ d = 2 ∨ d = 3 ∨ d = 4 ∨ d = 5 ∨ d = 6 ∨ d = 7 ∨ d = 8 ∨ d = 9)%Z
    as Hcases by lia.
  repeat (destruct Hcases as [->|Hcases]; [done|]). by subst.
Qed.

Lemma is_digit_digit_char (d : Z) : (0 <= d < 10)%Z → is_digit (digit_char d) = true.
Proof. intros Hd. by apply (digit_cases d (λ d, is_digit (digit_char d) = true)). Qed.

Lemma digit_val_digit_char (d : Z) : (0 <= d < 10)%Z → digit_val (digit_char d) = d.
Proof. intros Hd. by apply (digit_cases d (λ d, digit_val (digit_char d) = d)). Qed.

(** *** Splitting and joining *)

Lemma split_go_app (sep : ascii) (k cur s : string) :
  all_chars (λ c, negb (Ascii.eqb c sep)) k = true →
  split_go sep cur (k +:+ s) = split_go sep (String.rev_app k cur) s.
Proof.
  revert cur. induction k as [|c k IH]; intros cur Hk; [done|].
  simpl in Hk. apply andb_prop in Hk as [Hc Hk].
  rewrite app_cons. simpl. apply negb_true_iff in Hc. rewrite Hc. by apply IH.
Qed.

(** A word of a joined list comes back whole when it holds no separator. *)
Lemma split_join (sep : ascii) (l : list string) :
  l ≠ [] →
  Forall (λ k, all_chars (λ c, negb (Ascii.eqb c sep)) k = true) l →
  split sep (join (String sep "") l) = l.
Proof.
  intros Hl Hall. unfold split. induction Hall as [|k l Hk Hall IH]; [done|].
  destruct l as [|k' l'].
  - simpl. rewrite <- (app_nil_r k) at 1. rewrite split_go_app by done. simpl.
    fold (String.rev k). by rewrite rev_involutive.
  - change (join (String sep "") (k :: k' :: l'))
      with (k +:+ String sep "" +:+ join (String sep "") (k' :: l')).
    rewrite split_go_app by done. rewrite app_cons, app_nil_l. simpl.
    rewrite Ascii.eqb_refl. fold (String.rev k). rewrite rev_involutive.
    f_equal. by apply IH.
Qed.

End PyStrFacts.

(** ** The matcher on the patterns of fixed length *)

Module RegexFacts.

Import PyStr Regex.
Local Open Scope string_scope.
Local Open Scope nat_scope.

Lemma run_Chr (p : ascii → bool) (k : cont) (st : mstate) :
  run (Chr p) k st
  = match rest st with
    | String c s' => if p c then k (mkSt (S (pos st)) s' (groups st)) else None
    | "" => None
    end.
Proof. reflexivity. Qed.

Lemma run_Cat (r1 r2 : regex) (k : cont) (st : mstate) :
  run (Cat r1 r2) k st = run r1 (run r2 k) st.
Proof. reflexivity. Qed.

Lemma run_Rep (lo : nat) (hi : option nat) (r : regex) (k : cont) (st : mstate) :
  run (Rep lo hi r) k st = rep_loop (run r) (S (String.length (rest st))) lo hi k st.
Proof. reflexivity. Qed.

Lemma run_Eos (k : cont) (st : mstate) :
  run Eos k st = if at_end (rest st) then k st else None.
Proof. reflexivity. Qed.

Lemma at_end_last (t : string) : at_end t = true → t = "" ∨ str_last t = Some newline.
Proof.
  destruct t as [|c [|c' t]]; simpl; [by left| |done].
  intros H%Ascii.eqb_eq. subst. by right.
Qed.

(** [p{n}]: exactly [n] characters of the class, then the rest of the pattern. *)
Lemma rep_exact (p : ascii → bool) (n : nat) :
  ∀ fuel k st, String.length (rest st) < fuel →
    rep_loop (run (Chr p)) fuel n (Some n) k st
    = if (n <=? String.length (rest st)) && all_chars p (str_take n (rest st))
      then k (mkSt (pos st + n) (str_drop n (rest st)) (groups st))
      else None.
Proof.
  induction n as [|n IH]; intros fuel k [ps rs gs] Hfuel; cbn [rest pos groups] in *.
  - destruct fuel as [|f]; [lia|]. cbn. by rewrite Nat.add_0_r.
  - destruct fuel as [|f]; [lia|]. cbn [rep_loop may_repeat]. rewrite run_Chr.
    cbn [rest pos groups]. destruct rs as [|c s']; [done|].
    cbn [String.length] in Hfuel.
    cbn [str_take str_drop all_chars String.length].
    destruct (p c); [|cbn [andb Nat.eqb]; by rewrite andb_false_r].
    assert ((ps <? S ps) = true) as -> by (apply Nat.ltb_lt; lia).
    cbn [fmap option_fmap option_map Nat.pred].
    rewrite IH by (cbn [rest]; lia). cbn [rest pos groups].
    change (S n <=? S (String.length s')) with (n <=? String.length s').
    rewrite andb_true_l, Nat.add_succ_r.
    destruct ((n <=? String.length s') && all_chars p (str_take n s')); [|done].
    by destruct (k _).
Qed.

End RegexFacts.

(** ** Timestamps and the mode of a column *)

Module PandasFacts.

Import Pandas.
Local Open Scope string_scope.

(** *** Timestamps and their text *)

Lemma digits_n_fmt2 (n : Z) (rest : string) :
  (0 <= n < 100)%Z → digits_n 2 (fmt2 n +:+ rest) = Some (n, rest).
Proof.
  intros Hn. unfold digits_n, fmt2. rewrite !PyStrFacts.app_cons, PyStrFacts.app_nil_l.
  cbn [PyStr.str_take PyStr.str_drop String.length PyStr.all_chars Nat.eqb].
  assert (H1 : (0 <= n / 10 < 10)%Z) by (split; [apply Z.div_pos|apply Z.div_lt_upper_bound]; lia).
  assert (H2 : (0 <= n mod 10 < 10)%Z) by (apply Z.mod_pos_bound; lia).
  rewrite !PyStrFacts.is_digit_digit_char by done.
  cbn [andb]. unfold PyStr.int_of. cbn [PyStr.int_go].
  rewrite !PyStrFacts.digit_val_digit_char by done.
  do 2 f_equal. pose proof (Z.div_mod n 10). lia.
Qed.

Lemma digits_n_fmt4 (n : Z) (rest : string) :
  (0 <= n < 10000)%Z → digits_n 4 (fmt4 n +:+ rest) = Some (n, rest).
Proof.
  intros Hn. unfold digits_n, fmt4, fmt2.
  rewrite !PyStrFacts.app_cons, PyStrFacts.app_nil_l.
  cbn [PyStr.str_take PyStr.str_drop String.length PyStr.all_chars Nat.eqb].
  assert (H1 : (0 <= n / 1000 < 10)%Z) by (split; [apply Z.div_pos|apply Z.div_lt_upper_bound]; lia).
  assert (H2 : (0 <= n / 100 mod 10 < 10)%Z) by (apply Z.mod_pos_bound; lia).
  assert (H3 : (0 <= n mod 100 / 10 < 10)%Z).
  { pose proof (Z.mod_pos_bound n 100).
    split; [apply Z.div_pos|apply Z.div_lt_upper_bound]; lia. }
  assert (H4 : (0 <= n mod 100 mod 10 < 10)%Z) by (apply Z.mod_pos_bound; lia).
  rewrite !PyStrFacts.is_digit_digit_char by done.
  cbn [andb]. unfold PyStr.int_of. cbn [PyStr.int_go].
  rewrite !PyStrFacts.digit_val_digit_char by done.
  do 2 f_equal.
  pose proof (Z.div_mod n 100). pose proof (Z.div_mod (n mod 100) 10).
  pose proof (Z.div_mod (n / 100) 10).
  assert (n / 1000 = n / 100 / 10)%Z by (rewrite Z.div_div by lia; done).
  lia.
Qed.

Lemma expect_app (c : ascii) (rest : string) : expect c (String c "" +:+ rest) = Some rest.
Proof. rewrite PyStrFacts.app_cons, PyStrFacts.app_nil_l. simpl. by rewrite Ascii.eqb_refl. Qed.

Lemma days_in_month_le (y m : Z) : (days_in_month y m <= 31)%Z.
Proof. unfold days_in_month. repeat case_match; lia. Qed.

(** What a valid timestamp knows of its fields. *)
Lemma valid_fields (t : Timestamp) :
  valid t = true →
  (1 <= year t <= 9999 ∧ 1 <= month t <= 12 ∧ 1 <= day t <= 31
   ∧ 0 <= hour t < 24 ∧ 0 <= minute t < 60 ∧ 0 <= second t < 60)%Z.
Proof.
  unfold valid, calendar_ok. intros H. apply andb_prop in H as [H _].
  repeat (apply andb_prop in H as [H ?]).
  pose proof (days_in_month_le (year t) (month t)). lia.
Qed.

(** The text of a valid timestamp parses back to it. *)
Lemma to_datetime_ts_str (t : Timestamp) : valid t = true → to_datetime (ts_str t) = Some t.
Proof.
  intros Hv. pose proof (valid_fields t Hv) as (Hy & Hm & Hd & Hh & Hmi & Hs).
  unfold to_datetime, ts_str, date_str. rewrite !PyStrFacts.app_assoc.
  rewrite digits_n_fmt4 by lia. cbn [mbind option_bind]. rewrite expect_app.
  cbn [mbind option_bind]. rewrite digits_n_fmt2 by lia. cbn [mbind option_bind].
  rewrite expect_app. cbn [mbind option_bind]. rewrite digits_n_fmt2 by lia.
  cbn [mbind option_bind].
  rewrite (PyStrFacts.app_cons " " "" _), PyStrFacts.app_nil_l.
  cbn [String.eqb]. rewrite <- (PyStrFacts.app_nil_l (fmt2 (hour t) +:+ _)).
  rewrite <- (PyStrFacts.app_cons " " "" _), expect_app. cbn [mbind option_bind].
  rewrite digits_n_fmt2 by lia. cbn [mbind option_bind]. rewrite expect_app.
  cbn [mbind option_bind]. rewrite digits_n_fmt2 by lia. cbn [mbind option_bind].
  rewrite expect_app. cbn [mbind option_bind].
  rewrite <- (PyStrFacts.app_nil_r (fmt2 (second t))), digits_n_fmt2 by lia.
  cbn [mbind option_bind String.eqb]. unfold check.
  destruct t as [y m d h mi sec]. cbn [year month day hour minute second]. by rewrite Hv.
Qed.

(** A text followed by more text is above it in the order of strings. *)
Lemma le_app_false (s x : string) : x ≠ "" → ¬ String.le (s +:+ x) s.
Proof.
  intros Hx. unfold String.le, String.leb.
  assert (H : ((s +:+ x) ?= s)%string = Gt).
  { induction s as [|c s IH].
    - rewrite PyStrFacts.app_nil_l. by destruct x.
    - rewrite PyStrFacts.app_cons. simpl.
      assert (Ascii.compare c c = Eq) as -> by (unfold Ascii.compare; apply N.compare_refl).
      done. }
  rewrite H. simpl. tauto.
Qed.

Lemma elem_of_mode (col : list string) (x : string) :
  x ∈ mode col ↔
  x ∈ col ∧ count_of x col = max_list ((λ y, count_of y col) <$> col).
Proof.
  unfold mode. rewrite merge_sort_Permutation, elem_of_remove_dups, list_elem_of_filter.
  tauto.
Qed.

Lemma mode_nonempty (col : list string) : col ≠ [] → mode col ≠ [].
Proof.
  intros Hcol.
  assert (Hne : (λ y, count_of y col) <$> col ≠ []) by (by destruct col).
  apply max_list_elem_of in Hne. apply list_elem_of_fmap in Hne as (x & Hx & Hin).
  intros Hnil. assert (Hm : x ∈ mode col) by (by apply elem_of_mode).
  rewrite Hnil in Hm. by apply not_elem_of_nil in Hm.
Qed.

Lemma mode_head_least (col : list string) (m c : string) :
  head (mode col) = Some m → c ∈ mode col → String.le m c.
Proof.
  intros Hhd Hc. apply head_Some in Hhd as [l' Hl'].
  assert (Hs : StronglySorted String.le (mode col))
    by (unfold mode; apply StronglySorted_merge_sort; apply _).
  rewrite Hl' in Hs, Hc. apply StronglySorted_inv in Hs as [_ Hall].
  apply elem_of_cons in Hc as [->|Hc]; [done|].
  by eapply Forall_forall in Hall.
Qed.

End PandasFacts.

(** ** Mood categories (app/nlp_utils.py) *)

Module NlpFacts.

Import PyStr Nlp.
Local Open Scope string_scope.

(** C6. [categorize_mood] is defined on every score, and on the scores of
    [-1, 1] its five boundaries are closed on the upper side: a score [p <= -0.5]
    is "Very Negative", [-0.5 < p <= -0.1] is "Negative", [-0.1 < p <= 0.1] is
    "Neutral", [0.1 < p <= 0.5] is "Positive" and [0.5 < p] is "Very Positive";
    every score of [-1, 1] falls under exactly these five cases. *)
Theorem categorize_mood_boundaries (p : float) :
  ((p <=? -0.5)%float = true → categorize_mood p = "Very Negative")
  ∧ ((-0.5 <? p)%float = true → (p <=? -0.1)%float = true →
       categorize_mood p = "Negative")
  ∧ ((-0.1 <? p)%float = true → (p <=? 0.1)%float = true →
       categorize_mood p = "Neutral")
  ∧ ((0.1 <? p)%float = true → (p <=? 0.5)%float = true →
       categorize_mood p = "Positive")
  ∧ ((0.5 <? p)%float = true → categorize_mood p = "Very Positive")
  ∧ ((-1 <=? p)%float = true → (p <=? 1)%float = true →
       (p <=? -0.5)%float = true
       ∨ ((-0.5 <? p)%float = true ∧ (p <=? -0.1)%float = true)
       ∨ ((-0.1 <? p)%float = true ∧ (p <=? 0.1)%float = true)
       ∨ ((0.1 <? p)%float = true ∧ (p <=? 0.5)%float = true)
       ∨ (0.5 <? p)%float = true).
Proof.
  assert (Hchain : ∀ a b : float, (a <=? b)%float = true → (b <? p)%float = true →
                   (p <=? a)%float = false).
  { intros a b Hab Hb. apply F64.ltb_not_leb. by apply (F64.leb_ltb_trans a b p). }
  unfold categorize_mood. repeat split.
  - by intros ->.
  - intros H1 H2. by rewrite (F64.ltb_not_leb _ _ H1), H2.
  - intros H1 H2.
    rewrite (Hchain (-0.5)%float (-0.1)%float eq_refl H1).
    by rewrite (F64.ltb_not_leb _ _ H1), H2.
  - intros H1 H2.
    rewrite (Hchain (-0.5)%float (0.1)%float eq_refl H1).
    rewrite (Hchain (-0.1)%float (0.1)%float eq_refl H1).
    by rewrite (F64.ltb_not_leb _ _ H1), H2.
  - intros H1.
    rewrite (Hchain (-0.5)%float (0.5)%float eq_refl H1).
    rewrite (Hchain (-0.1)%float (0.5)%float eq_refl H1).
    rewrite (Hchain (0.1)%float (0.5)%float eq_refl H1).
    by rewrite (F64.ltb_not_leb _ _ H1).
  - intros Hlo Hhi.
    assert (Hp : (p <=? p)%float = true) by (by eapply F64.leb_refl_l).
    assert (Hcut : ∀ c : float, (c <=? c)%float = true →
              (p <=? c)%float = true ∨ (c <? p)%float = true).
    { intros c Hc. destruct (p <=? c)%float eqn:E; [by left|right].
      by apply F64.leb_false_ltb. }
    destruct (Hcut (-0.5)%float eq_refl) as [?|H1]; [by left|right].
    destruct (Hcut (-0.1)%float eq_refl) as [?|H2]; [by left|right].
    destruct (Hcut (0.1)%float eq_refl) as [?|H3]; [by left|right].
    destruct (Hcut (0.5)%float eq_refl) as [?|H4]; [by left|by right].
Qed.

(** The five boundary values of the specification, read off the theorem. *)
Lemma categorize_mood_boundaries_witness :
  categorize_mood (-0.5)%float = "Very Negative"
  ∧ categorize_mood (-0.1)%float = "Negative"
  ∧ categorize_mood (0.1)%float = "Neutral"
  ∧ categorize_mood (0.5)%float = "Positive"
  ∧ categorize_mood (0.50001)%float = "Very Positive".
Proof.
  refine (conj _ (conj _ (conj _ (conj _ _)))).
  - apply (proj1 (categorize_mood_boundaries (-0.5)%float)). reflexivity.
  - apply (proj1 (proj2 (categorize_mood_boundaries (-0.1)%float))); reflexivity.
  - apply (proj1 (proj2 (proj2 (categorize_mood_boundaries (0.1)%float)))); reflexivity.
  - apply (proj1 (proj2 (proj2 (proj2 (categorize_mood_boundaries (0.5)%float))))); reflexivity.
  - apply (proj1 (proj2 (proj2 (proj2 (proj2 (categorize_mood_boundaries (0.50001)%float)))))).
    reflexivity.
Defined.

(** *** Keyword extraction *)

Lemma slice_to_take {A} (l : list A) (k : Z) : ∃ n, slice_to l k = take n l.
Proof. unfold slice_to. destruct (k <? 0)%Z; eauto. Qed.

Lemma slice_to_nonneg {A} (l : list A) (k : Z) :
  (0 <= k)%Z → slice_to l k = take (Z.to_nat k) l.
Proof. intros Hk. unfold slice_to. destruct (Z.ltb_spec k 0); [lia|done]. Qed.

(** The loop is a filter over the cleaned words. *)
Lemma clean_and_filter_filter (min_length : Z) (words : list string) :
  clean_and_filter min_length words
  = filter (λ w, keeps min_length w = true) (clean <$> words).
Proof.
  induction words as [|w ws IH]; [done|].
  cbn [clean_and_filter]. rewrite fmap_cons, filter_cons.
  destruct (keeps min_length (clean w)) eqn:E.
  - rewrite decide_True by done. by rewrite IH.
  - rewrite decide_False by done. done.
Qed.






(** *** The most common mood *)

(** C4, as the code has it. For every non-empty table, [get_mood_statistics]
    returns a result, and its mode category is, among the categories that
    share the highest count, the least one in the order of strings (the mode
    of the column comes sorted, and its first value is taken). *)
Theorem mode_category_least_most_common
    (series_mean : list float → float) (df : list AnalyzedRow) :
  df ≠ [] →
  let col := mood_category <$> df in
  let top := max_list ((λ y, Pandas.count_of y col) <$> col) in
  ∃ m, most_common_of (get_mood_statistics series_mean df) = Some m
       ∧ m ∈ col ∧ Pandas.count_of m col = top
       ∧ ∀ c, c ∈ col → Pandas.count_of c col = top → String.le m c.
Proof.
  intros Hdf col top. destruct df as [|r df']; [done|].
  assert (Hcol : col ≠ []) by done.
  pose proof (PandasFacts.mode_nonempty col Hcol) as Hne.
  unfold get_mood_statistics. fold col.
  destruct (head (Pandas.mode col)) as [m|] eqn:Hhd.
  - exists m. split; [done|].
    assert (Hm : m ∈ Pandas.mode col) by (by eapply head_Some_elem_of).
    apply PandasFacts.elem_of_mode in Hm as [Hin Hcnt]. split_and!; [done..|].
    intros c Hc Hcc. eapply PandasFacts.mode_head_least; [done|].
    by apply PandasFacts.elem_of_mode.
  - destruct (Pandas.mode col); [done|discriminate].
Qed.

Lemma mode_category_least_most_common_witness :
  ∃ m, most_common_of (get_mood_statistics (λ _, 0%float)
                         [sample_row "Positive"; sample_row "Negative"; sample_row "Neutral";
                          sample_row "Negative"; sample_row "Positive"]) = Some m
       ∧ String.le m "Negative" ∧ String.le m "Positive".
Proof.
  destruct (mode_category_least_most_common (λ _, 0%float)
              [sample_row "Positive"; sample_row "Negative"; sample_row "Neutral";
               sample_row "Negative"; sample_row "Positive"] ltac:(discriminate))
    as (m & Hm & _ & _ & Hle).
  exists m. split; [exact Hm|].
  split; (apply Hle; [cbn; set_solver | by vm_compute]).
Defined.

(** C4 as stated fails: with one "Positive" row followed by one "Negative"
    row both categories have the highest count, "Positive" is met first, and
    the code answers "Negative". *)
Lemma mode_category_not_first_encountered :
  spec_first_encountered_mode
    (mood_category <$> [sample_row "Positive"; sample_row "Negative"]) = Some "Positive"
  ∧ ∀ series_mean,
      most_common_of (get_mood_statistics series_mean
                        [sample_row "Positive"; sample_row "Negative"]) = Some "Negative".
Proof. split; [by vm_compute|]. intros series_mean. by vm_compute. Qed.

End NlpFacts.

(** ** Conversion of the journal directory (convert_journal.py) *)

Module ConverterFacts.

Import PyStr Regex Converter.
Local Open Scope string_scope.

(** *** Cleaning the file name *)

Lemma run_hash_re (ps : nat) (s : string) (gs : list (nat * (nat * nat))) :
  run hash_re Some (mkSt ps s gs)
  = if hash_here s then Some (mkSt (ps + 33) (str_drop 33 s) gs) else None.
Proof.
  unfold hash_re, seq, between. rewrite RegexFacts.run_Cat, RegexFacts.run_Chr.
  cbn [rest pos groups]. destruct s as [|c s']; [done|]. cbn [hash_here].
  destruct (is_space c); [|done]. rewrite RegexFacts.run_Cat, RegexFacts.run_Rep.
  cbn [rest]. rewrite RegexFacts.rep_exact by (cbn [rest]; lia). cbn [rest pos groups].
  rewrite andb_true_l.
  destruct ((32 <=? String.length s')%nat && all_chars is_hex_lower (str_take 32 s'));
    [|done].
  rewrite RegexFacts.run_Eos. cbn [rest andb].
  change (str_drop 33 (String c s')) with (str_drop 32 s').
  destruct (at_end (str_drop 32 s')); [|done]. do 2 f_equal. lia.
Qed.

Lemma hash_here_short (t : string) : (String.length t < 33)%nat → hash_here t = false.
Proof.
  destruct t as [|c t']; [done|]. cbn [hash_here String.length]. intros Ht.
  assert ((32 <=? String.length t')%nat = false) as -> by (apply Nat.leb_gt; lia).
  by rewrite andb_false_r.
Qed.

(** A match ends the name: it takes the last 33 characters. *)
Lemma hash_here_length (t : string) (h : ascii) :
  str_last t = Some h → h ≠ newline → hash_here t = true → String.length t = 33%nat.
Proof.
  destruct t as [|c t']; [done|]. intros Hlast Hh H. cbn [hash_here] in H.
  apply andb_prop in H as [H Hend]. apply andb_prop in H as [H _].
  apply andb_prop in H as [_ Hlen]. apply Nat.leb_le in Hlen.
  cbn [String.length]. destruct (decide (String.length t' = 32%nat)) as [->|Hne]; [done|].
  exfalso. apply RegexFacts.at_end_last in Hend as [Hnil|Hnl].
  - pose proof (PyStrFacts.length_drop 32 t') as Hd. rewrite Hnil in Hd. simpl in Hd. lia.
  - rewrite PyStrFacts.str_last_drop in Hnl by lia.
    destruct t' as [|a t'']; [simpl in Hlen; lia|].
    change (str_last (String c (String a t''))) with (str_last (String a t'')) in Hlast.
    congruence.
Qed.

Lemma sub_go_no_match (t : string) :
  ∀ fuel start, (String.length t <= 33)%nat → hash_here t = false →
    sub_go hash_re fuel start t = t.
Proof.
  induction t as [|c t IH]; intros fuel start Hlen Hno.
  - destruct fuel; [done|]. cbn [sub_go]. by rewrite run_hash_re.
  - destruct fuel; [done|]. cbn [sub_go]. rewrite run_hash_re, Hno. f_equal.
    cbn [String.length] in Hlen. apply IH; [lia|]. apply hash_here_short. lia.
Qed.

(** The hash pattern is looked for at the end only: a name loses its last
    33 characters when they match, and nothing otherwise. *)
Lemma sub_go_tail (tail : string) (h : ascii) :
  String.length tail = 33%nat → str_last tail = Some h → h ≠ newline →
  ∀ stem fuel start, (String.length stem < fuel)%nat →
    sub_go hash_re fuel start (stem +:+ tail)
    = if hash_here tail then stem else stem +:+ tail.
Proof.
  intros Hlen Hlast Hh. induction stem as [|c stem IH]; intros fuel start Hfuel.
  - rewrite PyStrFacts.app_nil_l. destruct (hash_here tail) eqn:E.
    + destruct fuel as [|f]; [lia|]. cbn [sub_go]. rewrite run_hash_re, E.
      cbn [pos rest]. assert ((start <? start + 33)%nat = true) as ->
        by (apply Nat.ltb_lt; lia).
      rewrite PyStrFacts.drop_all by lia. destruct f; [done|].
      cbn [sub_go]. by rewrite run_hash_re.
    + apply sub_go_no_match; [lia|done].
  - destruct fuel as [|f]; [lia|]. rewrite PyStrFacts.app_cons. cbn [sub_go].
    rewrite run_hash_re.
    assert (hash_here (String c (stem +:+ tail)) = false) as ->.
    { destruct (hash_here (String c (stem +:+ tail))) eqn:E; [|done].
      apply (hash_here_length _ h) in E; [|by rewrite <- (PyStrFacts.app_cons c),
        PyStrFacts.str_last_app by (by destruct tail)|done].
      cbn [String.length] in E. rewrite PyStrFacts.length_app in E. lia. }
    cbn [String.length] in Hfuel. rewrite IH by lia.
    by destruct (hash_here tail).
Qed.

Lemma re_sub_hash_tail (stem tail : string) (h : ascii) :
  String.length tail = 33%nat → str_last tail = Some h → h ≠ newline →
  re_sub_empty hash_re (stem +:+ tail) = if hash_here tail then stem else stem +:+ tail.
Proof.
  intros. unfold re_sub_empty. eapply sub_go_tail; [done..|].
  rewrite PyStrFacts.length_app. lia.
Qed.

(** The extension goes when the name before it ends on a character that is
    neither a dot nor a slash. *)
Lemma splitext_root_ext (r ext : string) (h : ascii) :
  h ≠ "."%char → h ≠ "/"%char →
  all_chars (λ c, negb (Ascii.eqb c ".")) ext = true →
  all_chars (λ c, negb (Ascii.eqb c "/")) ext = true →
  splitext_root ((r +:+ String h "") +:+ "." +:+ ext) = r +:+ String h "".
Proof.
  intros Hdot Hsep Hext1 Hext2. unfold splitext_root, rfind.
  set (root := r +:+ String h "").
  assert (Hd : rfind_go "." (root +:+ "." +:+ ext) 0 (-1) = Z.of_nat (String.length root)).
  { rewrite PyStrFacts.rfind_go_app, PyStrFacts.app_cons, PyStrFacts.app_nil_l.
    cbn [rfind_go]. rewrite Ascii.eqb_refl. by rewrite PyStrFacts.rfind_go_absent. }
  assert (Hs : rfind_go "/" (root +:+ "." +:+ ext) 0 (-1) = rfind_go "/" r 0 (-1)).
  { rewrite PyStrFacts.rfind_go_app, PyStrFacts.app_cons, PyStrFacts.app_nil_l.
    cbn [rfind_go]. change (Ascii.eqb "." "/") with false.
    rewrite PyStrFacts.rfind_go_absent by done. unfold root.
    rewrite PyStrFacts.rfind_go_app. cbn [rfind_go].
    by rewrite (proj2 (Ascii.eqb_neq h "/") Hsep). }
  rewrite Hd, Hs. pose proof (PyStrFacts.rfind_go_bound "/" r 0 (-1) ltac:(lia)) as Hb.
  set (sep := rfind_go "/" r 0 (-1)) in *.
  assert (Hlen : String.length root = S (String.length r)).
  { unfold root. rewrite PyStrFacts.length_app. simpl. lia. }
  assert ((sep <? Z.of_nat (String.length root))%Z = true) as -> by (apply Z.ltb_lt; lia).
  replace (Z.to_nat (Z.of_nat (String.length root) - (sep + 1)))
    with (String.length root - Z.to_nat (sep + 1))%nat by lia.
  rewrite PyStrFacts.take_drop_app by lia.
  assert (all_chars (Ascii.eqb ".") (str_drop (Z.to_nat (sep + 1)) root) = false) as ->.
  { destruct (all_chars (Ascii.eqb ".") (str_drop (Z.to_nat (sep + 1)) root)) eqn:E;
      [|done].
    assert (Hl : str_last (str_drop (Z.to_nat (sep + 1)) root) = Some h).
    { rewrite PyStrFacts.str_last_drop by lia. unfold root.
      by rewrite PyStrFacts.str_last_app. }
    apply (PyStrFacts.str_last_all _ _ _ E) in Hl. apply Ascii.eqb_eq in Hl. congruence. }
  cbn [negb andb]. by rewrite Nat2Z.id, PyStrFacts.take_app_length.
Qed.

Lemma hash_here_tail (sep : ascii) (hash : string) :
  String.length hash = 32%nat → all_chars is_hex_lower hash = true →
  hash_here (String sep hash) = is_space sep.
Proof.
  intros Hlen Hhex. cbn [hash_here].
  rewrite PyStrFacts.take_all, PyStrFacts.drop_all, Hhex, Hlen by lia.
  cbn. by rewrite !andb_true_r.
Qed.

(** C8, as the code has it. For a file name made of a stem, one separating
    character, 32 lower-case hexadecimal digits and an extension, cleaning
    removes the extension, and removes the digits with their separator when
    the separator is a white-space character; behind any other separator, a
    hyphen among them, the digits stay. The date patterns are then tried on
    the cleaned name. *)
Theorem clean_name_hash_suffix (stem : string) (sep : ascii) (hash ext : string) :
  String.length hash = 32%nat → all_chars is_hex_lower hash = true →
  all_chars (λ c, negb (Ascii.eqb c ".")) ext = true →
  all_chars (λ c, negb (Ascii.eqb c "/")) ext = true →
  let cleaned := strip (if is_space sep then stem else stem +:+ String sep hash) in
  clean_name (stem +:+ String sep hash +:+ "." +:+ ext) = cleaned
  ∧ extract_date_from_filename (stem +:+ String sep hash +:+ "." +:+ ext)
    = match_patterns cleaned.
Proof.
  intros Hlen Hhex Hext1 Hext2 cleaned.
  assert (Hclean : clean_name (stem +:+ String sep hash +:+ "." +:+ ext) = cleaned).
  { destruct (PyStrFacts.snoc_last hash) as (hash' & h & Hhash & Hlast);
      [by destruct hash|].
    assert (Hh : is_hex_lower h = true) by (by eapply PyStrFacts.str_last_all).
    assert (Hdot : h ≠ "."%char) by (by intros ->).
    assert (Hsep : h ≠ "/"%char) by (by intros ->).
    assert (Hnl : h ≠ newline) by (by intros ->).
    unfold clean_name.
    replace (stem +:+ String sep hash +:+ "." +:+ ext)
      with (((stem +:+ String sep hash') +:+ String h "") +:+ "." +:+ ext).
    2: { rewrite Hhash, !PyStrFacts.app_assoc, !PyStrFacts.app_cons.
         by rewrite !PyStrFacts.app_assoc. }
    rewrite splitext_root_ext by done.
    replace ((stem +:+ String sep hash') +:+ String h "") with (stem +:+ String sep hash)
      by (by rewrite Hhash, !PyStrFacts.app_assoc, !PyStrFacts.app_cons).
    rewrite (re_sub_hash_tail stem (String sep hash) h); [|cbn; lia| |done].
    - by rewrite hash_here_tail.
    - rewrite <- Hlast. by destruct hash. }
  split; [done|]. unfold extract_date_from_filename. by rewrite Hclean.
Qed.

Lemma clean_name_hash_suffix_witness :
  clean_name ("2 27 2022 Job Grateful List" +:+ " 0123456789abcdef0123456789abcdef"
              +:+ "." +:+ "md")
  = "2 27 2022 Job Grateful List".
Proof.
  exact (proj1 (clean_name_hash_suffix "2 27 2022 Job Grateful List" " "
                  "0123456789abcdef0123456789abcdef" "md"
                  eq_refl eq_refl eq_refl eq_refl)).
Defined.

(** C8 as stated fails for a hyphen: the hash that follows a hyphen is still
    part of the cleaned name, and of the title that is returned. *)
Lemma hyphenated_hash_not_stripped :
  clean_name "Notes-0123456789abcdef0123456789abcdef.md"
  = "Notes-0123456789abcdef0123456789abcdef"
  ∧ extract_date_from_filename "Notes-0123456789abcdef0123456789abcdef.md"
    = (None, "Notes-0123456789abcdef0123456789abcdef")
  ∧ extract_date_from_filename "Notes 0123456789abcdef0123456789abcdef.md"
    = (None, "Notes").
Proof. repeat split; vm_compute; reflexivity. Qed.

(** *** Titles and bodies *)

Lemma blank_not_special (l : string) :
  is_blank l = true →
  startswith "# " l = false ∧ startswith "Created:" l = false
  ∧ startswith "Updated:" l = false.
Proof.
  unfold is_blank. intros H%String.eqb_eq%PyStrFacts.strip_nil.
  destruct l as [|c l]; [done|]. simpl in H. apply andb_prop in H as [Hc _].
  unfold startswith. cbn [String.prefix].
  split_and!; case_match; try done; subst; done.
Qed.

Lemma scan_lines_acc (lines : list string) :
  ∀ t acc x, x ∈ acc → x ∈ (scan_lines lines t acc).2.
Proof.
  induction lines as [|line rest IH]; intros t acc x Hx; [done|].
  cbn [scan_lines]. repeat case_match; apply IH; set_solver.
Qed.

(** No blank line is ever left out of [content_lines]: the one that follows
    the heading is there with the others, and only the final [strip] removes
    it when nothing but white space stands before it. *)
Lemma blank_lines_stay (lines : list string) :
  ∀ t acc l, l ∈ lines → is_blank l = true → l ∈ (scan_lines lines t acc).2.
Proof.
  induction lines as [|line rest IH]; intros t acc l Hl Hb.
  { by apply not_elem_of_nil in Hl. }
  apply elem_of_cons in Hl as [->|Hl].
  - destruct (blank_not_special _ Hb) as (H1 & H2 & H3).
    cbn [scan_lines]. rewrite H1, H2, H3. cbn [andb orb].
    apply scan_lines_acc. set_solver.
  - cbn [scan_lines]. repeat case_match; by apply IH.
Qed.

(** The first line that starts with the level-1 marker gives the title, and
    a later such line is an ordinary line of the body. *)
Lemma first_heading_is_title :
  entry_details "Friday 1 10 25 Gratitude.md"
    (text_of_lines ["# Morning thoughts"; ""; "Today was wonderful."; "# Later"])
  = (Some "2025-01-10", "Morning thoughts",
     text_of_lines ["Today was wonderful."; "# Later"]).
Proof. vm_compute. reflexivity. Qed.

(** C9. The blank line that follows the heading is not dropped: the
    [continue] that was meant to skip it only ends the round of the heading
    line itself, so every blank line of a document is collected with the
    other lines, and when the heading is not at the top it stays in the
    content. *)
Theorem blank_line_after_heading_kept :
  (∀ lines title_from_content content_lines l,
     l ∈ lines → is_blank l = true →
     l ∈ (scan_lines lines title_from_content content_lines).2)
  ∧ entry_details "Friday 1 10 25 Gratitude.md"
      (text_of_lines ["intro"; "# Title"; ""; "body"])
    = (Some "2025-01-10", "Title", text_of_lines ["intro"; ""; "body"]).
Proof.
  split.
  - intros lines t acc l. apply blank_lines_stay.
  - vm_compute. reflexivity.
Qed.

(** The cases of the specification for the three patterns. *)
Example extract_date_examples :
  extract_date_from_filename "Friday 1 10 25 Gratitude.md" = (Some "2025-01-10", "Gratitude")
  ∧ extract_date_from_filename "2 27 2022 - Job Grateful List.md"
    = (Some "2022-02-27", "Job Grateful List")
  ∧ extract_date_from_filename "Colonoscopy Friday August 5th 2022.md"
    = (Some "2022-08-05", "Colonoscopy Friday August 5th 2022")
  ∧ extract_date_from_filename "notes.md" = (None, "notes")
  ∧ extract_date_from_filename "Friday 13 45 25.md" = (Some "2025-13-45", "").
Proof. split_and!; vm_compute; reflexivity. Qed.

(** *** The batch *)

(** The entry a file contributes, if any. *)
Lemma process_files_entries (md_files : list MdFile) :
  entries (process_files md_files)
  = omap (λ f, match get_entry_details f with
               | Some (Some d, t, c) => Some (mkEntry d t c)
               | _ => None
               end) md_files.
Proof.
  unfold process_files.
  assert (H : ∀ acc, entries (foldl process_file acc md_files)
    = (entries acc ++ omap (λ f, match get_entry_details f with
                                 | Some (Some d, t, c) => Some (mkEntry d t c)
                                 | _ => None
                                 end) md_files)%list).
  { induction md_files as [|f fs IH]; intros acc; simpl.
    - by rewrite app_nil_r.
    - rewrite IH. unfold process_file.
      destruct (get_entry_details f) as [[[[d|] t] c]|]; simpl; [|done..].
      by rewrite <- app_assoc. }
  by rewrite H.
Qed.

Global Instance date_le_dec : RelDecision date_le.
Proof. intros a b. unfold date_le. apply _. Defined.
Global Instance date_le_total : Total date_le.
Proof. intros a b. unfold date_le. lia. Qed.
Global Instance date_le_trans : Transitive date_le.
Proof. intros a b c. unfold date_le. lia. Qed.




(** What the code does return: [None] exactly when the directory is missing
    or no file gave a date text, whether or not that text is a date. *)
Lemma returns_none_iff (sort_values : SortBy date_le)
    (journal_dir : option (list MdFile)) (output_file : string) :
  returned (convert_journal_files sort_values journal_dir output_file) = None
  ↔ journal_dir = None
    ∨ ∃ md_files, journal_dir = Some md_files ∧ entries (process_files md_files) = [].
Proof.
  unfold convert_journal_files. destruct journal_dir as [md_files|].
  - destruct (entries (process_files md_files)) eqn:E; cbn [returned].
    + split; [|done]. intros _. right. by exists md_files.
    + split; [done|]. intros [?|(fs & [= <-] & Hfs)]; [done|]. by rewrite E in Hfs.
  - split; [by left|done].
Qed.

(** C2. When every entry that was collected fails the date check, the call
    still returns the output path, for an empty table: the test for an empty
    batch comes before the date check and is not repeated after it. *)
Theorem all_dates_invalid_still_succeeds (sort_values : SortBy date_le)
    (md_files : list MdFile) (output_file : string) :
  entries (process_files md_files) ≠ [] →
  valid_rows (entries (process_files md_files)) = [] →
  returned (convert_journal_files sort_values (Some md_files) output_file) = Some output_file
  ∧ written (convert_journal_files sort_values (Some md_files) output_file) = Some [].
Proof.
  intros Hne Hnone. unfold convert_journal_files.
  destruct (entries (process_files md_files)) as [|e es] eqn:E; [done|].
  cbn [returned written]. split; [done|]. rewrite Hnone. f_equal.
  apply Permutation_nil_r. apply sort_by_perm.
Qed.

(** A directory whose only file has a name that gives a date, but not a
    date of the calendar. *)
Lemma all_dates_invalid_still_succeeds_witness :
  process_files [mkFile "Friday 13 45 25 Notes.md" (Some "text")]
  = mkProgress [mkEntry "2025-13-45" "Notes" "text"] 1 0
  ∧ returned (convert_journal_files (merge_sorter date_le)
                (Some [mkFile "Friday 13 45 25 Notes.md" (Some "text")]) "out.csv")
    = Some "out.csv"
  ∧ written (convert_journal_files (merge_sorter date_le)
               (Some [mkFile "Friday 13 45 25 Notes.md" (Some "text")]) "out.csv")
    = Some [].
Proof.
  assert (E : process_files [mkFile "Friday 13 45 25 Notes.md" (Some "text")]
              = mkProgress [mkEntry "2025-13-45" "Notes" "text"] 1 0)
    by (vm_compute; reflexivity).
  split; [exact E|].
  apply (all_dates_invalid_still_succeeds (merge_sorter date_le)
           [mkFile "Friday 13 45 25 Notes.md" (Some "text")] "out.csv").
  - rewrite E. discriminate.
  - rewrite E. vm_compute. reflexivity.
Defined.

End ConverterFacts.

(** ** The entry store (app/db.py) *)

Module DbFacts.

Import PyStr Db.
Local Open Scope string_scope.

Global Instance date_desc_dec : RelDecision date_desc.
Proof. intros a b. unfold date_desc. apply _. Defined.
Global Instance date_desc_total : Total date_desc.
Proof. intros a b. unfold date_desc. destruct (total String.le (s_date a) (s_date b)); auto. Qed.
Global Instance date_desc_trans : Transitive date_desc.
Proof. intros a b c. unfold date_desc. intros ??. by etrans. Qed.

(** *** Inserting *)

Lemma insert_row_row_of (e : Nlp.AnalyzedRow) : insert_row (row_of e) = Ok (stored_of e).
Proof.
  unfold insert_row, stored_of, get, getitem.
  assert (row_of e !! "keywords" = Some (CList (Nlp.keywords e))) as -> by reflexivity.
  assert (row_of e !! "date" = Some (CTimestamp (Nlp.date e))) as -> by reflexivity.
  assert (row_of e !! "title" = Some (CStr (Nlp.title e))) as -> by reflexivity.
  assert (row_of e !! "content" = Some (CStr (Nlp.content e))) as -> by reflexivity.
  assert (row_of e !! "sentiment_score" = Some (CFloat (Nlp.sentiment_score e))) as ->
    by reflexivity.
  assert (row_of e !! "mood_category" = Some (CStr (Nlp.mood_category e))) as ->
    by reflexivity.
  cbn [default id truthy].
  destruct (Nlp.keywords e) as [|k ks]; destruct (is_nan (Nlp.sentiment_score e)) eqn:N;
    cbn; rewrite ?N; reflexivity.
Qed.

Lemma insert_entries_row_of (db : Store) (e : Nlp.AnalyzedRow) :
  insert_entries db [row_of e]
  = (mkStore (rows db ++ [stored_of e]) (rows db ++ [stored_of e]), Ok 1%nat).
Proof. unfold insert_entries. cbn [insert_loop]. by rewrite insert_row_row_of. Qed.




(** *** Reading back *)

Lemma read_rows_all (rs : list StoredRow) :
  Forall (λ r, is_Some (Pandas.to_datetime (s_date r))) rs →
  ∃ qs, read_rows rs = Ok qs ∧ ∀ r q, r ∈ rs → read_row r = Ok q → q ∈ qs.
Proof.
  induction 1 as [|r rs [t Ht] Hall (qs & Hqs & Hin)].
  - exists []. split; [done|]. intros r q Hr. by apply not_elem_of_nil in Hr.
  - cbn [read_rows]. unfold read_row at 1. rewrite Ht. cbn [bind]. rewrite Hqs. cbn [bind].
    eexists. split; [done|]. intros r' q Hr' Hq. apply elem_of_cons in Hr' as [->|Hr'].
    + unfold read_row in Hq. rewrite Ht in Hq. injection Hq as <-. apply list_elem_of_here.
    + apply list_elem_of_further. by eapply Hin.
Qed.

Lemma keyword_ok_no_comma (k : string) :
  Nlp.keyword_ok k = true → all_chars (λ c, negb (Ascii.eqb c ",")) k = true.
Proof.
  unfold Nlp.keyword_ok. intros H. apply andb_prop in H as [_ H].
  induction k as [|c k IH]; [done|]. simpl in *. apply andb_prop in H as [Hc Hk].
  rewrite IH by done. rewrite andb_true_r.
  destruct (Ascii.eqb_spec c ","); [subst; done|done].
Qed.

(** The keywords come back from their comma-joined text. *)
Lemma split_keywords_join (kws : list string) :
  Forall (λ k, Nlp.keyword_ok k = true) kws →
  split_keywords (if bool_decide (kws = []) then "" else join "," kws) = kws.
Proof.
  intros Hall. destruct kws as [|k ks]; [done|].
  rewrite bool_decide_eq_false_2 by done. unfold split_keywords.
  assert (Hne : String.eqb (join "," (k :: ks)) "" = false).
  { apply Forall_cons in Hall as [Hk _]. unfold Nlp.keyword_ok in Hk.
    apply andb_prop in Hk as [Hk _]. destruct k as [|c k]; [done|].
    destruct ks; reflexivity. }
  rewrite Hne. apply PyStrFacts.split_join; [done|].
  eapply Forall_impl; [done|]. intros. by apply keyword_ok_no_comma.
Qed.



(** Stores filled with well-formed entries stay readable. *)
Lemma readable_empty : readable empty_store.
Proof. constructor. Qed.

Lemma readable_insert (db : Store) (e : Nlp.AnalyzedRow) :
  readable db → Nlp.well_formed e → readable (insert_entries db [row_of e]).1.
Proof.
  intros Hdb (Hv & _). rewrite insert_entries_row_of. unfold readable. cbn [fst rows].
  apply Forall_app. split; [done|]. apply Forall_singleton.
  unfold stored_of. cbn [s_date]. by rewrite PandasFacts.to_datetime_ts_str.
Qed.

(** What the range query does return: the rows whose stored text lies
    between the two bounds in the order of strings, sorted downwards. *)
Lemma date_range_by_text (order_by_date_desc : SortBy date_desc)
    (db : Store) (start_date end_date : string) :
  ∃ rs, get_entries_by_date_range order_by_date_desc db start_date end_date = read_rows rs
        ∧ StronglySorted date_desc rs
        ∧ ∀ r, r ∈ rs ↔
               r ∈ rows db ∧ String.le start_date (s_date r) ∧ String.le (s_date r) end_date.
Proof.
  eexists. split; [reflexivity|]. split.
  - apply Sorted_StronglySorted; [apply _|]. apply sort_by_sorted.
  - intros r. rewrite sort_by_perm, list_elem_of_filter. unfold between_dates.
    rewrite andb_true_iff, !bool_decide_eq_true. tauto.
Qed.

(** C3. An entry is stored under the text of its timestamp, which carries the
    time of day, and the range is compared as text: a query whose end date is
    the day of the entry does not return the entry, whatever the start
    date. *)
Theorem end_date_entry_not_returned (order_by_date_desc : SortBy date_desc)
    (e : Nlp.AnalyzedRow) (start_date : string) :
  rows (insert_entries empty_store [row_of e]).1 = [stored_of e]
  ∧ get_entries_by_date_range order_by_date_desc (insert_entries empty_store [row_of e]).1
      start_date (Pandas.date_str (Nlp.date e)) = Ok [].
Proof.
  rewrite insert_entries_row_of. cbn [fst rows empty_store app]. split; [done|].
  unfold get_entries_by_date_range. cbn [rows].
  rewrite filter_cons, decide_False.
  - rewrite filter_nil. by rewrite (proj1 (Permutation_nil_r _) (sort_by_perm [])).
  - unfold between_dates, stored_of, Pandas.ts_str. cbn [s_date].
    rewrite (bool_decide_eq_false_2 (String.le (_ +:+ _) _)).
    + by rewrite andb_false_r.
    + by apply PandasFacts.le_app_false.
Qed.

(** The entry of 2025-01-10 and the range from that day to that day, with a
    merge sort for the order. *)
Lemma range_of_one_day_is_empty :
  get_entries_by_date_range (merge_sorter date_desc)
    (insert_entries empty_store [row_of (Nlp.sample_row "Positive")]).1
    "2025-01-10" "2025-01-10" = Ok []
  ∧ get_entries_by_date_range (merge_sorter date_desc)
      (insert_entries empty_store [row_of (Nlp.sample_row "Positive")]).1
      "2025-01-10" "2025-01-11" = Ok [query_of (Nlp.sample_row "Positive")].
Proof. split; vm_compute; reflexivity. Qed.

End DbFacts.

(** ** The order of binary64 *)

Module F64Order.

Import F64.

Lemma SFcompare_le_le_trans (x y z : spec_float) :
  le_cmp (SFcompare x y) = true → le_cmp (SFcompare y z) = true →
  le_cmp (SFcompare x z) = true.
Proof.
  destruct x as [[]|[]| |[] mx ex], y as [[]|[]| |[] my ey], z as [[]|[]| |[] mz ez];
    simpl; try congruence; rewrite ?pos_cont_Eq; intros H1 H2;
    cmp_cases; simpl in *; try congruence; try lia.
Qed.

Lemma leb_trans (a b c : float) :
  (a <=? b)%float = true → (b <=? c)%float = true → (a <=? c)%float = true.
Proof. rewrite !leb_spec. apply SFcompare_le_le_trans. Qed.

Lemma leb_nan_l (a b : float) : is_nan a = true → (a <=? b)%float = false.
Proof.
  intros Ha. destruct (a <=? b)%float eqn:E; [|done].
  apply leb_not_nan in E. congruence.
Qed.

End F64Order.

(** ** Classes of characters and case *)

Module CharFacts.

Import PyStr.
Local Open Scope string_scope.

Lemma all_chars_impl (p q : ascii → bool) (s : string) :
  (∀ c, p c = true → q c = true) → all_chars p s = true → all_chars q s = true.
Proof.
  intros Hpq. induction s as [|c s IH]; [done|]. simpl. intros [Hc Hs]%andb_prop.
  by rewrite (Hpq _ Hc), IH.
Qed.

Lemma all_chars_app (p : ascii → bool) (s t : string) :
  all_chars p (s +:+ t) = all_chars p s && all_chars p t.
Proof.
  induction s as [|c s IH]; [done|]. rewrite PyStrFacts.app_cons. simpl.
  by rewrite IH, andb_assoc.
Qed.

Lemma length_lower (s : string) : String.length (lower s) = String.length s.
Proof. induction s as [|c s IH]; [done|]. simpl. by rewrite IH. Qed.

Lemma lower_app (s t : string) : lower (s +:+ t) = lower s +:+ lower t.
Proof.
  induction s as [|c s IH]; [done|]. rewrite PyStrFacts.app_cons. simpl.
  by rewrite IH, PyStrFacts.app_cons.
Qed.

End CharFacts.

(** ** The stable sort in descending order *)

Module SortedFacts.

Lemma insert_desc_perm {A} (key : A → nat) (x : A) (l : list A) :
  insert_desc key x l ≡ₚ x :: l.
Proof.
  induction l as [|y l IH]; [done|]. simpl. case_match; [done|].
  by rewrite IH, Permutation_swap.
Qed.

Lemma sorted_reverse_perm {A} (key : A → nat) (l : list A) : sorted_reverse key l ≡ₚ l.
Proof.
  induction l as [|x l IH]; [done|]. unfold sorted_reverse in *. simpl.
  by rewrite insert_desc_perm, IH.
Qed.

Lemma insert_desc_sorted {A} (key : A → nat) (x : A) (l : list A) :
  StronglySorted (λ a b, (key b <= key a)%nat) l →
  StronglySorted (λ a b, (key b <= key a)%nat) (insert_desc key x l).
Proof.
  induction 1 as [|y l Hs IH Hall]; simpl.
  - by repeat constructor.
  - destruct (Nat.leb_spec (key y) (key x)) as [Hle|Hlt].
    + constructor; [by constructor|]. constructor; [done|].
      eapply Forall_impl; [done|]. simpl. lia.
    + constructor; [done|]. rewrite insert_desc_perm. constructor; [lia|done].
Qed.

Lemma sorted_reverse_sorted {A} (key : A → nat) (l : list A) :
  StronglySorted (λ a b, (key b <= key a)%nat) (sorted_reverse key l).
Proof.
  induction l as [|x l IH]; [constructor|]. by apply insert_desc_sorted.
Qed.

(** Stability: the elements of one key stand as they stood. *)
Lemma insert_desc_stable {A} (key : A → nat) (n : nat) (x : A) (l : list A) :
  filter (λ y, key y = n) (insert_desc key x l) = filter (λ y, key y = n) (x :: l).
Proof.
  induction l as [|y l IH]; [done|]. simpl.
  destruct (Nat.leb_spec (key y) (key x)) as [Hle|Hlt]; [done|].
  rewrite (filter_cons _ y), IH, !filter_cons.
  repeat case_decide; try done; lia.
Qed.

Lemma sorted_reverse_stable {A} (key : A → nat) (n : nat) (l : list A) :
  filter (λ y, key y = n) (sorted_reverse key l) = filter (λ y, key y = n) l.
Proof.
  induction l as [|x l IH]; [done|]. unfold sorted_reverse in *. simpl.
  rewrite insert_desc_stable, !filter_cons, IH. done.
Qed.

End SortedFacts.

(** ** The calendar, and the texts of dates in their order *)

Module CalendarFacts.

Import PyStr Pandas.
Local Open Scope string_scope.

(** *** The order of the days *)

Lemma year_start_succ (y : Z) :
  year_start y = (year_start (y - 1) + 365 + (if is_leap y then 1 else 0))%Z.
Proof.
  unfold year_start, is_leap.
  destruct (Z.eqb_spec (y mod 4) 0), (Z.eqb_spec (y mod 100) 0), (Z.eqb_spec (y mod 400) 0);
    cbn [negb andb orb]; Z.div_mod_to_equations; lia.
Qed.

Lemma jan1_mono (a b : Z) : (a <= b)%Z → (jan1 a + 365 * (b - a) <= jan1 b)%Z.
Proof.
  intros Hab. revert b Hab. apply Z.le_ind.
  - intros x y ->. done.
  - lia.
  - intros b Hab IH. unfold jan1 in *. replace (Z.succ b - 1)%Z with b by lia.
    rewrite (year_start_succ b). destruct (is_leap b); lia.
Qed.

Lemma days_from_civil_jan1 (y m d : Z) :
  (1 <= m <= 12)%Z →
  days_from_civil y m d = (jan1 y + days_before_month y m + (d - 1))%Z.
Proof.
  intros Hm. unfold days_from_civil, jan1, days_before_month.
  assert (m = 1 ∨ m = 2 ∨ 3 <= m <= 12)%Z as [->|[->|Hm3]] by lia.
  - cbn [Z.leb Z.compare Pos.compare Pos.compare_cont].
    change ((1 + 9) mod 12)%Z with 10%Z. change ((153 * 10 + 2) / 5)%Z with 306%Z.
    unfold year_start. Z.div_mod_to_equations. lia.
  - change (2 <=? 2)%Z with true. change (2 <=? 1)%Z with false. cbn iota.
    change ((2 + 9) mod 12)%Z with 11%Z. change ((153 * 11 + 2) / 5)%Z with 337%Z.
    unfold year_start. Z.div_mod_to_equations. lia.
  - destruct (Z.leb_spec m 2); [lia|]. destruct (Z.leb_spec m 1); [lia|].
    assert ((m + 9) mod 12 = m - 3)%Z as ->
      by (Z.div_mod_to_equations; lia).
    unfold year_start, is_leap.
    destruct (Z.eqb_spec (y mod 4) 0), (Z.eqb_spec (y mod 100) 0), (Z.eqb_spec (y mod 400) 0);
      cbn [negb andb orb]; Z.div_mod_to_equations; lia.
Qed.

Lemma days_before_month_next (y m1 m2 : Z) :
  (1 <= m1)%Z → (m1 < m2)%Z → (m2 <= 12)%Z →
  (days_before_month y m1 + days_in_month y m1 <= days_before_month y m2)%Z.
Proof.
  intros H1 H12 H2. unfold days_before_month, days_in_month.
  assert (Hm1 : (m1 = 1 ∨ m1 = 2 ∨ m1 = 3 ∨ m1 = 4 ∨ m1 = 5 ∨ m1 = 6 ∨ m1 = 7 ∨ m1 = 8
                 ∨ m1 = 9 ∨ m1 = 10 ∨ m1 = 11)%Z) by lia.
  assert (Hm2 : (m2 = 2 ∨ m2 = 3 ∨ m2 = 4 ∨ m2 = 5 ∨ m2 = 6 ∨ m2 = 7 ∨ m2 = 8
                 ∨ m2 = 9 ∨ m2 = 10 ∨ m2 = 11 ∨ m2 = 12)%Z) by lia.
  destruct (is_leap y);
    repeat (destruct Hm1 as [Hm1|Hm1]); repeat (destruct Hm2 as [Hm2|Hm2]); subst m1 m2;
    try lia; vm_compute; congruence.
Qed.

Lemma days_before_month_bounds (y m : Z) :
  (1 <= m <= 12)%Z →
  (0 <= days_before_month y m)%Z
  ∧ (days_before_month y m + days_in_month y m <= 365 + if is_leap y then 1 else 0)%Z.
Proof.
  intros Hm. unfold days_before_month, days_in_month.
  assert (Hm1 : (m = 1 ∨ m = 2 ∨ m = 3 ∨ m = 4 ∨ m = 5 ∨ m = 6 ∨ m = 7 ∨ m = 8
                 ∨ m = 9 ∨ m = 10 ∨ m = 11 ∨ m = 12)%Z) by lia.
  destruct (is_leap y); repeat (destruct Hm1 as [Hm1|Hm1]); subst m;
    split; vm_compute; congruence.
Qed.

(** An earlier date of the calendar has a smaller day number. *)
Lemma days_from_civil_lt (y1 m1 d1 y2 m2 d2 : Z) :
  is_date y1 m1 d1 → is_date y2 m2 d2 →
  (y1 < y2 ∨ (y1 = y2 ∧ (m1 < m2 ∨ (m1 = m2 ∧ d1 < d2))))%Z →
  (days_from_civil y1 m1 d1 < days_from_civil y2 m2 d2)%Z.
Proof.
  intros [Hm1 Hd1] [Hm2 Hd2] Hlt. rewrite !days_from_civil_jan1 by done.
  pose proof (days_before_month_bounds y1 m1 Hm1) as [Hb1 Hb1'].
  pose proof (days_before_month_bounds y2 m2 Hm2) as [Hb2 Hb2'].
  destruct Hlt as [Hy|[-> [Hm| [-> Hd]]]].
  - pose proof (jan1_mono (y1 + 1) y2 ltac:(lia)) as Hj.
    unfold jan1 in Hj at 1. replace (y1 + 1 - 1)%Z with y1 in Hj by lia.
    rewrite (year_start_succ y1) in Hj. unfold jan1 at 1.
    destruct (is_leap y1); lia.
  - pose proof (days_before_month_next y2 m1 m2 ltac:(lia) Hm ltac:(lia)). lia.
  - lia.
Qed.

Lemma days_from_civil_compare (y1 m1 d1 y2 m2 d2 : Z) :
  is_date y1 m1 d1 → is_date y2 m2 d2 →
  lex (y1 ?= y2)%Z (lex (m1 ?= m2)%Z (d1 ?= d2)%Z)
  = (days_from_civil y1 m1 d1 ?= days_from_civil y2 m2 d2)%Z.
Proof.
  intros H1 H2. symmetry.
  destruct (Z.compare_spec y1 y2) as [->|Hy|Hy]; cbn [lex].
  - destruct (Z.compare_spec m1 m2) as [->|Hm|Hm]; cbn [lex].
    + destruct (Z.compare_spec d1 d2) as [->|Hd|Hd].
      * apply Z.compare_refl.
      * apply Z.compare_lt_iff, days_from_civil_lt; [done..|lia].
      * apply Z.compare_gt_iff, days_from_civil_lt; [done..|lia].
    + apply Z.compare_lt_iff, days_from_civil_lt; [done..|lia].
    + apply Z.compare_gt_iff, days_from_civil_lt; [done..|lia].
  - apply Z.compare_lt_iff, days_from_civil_lt; [done..|lia].
  - apply Z.compare_gt_iff, days_from_civil_lt; [done..|lia].
Qed.

Lemma valid_is_date (t : Timestamp) :
  valid t = true → is_date (year t) (month t) (day t).
Proof.
  unfold valid, calendar_ok. intros H. apply andb_prop in H as [H _].
  repeat (apply andb_prop in H as [H ?]). unfold is_date. lia.
Qed.

(** *** The order of the texts *)

Lemma compare_cons (c d : ascii) (s t : string) :
  (String c s ?= String d t)%string = lex (Ascii.compare c d) (s ?= t)%string.
Proof. cbn [String.compare]. by destruct (Ascii.compare c d). Qed.

Lemma compare_cons_same (c : ascii) (s t : string) :
  (String c s ?= String c t)%string = (s ?= t)%string.
Proof.
  rewrite compare_cons.
  assert (Ascii.compare c c = Eq) as -> by (unfold Ascii.compare; apply N.compare_refl).
  done.
Qed.

Lemma compare_digit (a b : Z) :
  (0 <= a < 10)%Z → (0 <= b < 10)%Z →
  Ascii.compare (digit_char a) (digit_char b) = (a ?= b)%Z.
Proof.
  intros Ha Hb.
  apply (PyStrFacts.digit_cases a (λ a, Ascii.compare (digit_char a) (digit_char b) = (a ?= b)%Z) Ha);
    apply (PyStrFacts.digit_cases b (λ b, Ascii.compare (digit_char _) (digit_char b) = (_ ?= b)%Z) Hb);
    reflexivity.
Qed.

Lemma lex_digits (a b : Z) (c : comparison) :
  (0 <= a)%Z → (0 <= b)%Z →
  lex (a / 10 ?= b / 10)%Z (lex (a mod 10 ?= b mod 10)%Z c) = lex (a ?= b)%Z c.
Proof.
  intros Ha Hb.
  destruct (Z.compare_spec (a / 10) (b / 10)), (Z.compare_spec (a mod 10) (b mod 10)),
    (Z.compare_spec a b); cbn [lex]; try done; exfalso; Z.div_mod_to_equations; lia.
Qed.

Lemma compare_fmt2 (a b : Z) (r s : string) :
  (0 <= a < 100)%Z → (0 <= b < 100)%Z →
  (fmt2 a +:+ r ?= fmt2 b +:+ s)%string = lex (a ?= b)%Z (r ?= s)%string.
Proof.
  intros Ha Hb. unfold fmt2. rewrite !PyStrFacts.app_cons, !PyStrFacts.app_nil_l.
  rewrite !compare_cons, !compare_digit by (Z.div_mod_to_equations; lia).
  apply lex_digits; lia.
Qed.

Lemma compare_fmt4 (a b : Z) (r s : string) :
  (0 <= a < 10000)%Z → (0 <= b < 10000)%Z →
  (fmt4 a +:+ r ?= fmt4 b +:+ s)%string = lex (a ?= b)%Z (r ?= s)%string.
Proof.
  intros Ha Hb. unfold fmt4.
  rewrite !PyStrFacts.app_cons, !compare_cons, !compare_digit by (Z.div_mod_to_equations; lia).
  rewrite compare_fmt2 by (Z.div_mod_to_equations; lia).
  destruct (Z.compare_spec (a / 1000) (b / 1000)),
    (Z.compare_spec (a / 100 mod 10) (b / 100 mod 10)),
    (Z.compare_spec (a mod 100) (b mod 100)),
    (Z.compare_spec a b); cbn [lex]; try done; exfalso; Z.div_mod_to_equations; lia.
Qed.

(** The texts of two days compare as the days do. *)
Lemma compare_date_str (a b : Timestamp) (r s : string) :
  valid a = true → valid b = true →
  (date_str a +:+ r ?= date_str b +:+ s)%string
  = lex (day_number a ?= day_number b)%Z (r ?= s)%string.
Proof.
  intros Ha Hb.
  pose proof (PandasFacts.valid_fields a Ha) as (? & ? & ? & _).
  pose proof (PandasFacts.valid_fields b Hb) as (? & ? & ? & _).
  unfold date_str, day_number. rewrite !PyStrFacts.app_assoc.
  rewrite compare_fmt4 by lia.
  rewrite !(PyStrFacts.app_cons "-" ""), !PyStrFacts.app_nil_l, compare_cons_same.
  rewrite compare_fmt2 by lia. rewrite compare_cons_same.
  rewrite compare_fmt2 by lia.
  rewrite <- (days_from_civil_compare _ _ _ _ _ _ (valid_is_date a Ha) (valid_is_date b Hb)).
  by destruct (year a ?= year b)%Z, (month a ?= month b)%Z, (day a ?= day b)%Z.
Qed.

Lemma value_compare (a b : Timestamp) :
  valid a = true → valid b = true →
  lex (day_number a ?= day_number b)%Z
    (lex (hour a ?= hour b)%Z (lex (minute a ?= minute b)%Z (second a ?= second b)%Z))
  = (value a ?= value b)%Z.
Proof.
  intros Ha Hb.
  pose proof (PandasFacts.valid_fields a Ha) as (_ & _ & _ & ? & ? & ?).
  pose proof (PandasFacts.valid_fields b Hb) as (_ & _ & _ & ? & ? & ?).
  unfold value. fold (day_number a) (day_number b).
  destruct (Z.compare_spec (day_number a) (day_number b)),
    (Z.compare_spec (hour a) (hour b)), (Z.compare_spec (minute a) (minute b)),
    (Z.compare_spec (second a) (second b)); cbn [lex]; symmetry;
    first [apply Z.compare_eq_iff|apply Z.compare_lt_iff|apply Z.compare_gt_iff]; lia.
Qed.

(** The texts of two timestamps compare as the timestamps do. *)
Lemma compare_ts_str (a b : Timestamp) :
  valid a = true → valid b = true →
  (ts_str a ?= ts_str b)%string = (value a ?= value b)%Z.
Proof.
  intros Ha Hb.
  pose proof (PandasFacts.valid_fields a Ha) as (_ & _ & _ & ? & ? & ?).
  pose proof (PandasFacts.valid_fields b Hb) as (_ & _ & _ & ? & ? & ?).
  rewrite <- value_compare by done. unfold ts_str.
  rewrite compare_date_str by done. f_equal.
  rewrite !(PyStrFacts.app_cons " " ""), !PyStrFacts.app_nil_l, compare_cons_same.
  rewrite compare_fmt2 by lia. f_equal.
  rewrite !(PyStrFacts.app_cons ":" ""), !PyStrFacts.app_nil_l, compare_cons_same.
  rewrite compare_fmt2 by lia. f_equal. rewrite compare_cons_same.
  rewrite <- (PyStrFacts.app_nil_r (fmt2 (second a))), <- (PyStrFacts.app_nil_r (fmt2 (second b))).
  rewrite compare_fmt2 by lia. by destruct (second a ?= second b)%Z.
Qed.

Lemma le_ts_str (a b : Timestamp) :
  valid a = true → valid b = true →
  String.le (ts_str a) (ts_str b) ↔ (value a <= value b)%Z.
Proof.
  intros Ha Hb. unfold String.le, String.leb. rewrite compare_ts_str by done.
  destruct (Z.compare_spec (value a) (value b)); simpl; split; try done; lia.
Qed.

(** The text of a day is below the texts of the timestamps from that day on. *)
Lemma le_date_str_ts_str (a t : Timestamp) :
  valid a = true → valid t = true →
  String.le (date_str a) (ts_str t) ↔ (day_number a <= day_number t)%Z.
Proof.
  intros Ha Ht. unfold String.le, String.leb, ts_str.
  rewrite <- (PyStrFacts.app_nil_r (date_str a)), compare_date_str by done.
  rewrite (PyStrFacts.app_cons " " ""). cbn [String.compare].
  destruct (Z.compare_spec (day_number a) (day_number t)); simpl; split; try done; lia.
Qed.

(** The text of a timestamp is below the texts of the days after its own. *)
Lemma le_ts_str_date_str (t b : Timestamp) :
  valid t = true → valid b = true →
  String.le (ts_str t) (date_str b) ↔ (day_number t < day_number b)%Z.
Proof.
  intros Ht Hb. unfold String.le, String.leb, ts_str.
  rewrite <- (PyStrFacts.app_nil_r (date_str b)), compare_date_str by done.
  rewrite (PyStrFacts.app_cons " " ""). cbn [String.compare].
  destruct (Z.compare_spec (day_number t) (day_number b)); simpl; split; try done; lia.
Qed.

End CalendarFacts.

(** ** Matches of regular expressions *)

Module MatchFacts.

Import PyStr Regex RegexFacts.
Local Open Scope nat_scope.
Local Open Scope string_scope.

(** *** The matcher finds matches only *)

Lemma rep_loop_sound (body : cont → cont) (R : mstate → mstate → Prop) :
  (∀ k a m, body k a = Some m → ∃ b, R a b ∧ k b = Some m) →
  ∀ fuel lo hi k a m, rep_loop body fuel lo hi k a = Some m →
    ∃ n b, lo <= n ∧ (∀ h, hi = Some h → n <= h) ∧ iter R n a b ∧ k b = Some m.
Proof.
  intros Hbody. induction fuel as [|fuel IH]; intros lo hi k a m H; [done|].
  cbn [rep_loop] in H.
  match type of H with
  | match ?again with _ => _ end = _ => destruct again as [m'|] eqn:Hagain
  end.
  - injection H as ->. destruct (may_repeat hi) eqn:Hhi; [|done].
    apply Hbody in Hagain as (b1 & Hab1 & Hk). destruct (pos a <? pos b1)%nat; [|done].
    apply IH in Hk as (n & b & Hlo & Hhi' & Hiter & Hk).
    exists (S n), b. split_and!; [lia| |by exists b1|done].
    intros h ->. destruct h as [|h]; [done|]. specialize (Hhi' h eq_refl). lia.
  - destruct (Nat.eqb_spec lo 0) as [->|]; [|done].
    exists 0, a. split_and!; [done| |done..]. intros h _. lia.
Qed.

(** Whatever the matcher finds is a match. *)
Lemma run_sound (r : regex) :
  ∀ k a m, run r k a = Some m → ∃ b, spans r a b ∧ k b = Some m.
Proof.
  induction r as [p|r1 IH1 r2 IH2|r1 IH1 r2 IH2|lo hi r IH|g r IH| |]; intros k a m H.
  - rewrite run_Chr in H. destruct a as [ps [|c s'] gs]; cbn [rest pos groups] in H; [done|].
    destruct (p c) eqn:Hp; [|done]. eexists. split; [|done].
    exists c. by cbn.
  - rewrite run_Cat in H. apply IH1 in H as (b1 & H1 & H).
    apply IH2 in H as (b & H2 & H). exists b. split; [by exists b1|done].
  - cbn [run] in H. destruct (run r1 k a) as [m1|] eqn:H1.
    + injection H as ->. apply IH1 in H1 as (b & ? & ?). exists b. split; [by left|done].
    + apply IH2 in H as (b & ? & ?). exists b. split; [by right|done].
  - rewrite run_Rep in H.
    apply (rep_loop_sound (run r) (spans r) IH) in H as (n & b & ? & ? & ? & ?).
    exists b. split; [by exists n|done].
  - cbn [run] in H. apply IH in H as (b1 & H1 & H). eexists. split; [|done].
    by exists b1.
  - cbn [run] in H. destruct (Nat.eqb_spec (pos a) 0); [|done]. by exists a.
  - rewrite run_Eos in H. destruct (at_end (rest a)) eqn:E; [|done]. by exists a.
Qed.

(** *** What a match consumes *)

Lemma iter_consumes (R : mstate → mstate → Prop) :
  (∀ a b, R a b → ∃ w, rest a = w +:+ rest b ∧ pos b = pos a + String.length w) →
  ∀ n a b, iter R n a b → ∃ w, rest a = w +:+ rest b ∧ pos b = pos a + String.length w.
Proof.
  intros HR. induction n as [|n IH]; intros a b H; cbn [iter] in H.
  - subst b. exists "". split; [done|]. simpl. lia.
  - destruct H as (m & (w1 & Hw1 & Hp1)%HR & (w2 & Hw2 & Hp2)%IH).
    exists (w1 +:+ w2). rewrite PyStrFacts.app_assoc, PyStrFacts.length_app, <- Hw2.
    split; [done|lia].
Qed.

Lemma spans_consumes (r : regex) :
  ∀ a b, spans r a b → ∃ w, rest a = w +:+ rest b ∧ pos b = pos a + String.length w.
Proof.
  induction r as [p|r1 IH1 r2 IH2|r1 IH1 r2 IH2|lo hi r IH|g r IH| |]; intros a b H;
    cbn [spans] in H.
  - destruct H as (c & Hc & _ & Hp & _). exists (String c ""). split; [done|]. simpl. lia.
  - destruct H as (m & (w1 & Hw1 & Hp1)%IH1 & (w2 & Hw2 & Hp2)%IH2).
    exists (w1 +:+ w2). rewrite PyStrFacts.app_assoc, PyStrFacts.length_app, <- Hw2.
    split; [done|lia].
  - destruct H as [H|H]; [by apply IH1|by apply IH2].
  - destruct H as (n & _ & _ & H). by eapply iter_consumes.
  - destruct H as (m & (w & Hw & Hp)%IH & ->). by exists w.
  - destruct H as [_ ->]. exists "". split; [done|]. simpl. lia.
  - destruct H as [_ ->]. exists "". split; [done|]. simpl. lia.
Qed.

Lemma iter_groups (R : mstate → mstate → Prop) :
  (∀ a b, R a b → groups b = groups a) →
  ∀ n a b, iter R n a b → groups b = groups a.
Proof.
  intros HR. induction n as [|n IH]; intros a b H; cbn [iter] in H; [by subst|].
  destruct H as (m & ?%HR & ?%IH). congruence.
Qed.

Lemma spans_group_free (r : regex) :
  group_free r = true → ∀ a b, spans r a b → groups b = groups a.
Proof.
  induction r as [p|r1 IH1 r2 IH2|r1 IH1 r2 IH2|lo hi r IH|g r IH| |]; intros Hr a b H;
    cbn [spans group_free] in *.
  - by destruct H as (c & _ & _ & _ & ?).
  - apply andb_prop in Hr as [H1 H2]. destruct H as (m & ?%IH1 & ?%IH2); [congruence|done..].
  - apply andb_prop in Hr as [H1 H2]. destruct H as [?%IH1|?%IH2]; done.
  - destruct H as (n & _ & _ & H). eapply iter_groups; [|done]. by apply IH.
  - done.
  - by destruct H as [_ ->].
  - by destruct H as [_ ->].
Qed.

(** A run of characters of one class. *)
Lemma iter_class (p : ascii → bool) :
  ∀ n a b, iter (spans (Chr p)) n a b →
    ∃ w, rest a = w +:+ rest b ∧ String.length w = n ∧ all_chars p w = true
         ∧ pos b = pos a + n ∧ groups b = groups a.
Proof.
  induction n as [|n IH]; intros a b H; cbn [iter] in H.
  - subst b. exists "". split_and!; [done..|lia|done].
  - destruct H as (m & (c & Hc & Hp & Hpos & Hg) & (w & Hw & Hn & Hall & Hpos' & Hg')%IH).
    exists (String c w). rewrite PyStrFacts.app_cons, <- Hw.
    split_and!; [done|by simpl; f_equal| |lia|congruence].
    simpl. by rewrite Hp, Hall.
Qed.

Lemma str_drop_add (n k : nat) (s : string) : str_drop (n + k) s = str_drop k (str_drop n s).
Proof.
  revert s. induction n as [|n IH]; intros s; [done|].
  destruct s as [|c s]; [by destruct k|]. cbn [Nat.add str_drop]. apply IH.
Qed.

Lemma at_pos_step (subject : string) (a b : mstate) (w : string) :
  at_pos subject a → rest a = w +:+ rest b → pos b = pos a + String.length w →
  at_pos subject b.
Proof.
  unfold at_pos. intros Ha Hw Hp.
  by rewrite Hp, str_drop_add, <- Ha, Hw, PyStrFacts.drop_app_length.
Qed.

Lemma spans_at_pos (subject : string) (r : regex) (a b : mstate) :
  at_pos subject a → spans r a b → at_pos subject b.
Proof. intros Ha (w & Hw & Hp)%spans_consumes. by eapply at_pos_step. Qed.

(** The text of a group that holds a run of characters of one class. *)
Lemma spans_group_class (subject : string) (g lo hi : nat) (p : ascii → bool) (a b : mstate) :
  at_pos subject a → spans (Grp g (Rep lo (Some hi) (Chr p))) a b →
  ∃ w, lo <= String.length w <= hi ∧ all_chars p w = true
       ∧ groups b = (g, (pos a, pos b)) :: groups a
       ∧ str_take (pos b - pos a) (str_drop (pos a) subject) = w
       ∧ at_pos subject b.
Proof.
  intros Ha H. pose proof (spans_at_pos subject _ _ _ Ha H) as Hb.
  cbn [spans] in H. destruct H as (m & (n & Hlo & Hhi & Hiter) & ->).
  pose proof (iter_class p n a m Hiter) as (w & Hw & Hn & Hall & Hp & Hg).
  cbn [pos rest groups] in *.
  specialize (Hhi hi eq_refl).
  exists w. split_and!; [lia|lia|done|by rewrite Hg| |done].
  rewrite Hp. replace (pos a + n - pos a) with (String.length w) by lia.
  unfold at_pos in Ha. by rewrite <- Ha, Hw, PyStrFacts.take_app_length.
Qed.

End MatchFacts.

(** ** Moods, keywords and statistics (app/nlp_utils.py) *)

Module AnalysisFacts.

Import PyStr Nlp NlpFacts.
Local Open Scope string_scope.

(** *** The order of the categories *)

(** X7. A higher score never gets a more negative category, and a score that is
    not a number is put with the most positive ones. *)
Theorem categorize_mood_monotone (p q : float) :
  ((p <=? q)%float = true →
     (mood_rank (categorize_mood p) <= mood_rank (categorize_mood q))%nat)
  ∧ (is_nan p = true → categorize_mood p = "Very Positive").
Proof.
  split.
  - intros Hpq. unfold categorize_mood.
    assert (Hc : ∀ c, (q <=? c)%float = true → (p <=? c)%float = true)
      by (intros c; by apply F64Order.leb_trans).
    destruct (q <=? -0.5)%float eqn:Q1; [rewrite (Hc _ Q1); done|].
    destruct (q <=? -0.1)%float eqn:Q2;
      [rewrite (Hc _ Q2); destruct (p <=? -0.5)%float; vm_compute; lia|].
    destruct (q <=? 0.1)%float eqn:Q3;
      [rewrite (Hc _ Q3); destruct (p <=? -0.5)%float, (p <=? -0.1)%float; vm_compute; lia|].
    destruct (q <=? 0.5)%float eqn:Q4;
      [rewrite (Hc _ Q4);
       destruct (p <=? -0.5)%float, (p <=? -0.1)%float, (p <=? 0.1)%float; vm_compute; lia|].
    destruct (p <=? -0.5)%float, (p <=? -0.1)%float, (p <=? 0.1)%float, (p <=? 0.5)%float;
      vm_compute; lia.
  - intros Hnan. unfold categorize_mood. by rewrite !F64Order.leb_nan_l.
Qed.

Lemma categorize_mood_monotone_witness :
  (mood_rank (categorize_mood (-0.3)%float) <= mood_rank (categorize_mood (0.2)%float))%nat
  ∧ categorize_mood nan = "Very Positive".
Proof.
  split.
  - apply (proj1 (categorize_mood_monotone (-0.3)%float (0.2)%float)). reflexivity.
  - apply (proj2 (categorize_mood_monotone nan 0%float)). reflexivity.
Defined.

(** *** The shape of a keyword *)

Lemma lower_char_not_upper (c : ascii) : is_upper_az (lower_char c) = false.
Proof. destruct c as [[] [] [] [] [] [] [] []]; reflexivity. Qed.

Lemma lower_char_idem (c : ascii) : lower_char (lower_char c) = lower_char c.
Proof. destruct c as [[] [] [] [] [] [] [] []]; reflexivity. Qed.

Lemma lower_idem (s : string) : lower (lower s) = lower s.
Proof. induction s as [|c s IH]; [done|]. simpl. by rewrite lower_char_idem, IH. Qed.

Lemma lower_no_upper (s : string) : all_chars (λ c, negb (is_upper_az c)) (lower s) = true.
Proof. induction s as [|c s IH]; [done|]. simpl. by rewrite lower_char_not_upper, IH. Qed.

Lemma split_ws_go_all (p : ascii → bool) (s : string) :
  ∀ cur, all_chars p s = true → all_chars p (default "" cur) = true →
    Forall (λ w, all_chars p w = true) (split_ws_go cur s).
Proof.
  induction s as [|c s IH]; intros cur Hs Hcur.
  - simpl. destruct cur as [w|]; simpl; [|constructor].
    repeat constructor. simpl in Hcur. by rewrite PyStrFacts.all_chars_rev.
  - simpl in Hs. apply andb_prop in Hs as [Hc Hs]. cbn [split_ws_go].
    destruct (is_space c).
    + apply Forall_app. split; [|by apply IH].
      destruct cur as [w|]; simpl; [|constructor].
      repeat constructor. simpl in Hcur. by rewrite PyStrFacts.all_chars_rev.
    + apply IH; [done|]. simpl. by rewrite Hc, Hcur.
Qed.

Lemma filter_chars_all (p q : ascii → bool) (s : string) :
  all_chars q s = true → all_chars (λ c, p c && q c) (filter_chars p s) = true.
Proof.
  induction s as [|c s IH]; [done|]. simpl. intros [Hc Hs]%andb_prop.
  destruct (p c) eqn:E; [|by apply IH]. simpl. by rewrite E, Hc, IH.
Qed.

Lemma keeps_nonempty (min_length : Z) (w : string) : keeps min_length w = true → w ≠ "".
Proof.
  unfold keeps, isalpha. intros H. apply andb_prop in H as [_ H].
  apply andb_prop in H as [H _]. by intros ->.
Qed.

(** X8. Every keyword is a word of lower-case letters from a to z and is not
    empty, whatever the text and the two bounds: no digit, punctuation mark,
    comma or capital is ever part of a keyword. And the keywords of a text
    are those of the text in lower case. *)
Theorem keywords_are_lower_case_words (text : string) (min_length max_words : Z) :
  Forall (λ k, keyword_ok k = true) (extract_keywords text min_length max_words)
  ∧ extract_keywords (lower text) min_length max_words
    = extract_keywords text min_length max_words.
Proof.
  split; [|unfold extract_keywords; by rewrite lower_idem].
  unfold extract_keywords. rewrite clean_and_filter_filter.
  destruct (slice_to_take (filter (λ w, keeps min_length w = true)
                             (clean <$> split_ws (lower text))) max_words) as [n ->].
  apply Forall_take, Forall_forall. intros k [Hk Hin]%list_elem_of_filter.
  apply list_elem_of_fmap in Hin as (w & -> & Hw).
  unfold keyword_ok. rewrite andb_true_iff. split.
  - apply negb_true_iff, String.eqb_neq. by eapply keeps_nonempty.
  - pose proof (split_ws_go_all (λ c, negb (is_upper_az c)) (lower text) None
                  (lower_no_upper text) eq_refl) as Hall.
    eapply Forall_forall in Hall; [|exact Hw].
    eapply CharFacts.all_chars_impl; [|apply (filter_chars_all is_letter), Hall].
    intros c. unfold is_letter. destruct (is_upper_az c), (is_lower_az c); done.
Qed.

(** *** The most frequent keywords *)

Lemma all_keywords_concat (kws : list (list string)) :
  ∀ acc, foldl (λ all_keywords keywords, (all_keywords ++ keywords)%list) acc kws
         = (acc ++ concat kws)%list.
Proof.
  induction kws as [|k kws IH]; intros acc; simpl; [by rewrite app_nil_r|].
  by rewrite IH, app_assoc.
Qed.

Lemma count_keyword_map (d : list (string * nat)) (k : string) :
  (list_to_map (count_keyword d k) : gmap string nat)
  = <[k := S (default 0%nat ((list_to_map d : gmap string nat) !! k))]> (list_to_map d).
Proof.
  induction d as [|[k0 n0] d IH]; [done|]. cbn [count_keyword].
  destruct (String.eqb_spec k0 k) as [->|Hne].
  - cbn [list_to_map foldr]. rewrite lookup_insert_eq. cbn. by rewrite insert_insert_eq.
  - cbn [list_to_map foldr]. fold (list_to_map (M := gmap string nat) (count_keyword d k)).
    fold (list_to_map (M := gmap string nat) d).
    rewrite IH, lookup_insert_ne by done. by rewrite insert_insert_ne.
Qed.

Lemma count_keyword_keys (d : list (string * nat)) (k : string) :
  (count_keyword d k).*1 = if decide (k ∈ d.*1) then d.*1 else (d.*1 ++ [k])%list.
Proof.
  induction d as [|[k0 n0] d IH]; [done|]. cbn [count_keyword].
  destruct (String.eqb_spec k0 k) as [->|Hne].
  - rewrite decide_True by (cbn; apply list_elem_of_here). done.
  - cbn [fmap list_fmap fst]. fold (fmap (M := list) (@fst string nat)). rewrite IH.
    destruct (decide (k ∈ d.*1)).
    + rewrite decide_True by (cbn; by apply list_elem_of_further). done.
    + rewrite decide_False by (cbn; by intros [->|?]%elem_of_cons). done.
Qed.

Lemma count_of_snoc (x k : string) (l : list string) :
  Pandas.count_of x (l ++ [k])
  = (Pandas.count_of x l + if decide (k = x) then 1 else 0)%nat.
Proof.
  unfold Pandas.count_of. rewrite filter_app, length_app, filter_cons, filter_nil.
  by case_decide.
Qed.

Lemma count_of_pos (x : string) (l : list string) :
  x ∈ l ↔ (0 < Pandas.count_of x l)%nat.
Proof.
  unfold Pandas.count_of. induction l as [|y l IH]; [split; [by intros ?%not_elem_of_nil|simpl; lia]|].
  rewrite filter_cons, elem_of_cons. case_decide; subst; simpl.
  - split; [lia|by left].
  - rewrite IH. split; [intros [?|?]; [congruence|done]|by right].
Qed.

(** The dict after the counting loop: one item for each keyword that occurs,
    with the number of its occurrences. *)
Lemma keyword_counts_spec (l : list string) :
  NoDup (foldl count_keyword [] l).*1
  ∧ ∀ k, (list_to_map (foldl count_keyword [] l) : gmap string nat) !! k
         = if decide (k ∈ l) then Some (Pandas.count_of k l) else None.
Proof.
  induction l as [|x l IH] using rev_ind.
  { split; [constructor|]. intros k. by rewrite decide_False by apply not_elem_of_nil. }
  destruct IH as [Hnd Hcnt]. rewrite foldl_app. cbn [foldl]. split.
  - rewrite count_keyword_keys. case_decide as Hin; [done|].
    apply NoDup_app. split_and!; [done| |apply NoDup_singleton].
    intros y Hy ->%list_elem_of_singleton. done.
  - intros k. rewrite count_keyword_map, count_of_snoc.
    destruct (decide (x = k)) as [->|Hne].
    + rewrite lookup_insert_eq, decide_True by (apply elem_of_app; right; apply list_elem_of_here).
      rewrite Hcnt.
      f_equal. case_decide as Hin; cbn; [lia|].
      apply (not_iff_compat (count_of_pos k l)) in Hin. lia.
    + rewrite lookup_insert_ne by done. rewrite Hcnt.
      repeat case_decide; try done; try (f_equal; lia); exfalso.
      * match goal with H : _ ∉ (_ ++ _)%list |- _ => apply H, elem_of_app; by left end.
      * match goal with
        | H : _ ∈ (_ ++ _)%list |- _ => by apply elem_of_app in H as [?|?%list_elem_of_singleton]
        end.
Qed.

Lemma elem_of_keyword_counts (l : list string) (k : string) (n : nat) :
  (k, n) ∈ foldl count_keyword [] l ↔ k ∈ l ∧ n = Pandas.count_of k l.
Proof.
  destruct (keyword_counts_spec l) as [Hnd Hcnt].
  rewrite (elem_of_list_to_map (M := gmap string)) by done. rewrite Hcnt.
  case_decide; [|split; [done|by intros [? _]]].
  split; [by intros [= <-]|by intros [_ ->]].
Qed.

(** X9. [get_common_keywords] returns, for the keywords of all the rows taken together:
    each keyword at most once, with the number of its occurrences; the
    counts never rising along the list; no keyword left out that occurs more
    often than one that is returned; and, for a [top_n] that is not negative,
    [top_n] keywords, or all of them when there are fewer. *)
Theorem common_keywords_ranked (df : list AnalyzedRow) (top_n : Z) :
  let all_keywords := concat (keywords <$> df) in
  let top := get_common_keywords df top_n in
  NoDup top.*1
  ∧ (∀ k n, (k, n) ∈ top → k ∈ all_keywords ∧ n = Pandas.count_of k all_keywords)
  ∧ StronglySorted (λ a b, (b.2 <= a.2)%nat) top
  ∧ (∀ k, k ∈ all_keywords → k ∉ top.*1 →
       ∀ k' n', (k', n') ∈ top → (Pandas.count_of k all_keywords <= n')%nat)
  ∧ ((0 <= top_n)%Z →
       length top = (Z.to_nat top_n `min` length (remove_dups all_keywords))%nat).
Proof.
  intros all_keywords top.
  assert (Htop : top = slice_to (sorted_reverse snd (foldl count_keyword [] all_keywords)) top_n).
  { unfold top, get_common_keywords. by rewrite all_keywords_concat. }
  clearbody top. subst top.
  set (counts := foldl count_keyword [] all_keywords).
  set (full := sorted_reverse snd counts).
  set (top := slice_to full top_n).
  assert (Hperm : full ≡ₚ counts) by apply SortedFacts.sorted_reverse_perm.
  assert (Hsorted : StronglySorted (λ a b, (b.2 <= a.2)%nat) full)
    by apply SortedFacts.sorted_reverse_sorted.
  destruct (keyword_counts_spec all_keywords) as [Hnd _]. fold counts in Hnd.
  destruct (slice_to_take full top_n) as [m Hm]. fold top in Hm.
  assert (Hfull : full = (top ++ drop m full)%list) by (by rewrite Hm, take_drop).
  assert (Hin : ∀ k n, (k, n) ∈ full ↔ k ∈ all_keywords ∧ n = Pandas.count_of k all_keywords).
  { intros k n. rewrite Hperm. apply elem_of_keyword_counts. }
  assert (Hndf : NoDup full.*1) by (by rewrite Hperm).
  split_and!.
  - rewrite Hfull, fmap_app in Hndf. by apply NoDup_app in Hndf as [? _].
  - intros k n Hk. apply Hin. rewrite Hfull. apply elem_of_app. by left.
  - rewrite Hfull in Hsorted. by apply StronglySorted_app_1_l in Hsorted.
  - intros k Hk Hnot k' n' Hk'.
    assert (Hk2 : (k, Pandas.count_of k all_keywords) ∈ full) by (by apply Hin).
    rewrite Hfull in Hk2, Hsorted. apply elem_of_app in Hk2 as [Hk2|Hk2].
    + exfalso. apply Hnot. apply list_elem_of_fmap. by exists (k, Pandas.count_of k all_keywords).
    + by apply (StronglySorted_app_1_elem_of _ _ _ _ _ Hsorted Hk' Hk2).
  - intros Htop. unfold top. rewrite slice_to_nonneg by done. rewrite length_take.
    f_equal. rewrite <- (length_fmap fst full).
    apply Permutation_length, NoDup_Permutation; [done|apply NoDup_remove_dups|].
    intros k. rewrite elem_of_remove_dups, list_elem_of_fmap. split.
    + intros ([k' n] & -> & Hkn). by apply Hin in Hkn as [? _].
    + intros Hk. exists (k, Pandas.count_of k all_keywords). split; [done|]. by apply Hin.
Qed.

Lemma common_keywords_ranked_witness :
  length (get_common_keywords
            [mkAnalyzed (Pandas.mkTs 2025 1 10 0 0 0) "t" "c" 0 0 "Neutral" ["walk"; "rain"; "walk"];
             mkAnalyzed (Pandas.mkTs 2025 1 11 0 0 0) "t" "c" 0 0 "Neutral" ["rain"; "walk"; "tea"]] 2)
  = 2%nat.
Proof.
  refine (proj2 (proj2 (proj2 (proj2 (common_keywords_ranked
    [mkAnalyzed (Pandas.mkTs 2025 1 10 0 0 0) "t" "c" 0 0 "Neutral" ["walk"; "rain"; "walk"];
     mkAnalyzed (Pandas.mkTs 2025 1 11 0 0 0) "t" "c" 0 0 "Neutral" ["rain"; "walk"; "tea"]] 2))))
    _).
  lia.
Defined.

(** *** The span of the dates *)






End AnalysisFacts.

(** ** Files and entries (convert_journal.py) *)

Module EntryFacts.

Import PyStr Regex Converter ConverterFacts.
Local Open Scope string_scope.

(** *** Counting the files *)

Lemma process_files_counts (md_files : list MdFile) :
  ∀ acc, ∃ k s,
    processed_files (foldl process_file acc md_files) = (processed_files acc + k)%nat
    ∧ skipped_files (foldl process_file acc md_files) = (skipped_files acc + s)%nat
    ∧ length (entries (foldl process_file acc md_files)) = (length (entries acc) + k)%nat
    ∧ (k + s)%nat = length md_files.
Proof.
  induction md_files as [|f fs IH]; intros acc.
  - exists 0%nat, 0%nat. simpl. lia.
  - cbn [foldl]. destruct (IH (process_file acc f)) as (k & s & H1 & H2 & H3 & H4).
    unfold process_file in *.
    destruct (get_entry_details f) as [[[[d|] t] c]|];
      cbn [processed_files skipped_files entries] in *.
    + exists (S k), s. rewrite length_app in H3. simpl in *. lia.
    + exists k, (S s). simpl. lia.
    + exists k, (S s). simpl. lia.
Qed.


Lemma length_valid_rows (es : list Entry) : (length (valid_rows es) <= length es)%nat.
Proof.
  unfold valid_rows. induction es as [|e es IH]; [done|]. cbn [omap list_omap].
  destruct (_ <$> Pandas.to_datetime (date e)); simpl; lia.
Qed.

(** X1. Every file of the directory is counted once, as processed or as skipped;
    every processed file gave one entry; and every entry is either written
    or counted as dropped. *)
Theorem every_file_accounted (sort_values : SortBy date_le)
    (md_files : list MdFile) (output_file : string) :
  let o := convert_journal_files sort_values (Some md_files) output_file in
  (processed o + skipped o)%nat = length md_files
  ∧ processed o = length (entries (process_files md_files))
  ∧ ∀ rows, written o = Some rows → (length rows + dropped o)%nat = processed o.
Proof.
  destruct (process_files_counts md_files (mkProgress [] 0 0)) as (k & s & H1 & H2 & H3 & H4).
  fold (process_files md_files) in H1, H2, H3. cbn in H1, H2, H3.
  unfold convert_journal_files.
  destruct (entries (process_files md_files)) as [|e es] eqn:E;
    cbn [processed skipped written dropped]; (split_and!; [lia|simpl in *; lia|]).
  - done.
  - intros rows [= <-]. rewrite sort_by_perm.
    pose proof (length_valid_rows (e :: es)). simpl in *. lia.
Qed.



(** *** Files that give no entry *)

Lemma foldl_process_file_skip (fs : list MdFile) :
  ∀ acc,
    foldl process_file (mkProgress (entries acc) (processed_files acc) (S (skipped_files acc))) fs
    = mkProgress (entries (foldl process_file acc fs))
                 (processed_files (foldl process_file acc fs))
                 (S (skipped_files (foldl process_file acc fs))).
Proof.
  induction fs as [|f fs IH]; intros acc; [done|]. cbn [foldl].
  rewrite <- IH. f_equal. unfold process_file.
  by destruct (get_entry_details f) as [[[[d|] t] c]|].
Qed.

(** X3. A file that cannot be read, or whose name gives no date, is counted as
    skipped and changes nothing of what the other files of the directory
    give: the entries and the count of processed files are those of the
    directory without it. *)
Theorem skipped_file_leaves_rest (before after : list MdFile) (f : MdFile) :
  text f = None ∨ (extract_date_from_filename (name f)).1 = None →
  let p := process_files (before ++ f :: after) in
  let q := process_files (before ++ after) in
  entries p = entries q
  ∧ processed_files p = processed_files q
  ∧ skipped_files p = S (skipped_files q).
Proof.
  intros Hf.
  assert (Hskip : ∀ acc, process_file acc f
            = mkProgress (entries acc) (processed_files acc) (S (skipped_files acc))).
  { intros acc. unfold process_file, get_entry_details.
    destruct Hf as [->|Hd]; [done|]. destruct (text f) as [txt|]; [|done].
    cbn [fmap option_fmap option_map]. unfold entry_details.
    destruct (extract_date_from_filename (name f)) as [d t]. cbn [fst] in Hd. subst d.
    by destruct (scan_lines _ _ _). }
  unfold process_files. rewrite !foldl_app. cbn [foldl].
  rewrite Hskip, foldl_process_file_skip. done.
Qed.

Lemma skipped_file_leaves_rest_witness :
  entries (process_files ([mkFile "Friday 1 10 25 Morning.md" (Some "first")]
                          ++ mkFile "notes.md" (Some "text") :: []))
  = entries (process_files ([mkFile "Friday 1 10 25 Morning.md" (Some "first")] ++ [])).
Proof.
  refine (proj1 (skipped_file_leaves_rest
                   [mkFile "Friday 1 10 25 Morning.md" (Some "first")] []
                   (mkFile "notes.md" (Some "text")) _)).
  right. vm_compute. reflexivity.
Defined.

(** *** Title and body of an entry *)

Lemma heading_not_metadata (line : string) :
  startswith "# " line = true → is_metadata line = false.
Proof.
  unfold is_metadata, startswith. destruct line as [|c line]; [done|].
  cbn [String.prefix]. repeat case_match; subst; done.
Qed.

Lemma scan_lines_fst (lines : list string) :
  ∀ t acc, (scan_lines lines t acc).1
           = match t with Some x => Some x | None => first_heading lines end.
Proof.
  induction lines as [|line rest IH]; intros t acc; [by destruct t|].
  cbn [scan_lines]. unfold first_heading. rewrite filter_cons.
  destruct (startswith "# " line) eqn:E.
  - rewrite decide_True by done. destruct t as [x|].
    + rewrite bool_decide_eq_false_2 by done. cbn [andb].
      destruct (_ || _); by rewrite IH.
    + rewrite bool_decide_eq_true_2 by done. cbn [andb head fmap option_fmap option_map].
      repeat case_match; by rewrite IH.
  - rewrite decide_False by done. cbn [andb].
    destruct (_ || _); rewrite IH; done.
Qed.

Lemma scan_lines_snd (lines : list string) :
  ∀ t acc, (scan_lines lines t acc).2
           = (acc ++ filter (λ l, is_metadata l = false)
                       (match t with Some _ => lines | None => without_first_heading lines end))%list.
Proof.
  induction lines as [|line rest IH]; intros t acc.
  { cbn. destruct t; by rewrite filter_nil, app_nil_r. }
  cbn [scan_lines without_first_heading].
  destruct (startswith "# " line) eqn:E.
  - destruct t as [x|].
    + rewrite bool_decide_eq_false_2 by done. cbn [andb].
      pose proof (heading_not_metadata _ E) as Hm. unfold is_metadata in Hm. rewrite Hm.
      rewrite IH, filter_cons, decide_True by (by apply heading_not_metadata).
      by rewrite <- app_assoc.
    + rewrite bool_decide_eq_true_2 by done. cbn [andb].
      repeat case_match; by rewrite IH.
  - cbn [andb]. fold (is_metadata line). destruct (is_metadata line) eqn:Hm.
    + rewrite IH. destruct t; rewrite filter_cons, decide_False by (by rewrite Hm); done.
    + rewrite IH. destruct t; rewrite filter_cons, decide_True by done;
        by rewrite <- app_assoc.
Qed.

(** X4. The title of an entry is the text of the first line that starts with
    the level-1 marker when that text is not empty, else the title that the
    file name gives when that is not empty, else "Untitled Entry"; so it is
    never empty. *)
Theorem title_precedence (filename content : string) :
  (entry_details filename content).1.2
  = str_or (default "" (first_heading (split newline content)))
           (str_or (extract_date_from_filename filename).2 "Untitled Entry")
  ∧ (entry_details filename content).1.2 ≠ "".
Proof.
  assert (Hor : ∀ a b, b ≠ "" → str_or a b ≠ "").
  { intros a b Hb. unfold str_or. destruct (String.eqb_spec a ""); done. }
  unfold entry_details. destruct (extract_date_from_filename filename) as [d tf].
  pose proof (scan_lines_fst (split newline content) None []) as H1.
  destruct (scan_lines (split newline content) None []) as [tc body].
  cbn [fst snd] in *. subst tc. split; [done|]. apply Hor, Hor. done.
Qed.

(** X5. The body of an entry is the text of the file without the first line
    that starts with the level-1 marker and without the lines that start
    with [Created:] or [Updated:], the other lines in their order, and
    stripped of white space at both ends. *)
Theorem body_without_heading_and_metadata (filename content : string) :
  (entry_details filename content).2
  = strip (text_of_lines (filter (λ l, is_metadata l = false)
                            (without_first_heading (split newline content)))).
Proof.
  unfold entry_details. destruct (extract_date_from_filename filename) as [d tf].
  pose proof (scan_lines_snd (split newline content) None []) as H2.
  destruct (scan_lines (split newline content) None []) as [tc body].
  cbn [fst snd] in *. by subst body.
Qed.

End EntryFacts.

(** ** The date text of a file name (convert_journal.py) *)

Module DateTextFacts.

Import PyStr Regex Converter RegexFacts MatchFacts.
Import PyStrFacts.
Local Open Scope string_scope.
Local Open Scope nat_scope.

(** *** Numbers of one or two digits *)

Lemma format_02d_fmt2 (n : Z) : (0 <= n < 100)%Z → format_02d n = Pandas.fmt2 n.
Proof.
  intros Hn.
  assert (H : forallb (λ k, String.eqb (format_02d (Z.of_nat k)) (Pandas.fmt2 (Z.of_nat k)))
                (List.seq 0 100) = true) by (vm_compute; reflexivity).
  rewrite forallb_forall in H. specialize (H (Z.to_nat n)).
  rewrite Z2Nat.id in H by lia. apply String.eqb_eq, H, in_seq. lia.
Qed.

Lemma fmt2_digits (n : Z) :
  (0 <= n < 100)%Z →
  all_chars is_digit (Pandas.fmt2 n) = true ∧ String.length (Pandas.fmt2 n) = 2.
Proof.
  intros Hn. unfold Pandas.fmt2. cbn [all_chars String.length].
  rewrite !PyStrFacts.is_digit_digit_char by (Z.div_mod_to_equations; lia). done.
Qed.

Lemma digit_val_bounds (c : ascii) : is_digit c = true → (0 <= digit_val c < 10)%Z.
Proof.
  unfold is_digit, in_range, digit_val. intros H. apply andb_prop in H as [H1 H2].
  apply N.leb_le in H1, H2. lia.
Qed.

Lemma int_of_short (w : string) :
  all_chars is_digit w = true → String.length w <= 2 → (0 <= int_of w < 100)%Z.
Proof.
  intros Hw Hlen. destruct w as [|c1 [|c2 [|c3 w]]]; cbn in Hlen; [| | |lia].
  - cbn. lia.
  - cbn [all_chars] in Hw. apply andb_prop in Hw as [H1 _].
    pose proof (digit_val_bounds c1 H1). unfold int_of. cbn [int_go]. lia.
  - cbn [all_chars] in Hw. apply andb_prop in Hw as [H1 Hw]. apply andb_prop in Hw as [H2 _].
    pose proof (digit_val_bounds c1 H1). pose proof (digit_val_bounds c2 H2).
    unfold int_of. cbn [int_go]. lia.
Qed.

Lemma digits_no_hyphen (w : string) :
  all_chars is_digit w = true → all_chars (λ c, negb (Ascii.eqb c "-")) w = true.
Proof.
  apply CharFacts.all_chars_impl. intros c Hc.
  destruct (Ascii.eqb_spec c "-") as [->|]; done.
Qed.

(** The date text that is put together from a year, a month and a day. *)
Lemma date_text_shape (y : string) (m d : Z) :
  all_chars is_digit y = true → (String.length y = 3 ∨ String.length y = 4) →
  (0 <= m < 100)%Z → (0 <= d < 100)%Z →
  is_date_text (y +:+ "-" +:+ format_02d m +:+ "-" +:+ format_02d d) = true.
Proof.
  intros Hy Hlen Hm Hd. rewrite !format_02d_fmt2 by done.
  destruct (fmt2_digits m Hm) as [Hm1 Hm2]. destruct (fmt2_digits d Hd) as [Hd1 Hd2].
  unfold is_date_text.
  change (y +:+ "-" +:+ Pandas.fmt2 m +:+ "-" +:+ Pandas.fmt2 d)
    with (join "-" [y; Pandas.fmt2 m; Pandas.fmt2 d]).
  rewrite PyStrFacts.split_join; [|done|by repeat constructor; apply digits_no_hyphen].
  rewrite Hy, Hm1, Hm2, Hd1, Hd2. cbn [andb Nat.eqb].
  by destruct Hlen as [-> | ->].
Qed.

(** *** The three digit groups *)

Lemma spans_Cat (r1 r2 : regex) (a b : mstate) :
  spans (Cat r1 r2) a b ↔ ∃ m, spans r1 a m ∧ spans r2 m b.
Proof. done. Qed.

Lemma group_here (start stop : nat) (gs : list (nat * (nat * nat))) (subject : string)
    (g b e : nat) (older : list (nat * (nat * nat))) (newer : list (nat * (nat * nat))) :
  gs = (newer ++ (g, (b, e)) :: older)%list → Forall (λ x, x.1 ≠ g) newer →
  group (mkMatch start stop gs subject) g = str_take (e - b) (str_drop b subject).
Proof.
  intros -> Hnew. unfold group. cbn [m_groups m_subject].
  assert (list_find (λ x : nat * (nat * nat), x.1 = g) (newer ++ (g, (b, e)) :: older)%list
          = Some (length newer, (g, (b, e)))) as ->; [|done].
  apply list_find_Some. split_and!.
  - by rewrite lookup_app_r, Nat.sub_diag.
  - done.
  - intros j y Hj Hlt. rewrite lookup_app_l in Hj by done.
    eapply Forall_lookup in Hnew; done.
Qed.

Lemma spans_digit_groups (name : string) (a b : mstate) (start : nat) :
  at_pos name a → groups a = [] → spans digit_groups a b →
  ∃ w1 w2 w3,
    all_chars is_digit w1 = true ∧ 1 <= String.length w1 <= 2
    ∧ all_chars is_digit w2 = true ∧ 1 <= String.length w2 <= 2
    ∧ all_chars is_digit w3 = true ∧ 2 <= String.length w3 <= 4
    ∧ group (mkMatch start (pos b) (groups b) name) 1 = w1
    ∧ group (mkMatch start (pos b) (groups b) name) 2 = w2
    ∧ group (mkMatch start (pos b) (groups b) name) 3 = w3.
Proof.
  intros Ha Hg H. unfold digit_groups in H. cbn [seq] in H.
  apply spans_Cat in H as (m1 & H1 & H). apply spans_Cat in H as (m2 & H2 & H).
  apply spans_Cat in H as (m3 & H3 & H). apply spans_Cat in H as (m4 & H4 & H5).
  apply (spans_group_class name) in H1 as (w1 & Hl1 & Hd1 & Hg1 & Ht1 & Ha1); [|done].
  pose proof (spans_at_pos name _ _ _ Ha1 H2) as Ha2.
  apply spans_group_free in H2 as Hg2; [|done].
  apply (spans_group_class name) in H3 as (w2 & Hl2 & Hd2 & Hg3 & Ht2 & Ha3); [|done].
  pose proof (spans_at_pos name _ _ _ Ha3 H4) as Ha4.
  apply spans_group_free in H4 as Hg4; [|done].
  apply (spans_group_class name) in H5 as (w3 & Hl3 & Hd3 & Hg5 & Ht3 & Ha5); [|done].
  rewrite Hg4, Hg3, Hg2, Hg1, Hg in Hg5.
  exists w1, w2, w3. split_and!; try done; try lia.
  - rewrite <- Ht1.
    by apply (group_here _ _ _ _ _ _ _ [] [(3, (pos m4, pos b)); (2, (pos m2, pos m3))]);
      [|repeat constructor].
  - rewrite <- Ht2.
    by apply (group_here _ _ _ _ _ _ _ [(1, (pos a, pos m1))] [(3, (pos m4, pos b))]);
      [|repeat constructor].
  - rewrite <- Ht3.
    by apply (group_here _ _ _ _ _ _ _ [(2, (pos m2, pos m3)); (1, (pos a, pos m1))] []);
      [|repeat constructor].
Qed.

Lemma match_at_sound (r : regex) (subject : string) (start : nat) (m : rmatch) :
  match_at r subject start (str_drop start subject) = Some m →
  ∃ b, spans r (mkSt start (str_drop start subject) []) b
       ∧ m = mkMatch start (pos b) (groups b) subject.
Proof.
  unfold match_at. intros H.
  destruct (run r Some (mkSt start (str_drop start subject) [])) as [st|] eqn:Hrun; [|done].
  injection H as <-. apply run_sound in Hrun as (b & Hb & [= ->]). by exists st.
Qed.

(** What the first two patterns find: three runs of digits. *)
Lemma numeric_groups (r : regex) (name : string) (m : rmatch) :
  r = weekday_re ∨ r = numeric_re → re_match r name = Some m →
  ∃ w1 w2 w3,
    all_chars is_digit w1 = true ∧ 1 <= String.length w1 <= 2
    ∧ all_chars is_digit w2 = true ∧ 1 <= String.length w2 <= 2
    ∧ all_chars is_digit w3 = true ∧ 2 <= String.length w3 <= 4
    ∧ group m 1 = w1 ∧ group m 2 = w2 ∧ group m 3 = w3.
Proof.
  intros Hr H. unfold re_match in H.
  apply (match_at_sound r name 0) in H as (b & Hb & ->).
  assert (Ha0 : at_pos name (mkSt 0 name [])) by done.
  destruct Hr as [-> | ->].
  - change weekday_re
      with (Cat Bos (Cat (plus (Chr is_word)) (Cat (plus (Chr is_space)) digit_groups))) in Hb.
    apply spans_Cat in Hb as (m0 & [_ ->] & Hb). apply spans_Cat in Hb as (m1 & H1 & Hb).
    apply spans_Cat in Hb as (m2 & H2 & Hb).
    pose proof (spans_at_pos name _ _ _ Ha0 H1) as Ha1.
    pose proof (spans_at_pos name _ _ _ Ha1 H2) as Ha2.
    apply spans_group_free in H1 as Hg1; [|done].
    apply spans_group_free in H2 as Hg2; [|done].
    apply (spans_digit_groups name m2 b 0 Ha2); [|done]. by rewrite Hg2, Hg1.
  - change numeric_re with (Cat Bos digit_groups) in Hb.
    apply spans_Cat in Hb as (m0 & [_ ->] & Hb).
    by apply (spans_digit_groups name _ b 0 Ha0).
Qed.

Lemma numeric_date_shape (name : string) (m : rmatch) (w1 w2 w3 : string) :
  all_chars is_digit w1 = true → 1 <= String.length w1 <= 2 →
  all_chars is_digit w2 = true → 1 <= String.length w2 <= 2 →
  all_chars is_digit w3 = true → 2 <= String.length w3 <= 4 →
  group m 1 = w1 → group m 2 = w2 → group m 3 = w3 →
  ∃ d, (numeric_date name m).1 = Some d ∧ is_date_text d = true.
Proof.
  intros Hd1 Hl1 Hd2 Hl2 Hd3 Hl3 Hg1 Hg2 Hg3. unfold numeric_date.
  rewrite Hg1, Hg2, Hg3. cbn [fst]. eexists. split; [done|].
  apply date_text_shape; [| |by apply int_of_short; [|lia]..].
  - destruct (String.length w3 =? 2); [|done].
    by rewrite CharFacts.all_chars_app, Hd3.
  - destruct (Nat.eqb_spec (String.length w3) 2) as [E|E].
    + right. rewrite PyStrFacts.length_app, E. done.
    + lia.
Qed.

(** *** The month names *)

Lemma spans_alts (rs : list regex) (a b : mstate) :
  spans (alts rs) a b → ∃ r, r ∈ rs ∧ spans r a b.
Proof.
  induction rs as [|r rs IH]; cbn [alts].
  - by intros (c & _ & ? & _).
  - destruct rs as [|r' rs].
    + intros H. exists r. split; [apply list_elem_of_here|done].
    + intros [H|H].
      * exists r. split; [apply list_elem_of_here|done].
      * destruct (IH H) as (r0 & Hr0 & H0). exists r0. split; [by apply list_elem_of_further|done].
Qed.

Lemma spans_ichar (c : ascii) (a b : mstate) :
  spans (ichar c) a b →
  ∃ x, rest a = String x (rest b) ∧ lower_char x = lower_char c
       ∧ pos b = S (pos a) ∧ groups b = groups a.
Proof.
  intros (x & Hx & Hc%Ascii.eqb_eq & Hp & Hg). by exists x.
Qed.

Lemma spans_ilit (s : string) :
  s ≠ "" → ∀ a b, spans (ilit s) a b →
  ∃ w, rest a = w +:+ rest b ∧ lower w = lower s ∧ pos b = pos a + String.length w.
Proof.
  induction s as [|c s IH]; [done|]. intros _ a b H. destruct s as [|c' s].
  - apply spans_ichar in H as (x & Hx & Hc & Hp & _). exists (String x "").
    split_and!; [done|by simpl; rewrite Hc|simpl; lia].
  - change (ilit (String c (String c' s))) with (Cat (ichar c) (ilit (String c' s))) in H.
    apply spans_Cat in H as (m & (x & Hx & Hc & Hp & _)%spans_ichar & H).
    apply IH in H as (w & Hw & Hl & Hp'); [|done]. exists (String x w).
    rewrite PyStrFacts.app_cons, <- Hw. split_and!; [done| |simpl; lia].
    change (lower (String x w)) with (String (lower_char x) (lower w)). by rewrite Hc, Hl.
Qed.

(** The text of a group whose expression holds no group. *)
Lemma spans_group (subject : string) (g : nat) (r : regex) (a b : mstate) :
  at_pos subject a → group_free r = true → spans (Grp g r) a b →
  ∃ m, spans r a m ∧ rest m = rest b
       ∧ groups b = (g, (pos a, pos b)) :: groups a
       ∧ str_take (pos b - pos a) (str_drop (pos a) subject) +:+ rest m = rest a
       ∧ at_pos subject b.
Proof.
  intros Ha Hr H. pose proof (spans_at_pos subject _ _ _ Ha H) as Hb.
  cbn [spans] in H. destruct H as (m & H & ->). cbn [pos rest groups] in *.
  exists m. split_and!; [done|done| |  |done].
  - by rewrite (spans_group_free r Hr _ _ H).
  - apply spans_consumes in H as (w & Hw & Hp). rewrite Hp.
    replace (pos a + String.length w - pos a) with (String.length w) by lia.
    unfold at_pos in Ha. by rewrite <- Ha, Hw, PyStrFacts.take_app_length.
Qed.

Lemma app_inv_tail (w w' r : string) : w +:+ r = w' +:+ r → w = w'.
Proof.
  intros H.
  assert (Hlen : String.length w = String.length w').
  { apply (f_equal String.length) in H. rewrite !PyStrFacts.length_app in H. lia. }
  revert w' H Hlen. induction w as [|c w IH]; intros [|c' w'] H Hlen; try done.
  rewrite !PyStrFacts.app_cons in H. injection H as -> H. f_equal. apply IH; [done|].
  simpl in Hlen. lia.
Qed.

(** One of the twelve names, in any case, gives its month. *)
Lemma month_of_name (w : string) :
  (∃ nm, nm ∈ month_table.*1 ∧ lower w = lower nm) →
  ∃ k, month_map !! lower (str_take 3 w) = Some k ∧ (1 <= k <= 12)%Z.
Proof.
  intros (nm & Hnm & Hw).
  assert (Hlen : String.length w = 3).
  { rewrite <- CharFacts.length_lower, Hw.
    cbn in Hnm. repeat (apply elem_of_cons in Hnm as [->|Hnm]; [done|]).
    by apply not_elem_of_nil in Hnm. }
  rewrite PyStrFacts.take_all, Hw by lia.
  cbn in Hnm. repeat (apply elem_of_cons in Hnm as [->|Hnm]; [eexists; split; [vm_compute; reflexivity|lia]|]).
  by apply not_elem_of_nil in Hnm.
Qed.

Lemma search_from_sound (r : regex) (subject : string) :
  ∀ s start m, s = str_drop start subject → search_from r subject start s = Some m →
    ∃ start', match_at r subject start' (str_drop start' subject) = Some m.
Proof.
  induction s as [|c s IH]; intros start m Hs H; cbn [search_from] in H.
  - destruct (match_at r subject start "") eqn:E; [|done]. injection H as ->.
    exists start. by rewrite <- Hs.
  - destruct (match_at r subject start (String c s)) eqn:E.
    + injection H as ->. exists start. by rewrite <- Hs.
    + apply (IH (S start)); [|done].
      by rewrite <- Nat.add_1_r, str_drop_add, <- Hs.
Qed.

(** What the third pattern finds: a month name and two runs of digits. *)
Lemma month_name_groups (name : string) (m : rmatch) :
  re_search month_name_re name = Some m →
  ∃ k w2 w3,
    month_map !! lower (str_take 3 (group m 1)) = Some k ∧ (1 <= k <= 12)%Z
    ∧ all_chars is_digit w2 = true ∧ 1 <= String.length w2 <= 2
    ∧ all_chars is_digit w3 = true ∧ String.length w3 = 4
    ∧ group m 2 = w2 ∧ group m 3 = w3.
Proof.
  unfold re_search. intros H.
  apply (search_from_sound _ _ name 0 m eq_refl) in H as (start & H).
  apply match_at_sound in H as (b & Hb & ->).
  assert (Ha0 : at_pos name (mkSt start (str_drop start name) [])) by done.
  unfold month_name_re in Hb. cbn [seq] in Hb.
  apply spans_Cat in Hb as (m1 & H1 & Hb). apply spans_Cat in Hb as (m2 & H2 & Hb).
  apply spans_Cat in Hb as (m3 & H3 & Hb). apply spans_Cat in Hb as (m4 & H4 & Hb).
  apply spans_Cat in Hb as (m5 & H5 & Hb). apply spans_Cat in Hb as (m6 & H6 & Hb).
  apply spans_Cat in Hb as (m7 & H7 & H8).
  apply (spans_group name) in H1 as (m1' & H1' & _ & Hg1 & Ht1 & Ha1); [|done..].
  pose proof (spans_at_pos name _ _ _ Ha1 H2) as Ha2.
  pose proof (spans_at_pos name _ _ _ Ha2 H3) as Ha3.
  apply (spans_group_class name) in H4 as (w2 & Hl2 & Hd2 & Hg4 & Ht2 & Ha4); [|done].
  pose proof (spans_at_pos name _ _ _ Ha4 H5) as Ha5.
  pose proof (spans_at_pos name _ _ _ Ha5 H6) as Ha6.
  pose proof (spans_at_pos name _ _ _ Ha6 H7) as Ha7.
  apply (spans_group_class name) in H8 as (w3 & Hl3 & Hd3 & Hg8 & Ht3 & Ha8); [|done].
  apply spans_group_free in H2 as Hg2; [|done]. apply spans_group_free in H3 as Hg3; [|done].
  apply spans_group_free in H5 as Hg5; [|done]. apply spans_group_free in H6 as Hg6; [|done].
  apply spans_group_free in H7 as Hg7; [|done].
  rewrite Hg7, Hg6, Hg5, Hg4, Hg3, Hg2, Hg1 in Hg8. cbn [groups] in Hg8.
  set (g1 := (1, (start, pos m1))) in *. set (g2 := (2, (pos m3, pos m4))) in *.
  set (g3 := (3, (pos m7, pos b))) in *.
  assert (E1 : group (mkMatch start (pos b) (groups b) name) 1
               = str_take (pos m1 - start) (str_drop start name))
    by (by apply (group_here _ _ _ _ _ _ _ [] [g3; g2]); [|repeat constructor]).
  assert (E2 : group (mkMatch start (pos b) (groups b) name) 2 = w2)
    by (rewrite <- Ht2; by apply (group_here _ _ _ _ _ _ _ [g1] [g3]); [|repeat constructor]).
  assert (E3 : group (mkMatch start (pos b) (groups b) name) 3 = w3)
    by (rewrite <- Ht3; by apply (group_here _ _ _ _ _ _ _ [g2; g1] []); [|repeat constructor]).
  destruct (month_of_name (str_take (pos m1 - start) (str_drop start name))) as (k & Hk & Hk12).
  { apply spans_alts in H1' as (r & Hr & H1').
    apply list_elem_of_fmap in Hr as (nm & -> & Hnm). exists nm. split; [done|].
    apply spans_ilit in H1' as (w & Hw & Hlow & _).
    - cbn [pos rest] in Hw, Ht1. pose proof (eq_trans Ht1 Hw) as E.
      apply app_inv_tail in E. by rewrite E.
    - cbn in Hnm. repeat (apply elem_of_cons in Hnm as [->|Hnm]; [done|]).
      by apply not_elem_of_nil in Hnm. }
  exists k, w2, w3. rewrite E1. split_and!; try done; lia.
Qed.

(** The date text of a file name, as a text of the form Y-MM-DD. *)
Lemma extracted_date_shape (filename d title : string) :
  extract_date_from_filename filename = (Some d, title) → is_date_text d = true.
Proof.
  unfold extract_date_from_filename, match_patterns. set (name := clean_name filename).
  destruct (re_match weekday_re name) as [m|] eqn:E1.
  { apply (numeric_groups weekday_re) in E1 as (w1 & w2 & w3 & ? & ? & ? & ? & ? & ? & ? & ? & ?);
      [|by left].
    destruct (numeric_date_shape name m w1 w2 w3) as (d' & Hd' & Hshape); [done..|].
    intros Heq. rewrite Heq in Hd'. by injection Hd' as ->. }
  destruct (re_match numeric_re name) as [m|] eqn:E2.
  { apply (numeric_groups numeric_re) in E2 as (w1 & w2 & w3 & ? & ? & ? & ? & ? & ? & ? & ? & ?);
      [|by right].
    destruct (numeric_date_shape name m w1 w2 w3) as (d' & Hd' & Hshape); [done..|].
    intros Heq. rewrite Heq in Hd'. by injection Hd' as ->. }
  destruct (re_search month_name_re name) as [m|] eqn:E3; [|done].
  apply month_name_groups in E3 as (k & w2 & w3 & Hk & Hk12 & Hd2 & Hl2 & Hd3 & Hl3 & Hg2 & Hg3).
  rewrite Hk, Hg2, Hg3. cbn [from_option id]. intros [= <- _].
  apply date_text_shape; [done|by right|lia|].
  apply int_of_short; [done|lia].
Qed.

(** *** Splitting at a character *)

Lemma rev_app_app (s acc t : string) :
  String.rev_app s acc +:+ t = String.rev_app s (acc +:+ t).
Proof.
  revert acc. induction s as [|c s IH]; intros acc; [done|]. simpl.
  by rewrite IH, PyStrFacts.app_cons.
Qed.

Lemma split_go_nonempty (sep : ascii) (s cur : string) : split_go sep cur s ≠ [].
Proof. revert cur. induction s as [|c s IH]; intros cur; simpl; [done|]. by case_match. Qed.

Lemma join_cons (sep x : string) (l : list string) :
  l ≠ [] → join sep (x :: l) = x +:+ sep +:+ join sep l.
Proof. by destruct l. Qed.

Lemma join_split_go (sep : ascii) (s : string) :
  ∀ cur, join (String sep "") (split_go sep cur s) = String.rev cur +:+ String.rev "" +:+ s.
Proof.
  induction s as [|c s IH]; intros cur.
  - simpl. by rewrite PyStrFacts.app_nil_r.
  - cbn [split_go]. destruct (Ascii.eqb_spec c sep) as [->|Hne].
    + rewrite join_cons by apply split_go_nonempty. rewrite IH. done.
    + rewrite IH. unfold String.rev. cbn [String.rev_app].
      rewrite !PyStrFacts.app_nil_l. change (String c "") with ("" +:+ String c "").
      rewrite <- rev_app_app, PyStrFacts.app_assoc. done.
Qed.

(** The parts of a text, joined again, are the text. *)
Lemma join_split (sep : ascii) (s : string) : join (String sep "") (split sep s) = s.
Proof. unfold split. by rewrite join_split_go. Qed.

Lemma is_date_text_inv (d : string) :
  is_date_text d = true →
  ∃ y mm dd,
    d = y +:+ "-" +:+ mm +:+ "-" +:+ dd
    ∧ all_chars is_digit y = true ∧ (String.length y = 3 ∨ String.length y = 4)
    ∧ all_chars is_digit mm = true ∧ String.length mm = 2
    ∧ all_chars is_digit dd = true ∧ String.length dd = 2.
Proof.
  unfold is_date_text. intros H. pose proof (join_split "-" d) as Hd.
  destruct (split "-" d) as [|y [|mm [|dd [|? ?]]]]; try done.
  repeat (apply andb_prop in H as [H ?]).
  exists y, mm, dd. split_and!; try done.
  - match goal with H : (_ || _) = true |- _ => apply orb_prop in H as [?%Nat.eqb_eq|?%Nat.eqb_eq] end;
      [by left|by right].
  - by apply Nat.eqb_eq.
  - by apply Nat.eqb_eq.
Qed.

(** X6. Every date text that [extract_date_from_filename] returns has the form
    Y-MM-DD: a year of three or four digits (a year of two digits is put in
    the century of 2000), and a month and a day of two digits each. Whether
    month and day are those of a day of the calendar is not looked at. *)
Theorem extracted_date_is_date_text (filename d title : string) :
  extract_date_from_filename filename = (Some d, title) →
  ∃ y mm dd,
    d = y +:+ "-" +:+ mm +:+ "-" +:+ dd
    ∧ all_chars is_digit y = true ∧ (String.length y = 3 ∨ String.length y = 4)
    ∧ all_chars is_digit mm = true ∧ String.length mm = 2
    ∧ all_chars is_digit dd = true ∧ String.length dd = 2.
Proof. intros H. by eapply is_date_text_inv, extracted_date_shape. Qed.

Lemma extracted_date_is_date_text_witness :
  ∃ y mm dd,
    "2025-01-10" = y +:+ "-" +:+ mm +:+ "-" +:+ dd
    ∧ all_chars is_digit y = true ∧ (String.length y = 3 ∨ String.length y = 4)
    ∧ all_chars is_digit mm = true ∧ String.length mm = 2
    ∧ all_chars is_digit dd = true ∧ String.length dd = 2.
Proof.
  apply (extracted_date_is_date_text "Friday 1 10 25 Gratitude.md" "2025-01-10" "Gratitude").
  vm_compute. reflexivity.
Defined.

End DateTextFacts.

(** ** Batches and queries of the entry store (app/db.py) *)

Module StoreFacts.

Import PyStr Db DbFacts.
Local Open Scope string_scope.

(** *** Batches *)

Lemma insert_loop_ok (df : list (gmap string Cell)) :
  ∀ db n db' m, insert_loop db df n = (db', Ok m) →
    m = (n + length df)%nat
    ∧ committed db' = committed db
    ∧ ∃ new, rows db' = (rows db ++ new)%list
             ∧ Forall2 (λ row r, insert_row row = Ok r) df new.
Proof.
  induction df as [|row df IH]; intros db n db' m H; cbn [insert_loop] in H.
  - injection H as <- <-. split_and!; [simpl; lia|done|].
    exists []. by rewrite app_nil_r.
  - destruct (insert_row row) as [r|e] eqn:Hr; [|done].
    apply IH in H as (-> & Hc & new & Hrows & Hall). cbn [rows committed] in *.
    split_and!; [simpl; lia|done|]. exists (r :: new).
    rewrite Hrows, <- app_assoc. split; [done|]. by constructor.
Qed.

Lemma insert_loop_raise (df : list (gmap string Cell)) :
  ∀ db n db' e, insert_loop db df n = (db', Raise e) →
    committed db' = committed db
    ∧ ∃ done row rest new,
        df = (done ++ row :: rest)%list
        ∧ Forall2 (λ row r, insert_row row = Ok r) done new
        ∧ insert_row row = Raise e
        ∧ rows db' = (rows db ++ new)%list.
Proof.
  induction df as [|row df IH]; intros db n db' e H; cbn [insert_loop] in H; [done|].
  destruct (insert_row row) as [r|e'] eqn:Hr.
  - apply IH in H as (Hc & done & row' & rest & new & -> & Hall & Hrow & Hrows).
    cbn [rows committed] in *. split; [done|].
    exists (row :: done), row', rest, (r :: new).
    rewrite Hrows, <- app_assoc. split_and!; [done|by constructor|done|done].
  - injection H as <- <-. split; [done|].
    exists [], row, df, []. rewrite app_nil_r. split_and!; [done|constructor|done|done].
Qed.

(** X11. When [insert_entries] succeeds, the count it returns is the number of
    rows of the table; every row of the table was stored, in the order of
    the table, behind the rows that the store held; and all of it is
    committed. *)
Theorem insert_entries_success (db db' : Store) (df : list (gmap string Cell)) (n : nat) :
  insert_entries db df = (db', Ok n) →
  n = length df
  ∧ committed db' = rows db'
  ∧ ∃ new, rows db' = (rows db ++ new)%list
           ∧ Forall2 (λ row r, insert_row row = Ok r) df new.
Proof.
  unfold insert_entries. destruct (insert_loop db df 0) as [db1 [m|e]] eqn:H.
  - intros [= <- <-]. apply insert_loop_ok in H as (-> & _ & new & Hrows & Hall).
    cbn [rows committed]. split_and!; [done..|]. by exists new.
  - by destruct e.
Qed.

Lemma insert_entries_success_witness :
  1%nat = length [row_of (Nlp.sample_row "Positive")].
Proof.
  refine (proj1 (insert_entries_success empty_store _ [row_of (Nlp.sample_row "Positive")] 1 _)).
  apply insert_entries_row_of.
Defined.

(** X12. When [insert_entries] raises, some row of the table was the first to
    fail. If what it raised is a database error, the store is back at its
    last commit: no row of the batch is left, and neither is any change that
    was not committed before. Any other exception passes through with the
    rows before the failing one still in the connection, not committed. *)
Theorem insert_entries_failure (db db' : Store) (df : list (gmap string Cell)) (e : Exn) :
  insert_entries db df = (db', Raise e) →
  committed db' = committed db
  ∧ ∃ done row rest new,
      df = (done ++ row :: rest)%list
      ∧ Forall2 (λ row r, insert_row row = Ok r) done new
      ∧ insert_row row = Raise e
      ∧ rows db' = match e with
                   | SqliteError => committed db
                   | _ => (rows db ++ new)%list
                   end.
Proof.
  unfold insert_entries. destruct (insert_loop db df 0) as [db1 [m|e']] eqn:H; [done|].
  apply insert_loop_raise in H as (Hc & done & row & rest & new & -> & Hall & Hrow & Hrows).
  intros Heq.
  assert (e' = e) as -> by (destruct e'; by injection Heq).
  split; [destruct e; injection Heq as <-; cbn [committed]; done|].
  exists done, row, rest, new. split_and!; [done..|].
  destruct e; injection Heq as <-; cbn [rows]; congruence.
Qed.

Lemma insert_entries_failure_witness :
  rows (insert_entries (mkStore [stored_of (Nlp.sample_row "Positive")] [])
          [<["content" := CNone]> (row_of (Nlp.sample_row "Negative"))]).1 = [].
Proof.
  destruct (insert_entries_failure (mkStore [stored_of (Nlp.sample_row "Positive")] [])
              (insert_entries (mkStore [stored_of (Nlp.sample_row "Positive")] [])
                 [<["content" := CNone]> (row_of (Nlp.sample_row "Negative"))]).1
              [<["content" := CNone]> (row_of (Nlp.sample_row "Negative"))] SqliteError)
    as (_ & done & row & rest & new & _ & _ & _ & H).
  - vm_compute. reflexivity.
  - exact H.
Defined.

(** *** Rows of analysed entries *)

Lemma insert_loop_row_of (es : list Nlp.AnalyzedRow) (df : list (gmap string Cell)) :
  ∀ db n,
    insert_loop db ((row_of <$> es) ++ df) n
    = insert_loop (mkStore (rows db ++ (stored_of <$> es)) (committed db)) df
                  (n + length es).
Proof.
  induction es as [|e es IH]; intros [rs cs] n.
  - cbn. by rewrite app_nil_r, Nat.add_0_r.
  - cbn [fmap list_fmap app insert_loop]. rewrite insert_row_row_of.
    fold (fmap (M := list) row_of es). rewrite IH. cbn [rows committed length].
    fold (fmap (M := list) stored_of es).
    by rewrite <- app_assoc, Nat.add_succ_r.
Qed.

(** A table of analysed entries goes in whole. *)
Lemma insert_entries_batch (db : Store) (es : list Nlp.AnalyzedRow) :
  insert_entries db (row_of <$> es)
  = (mkStore (rows db ++ (stored_of <$> es)) (rows db ++ (stored_of <$> es)), Ok (length es)).
Proof.
  unfold insert_entries. rewrite <- (app_nil_r (row_of <$> es)), insert_loop_row_of.
  done.
Qed.

(** X13. A row of a table must have its date and its content: without the column
    [date], or without the column [content], the insertion ends in a
    [KeyError], which is not a database error, so the rows before it stay
    in the connection and are not committed. A content that is [None] breaks
    the NOT NULL constraint of the table: that is a database error, and the
    whole batch is rolled back. *)
Theorem required_columns (db : Store) (es : list Nlp.AnalyzedRow) (e : Nlp.AnalyzedRow) :
  insert_entries db ((row_of <$> es) ++ [delete "date" (row_of e)])
  = (mkStore (rows db ++ (stored_of <$> es)) (committed db), Raise (KeyError "date"))
  ∧ insert_entries db ((row_of <$> es) ++ [delete "content" (row_of e)])
    = (mkStore (rows db ++ (stored_of <$> es)) (committed db), Raise (KeyError "content"))
  ∧ insert_entries db ((row_of <$> es) ++ [<["content" := CNone]> (row_of e)])
    = (mkStore (committed db) (committed db), Raise SqliteError).
Proof.
  assert (Hkw : ∀ row : gmap string Cell,
            row !! "keywords" = Some (CList (Nlp.keywords e)) →
            ∃ k, (if truthy (get row "keywords" CNone)
                  then join_cell (get row "keywords" (CList []))
                  else Ok "") = Ok k).
  { intros row Hrow. unfold get. rewrite Hrow. cbn [from_option id truthy].
    destruct (negb _); cbn [join_cell]; eauto. }
  unfold insert_entries. rewrite !insert_loop_row_of. cbn [insert_loop].
  split_and!.
  - assert (insert_row (delete "date" (row_of e)) = Raise (KeyError "date")) as ->; [|done].
    unfold insert_row. destruct (Hkw (delete "date" (row_of e))) as [k ->];
      [by rewrite lookup_delete_ne|].
    cbn [bind]. unfold getitem at 1. by rewrite lookup_delete_eq.
  - assert (insert_row (delete "content" (row_of e)) = Raise (KeyError "content")) as ->;
      [|done].
    unfold insert_row. destruct (Hkw (delete "content" (row_of e))) as [k ->];
      [by rewrite lookup_delete_ne|].
    cbn [bind]. unfold getitem. rewrite !lookup_delete_ne by done.
    assert (row_of e !! "date" = Some (CTimestamp (Nlp.date e))) as -> by reflexivity.
    cbn [bind py_str]. by rewrite lookup_delete_eq.
  - assert (insert_row (<["content" := CNone]> (row_of e)) = Raise SqliteError) as ->; [|done].
    unfold insert_row. destruct (Hkw (<["content" := CNone]> (row_of e))) as [k ->];
      [by rewrite lookup_insert_ne|].
    cbn [bind]. unfold getitem, get. rewrite lookup_insert_eq, !lookup_insert_ne by done.
    assert (row_of e !! "date" = Some (CTimestamp (Nlp.date e))) as -> by reflexivity.
    assert (row_of e !! "title" = Some (CStr (Nlp.title e))) as -> by reflexivity.
    assert (row_of e !! "sentiment_score" = Some (CFloat (Nlp.sentiment_score e))) as ->
      by reflexivity.
    assert (row_of e !! "mood_category" = Some (CStr (Nlp.mood_category e))) as ->
      by reflexivity.
    reflexivity.
Qed.

(** *** Reading back *)

Lemma read_row_stored_of (e : Nlp.AnalyzedRow) :
  Nlp.well_formed e → read_row (stored_of e) = Ok (query_of e).
Proof.
  intros (Hv & Hlo & Hhi & Hkw). unfold read_row, stored_of, query_of.
  cbn [s_date s_title s_content s_sentiment_score s_mood_category s_keywords].
  rewrite PandasFacts.to_datetime_ts_str by done.
  rewrite (F64.leb_not_nan _ _ Hhi). by rewrite split_keywords_join.
Qed.

Lemma read_rows_stored_of (es : list Nlp.AnalyzedRow) :
  Forall Nlp.well_formed es → read_rows (stored_of <$> es) = Ok (query_of <$> es).
Proof.
  induction 1 as [|e es He Hall IH]; [done|].
  cbn [fmap list_fmap read_rows]. rewrite read_row_stored_of by done. cbn [bind].
  fold (fmap (M := list) stored_of es). rewrite IH. done.
Qed.

Lemma read_rows_elem_of (rs : list StoredRow) (qs : list QueryRow) :
  read_rows rs = Ok qs → ∀ q, q ∈ qs ↔ ∃ r, r ∈ rs ∧ read_row r = Ok q.
Proof.
  revert qs. induction rs as [|r rs IH]; intros qs H q; cbn [read_rows] in H.
  - injection H as <-. split; [by intros ?%not_elem_of_nil|].
    intros (r & Hr & _). by apply not_elem_of_nil in Hr.
  - destruct (read_row r) as [q0|] eqn:Hq0; [|done]. cbn [bind] in H.
    destruct (read_rows rs) as [qs0|] eqn:Hqs0; [|done]. cbn [bind] in H.
    injection H as <-. rewrite elem_of_cons, (IH qs0 eq_refl q). split.
    + intros [->|(r' & Hr' & Hq)]; [exists r|exists r']; split; try done;
        [apply list_elem_of_here|by apply list_elem_of_further].
    + intros (r' & Hr' & Hq). apply elem_of_cons in Hr' as [->|Hr'].
      * left. congruence.
      * right. by exists r'.
Qed.

Lemma read_rows_length (rs : list StoredRow) (qs : list QueryRow) :
  read_rows rs = Ok qs → length qs = length rs.
Proof.
  revert qs. induction rs as [|r rs IH]; intros qs H; cbn [read_rows] in H.
  - by injection H as <-.
  - destruct (read_row r) as [q0|]; [|done]. cbn [bind] in H.
    destruct (read_rows rs) as [qs0|]; [|done]. cbn [bind] in H.
    injection H as <-. simpl. by rewrite (IH qs0).
Qed.

Lemma read_rows_is_Ok (rs : list StoredRow) :
  Forall (λ r, is_Some (Pandas.to_datetime (s_date r))) rs → ∃ qs, read_rows rs = Ok qs.
Proof. intros H. destruct (read_rows_all rs H) as (qs & Hqs & _). eauto. Qed.

(** What a query with a [WHERE] clause returns, against [get_all_entries]. *)
Lemma where_clause (order_by_date_desc : SortBy date_desc) (db : Store)
    (stored : StoredRow → bool) (returned : QueryRow → bool) :
  readable db →
  (∀ r q, r ∈ rows db → read_row r = Ok q → stored r = returned q) →
  ∃ every qs,
    get_all_entries order_by_date_desc db = Ok every
    ∧ read_rows (sort_by order_by_date_desc (filter (λ r, stored r = true) (rows db))) = Ok qs
    ∧ ∀ q, q ∈ qs ↔ q ∈ every ∧ returned q = true.
Proof.
  intros Hdb Hsr. unfold get_all_entries.
  destruct (read_rows_is_Ok (sort_by order_by_date_desc (rows db))) as [every Hevery].
  { by rewrite sort_by_perm. }
  destruct (read_rows_is_Ok (sort_by order_by_date_desc
              (filter (λ r, stored r = true) (rows db)))) as [qs Hqs].
  { rewrite sort_by_perm. apply Forall_forall. intros r [_ Hr]%list_elem_of_filter.
    unfold readable in Hdb. rewrite Forall_forall in Hdb. by apply Hdb. }
  exists every, qs. split_and!; [done..|]. intros q.
  rewrite (read_rows_elem_of _ _ Hqs), (read_rows_elem_of _ _ Hevery). split.
  - intros (r & Hr & Hq). rewrite sort_by_perm in Hr.
    apply list_elem_of_filter in Hr as [Hs Hr]. split.
    + exists r. by rewrite sort_by_perm.
    + by rewrite <- (Hsr r q).
  - intros [(r & Hr & Hq) Hret]. exists r. split; [|done].
    rewrite sort_by_perm in Hr. rewrite sort_by_perm. apply list_elem_of_filter.
    split; [|done]. by rewrite (Hsr r q).
Qed.

(** X14. After [clear_database], a table of analysed entries that is inserted is
    what the store holds: [insert_entries] returns the number of its rows,
    and [get_all_entries] returns its entries and no other record, each as
    often as the table has it. *)
Theorem reload_returns_the_table (order_by_date_desc : SortBy date_desc)
    (db : Store) (es : list Nlp.AnalyzedRow) :
  Forall Nlp.well_formed es →
  (insert_entries (clear_database db) (row_of <$> es)).2 = Ok (length es)
  ∧ ∃ qs, get_all_entries order_by_date_desc
            (insert_entries (clear_database db) (row_of <$> es)).1 = Ok qs
          ∧ qs ≡ₚ query_of <$> es.
Proof.
  intros Hes. rewrite insert_entries_batch. cbn [fst snd clear_database rows app].
  split; [done|]. unfold get_all_entries. cbn [rows].
  destruct (Permutation_map_inv stored_of es
              (l1 := sort_by order_by_date_desc (stored_of <$> es))) as (es' & Hes' & Hperm).
  { apply sort_by_perm. }
  change (map stored_of es') with (stored_of <$> es') in Hes'. rewrite Hes'.
  exists (query_of <$> es'). split.
  - apply read_rows_stored_of. by rewrite <- Hperm.
  - by rewrite Hperm.
Qed.

Lemma reload_returns_the_table_witness :
  ∃ qs, get_all_entries (merge_sorter date_desc)
          (insert_entries (clear_database (mkStore [stored_of (Nlp.sample_row "Neutral")] []))
             (row_of <$> [Nlp.sample_row "Positive"; Nlp.sample_row "Negative"])).1 = Ok qs
        ∧ qs ≡ₚ query_of <$> [Nlp.sample_row "Positive"; Nlp.sample_row "Negative"].
Proof.
  apply (reload_returns_the_table (merge_sorter date_desc)).
  repeat constructor.
Defined.

(** *** Entries of one mood *)



(** *** Searching *)










(** The two wildcards of [LIKE] are not taken as they are written: a term
    with an underscore also finds the texts that have any other character
    in its place. *)
Example search_term_wildcards :
  search_entries (merge_sorter date_desc)
    (insert_entries empty_store (row_of <$> [Nlp.sample_row "Positive"])).1 "c_nt%t"
  = Ok [query_of (Nlp.sample_row "Positive")].
Proof. vm_compute. reflexivity. Qed.

(** *** Stores of timestamps *)

Lemma timestamped_readable (db : Store) : timestamped db → readable db.
Proof.
  unfold timestamped, readable. intros H. eapply Forall_impl; [exact H|].
  intros r (t & Ht & Hs). cbn beta. by rewrite Hs, PandasFacts.to_datetime_ts_str.
Qed.

Lemma timestamped_insert (db : Store) (es : list Nlp.AnalyzedRow) :
  timestamped db → Forall Nlp.well_formed es →
  timestamped (insert_entries db (row_of <$> es)).1.
Proof.
  intros Hdb Hes. rewrite insert_entries_batch. unfold timestamped. cbn [fst rows].
  apply Forall_app. split; [done|]. apply Forall_fmap.
  eapply Forall_impl; [done|]. intros e (Hv & _). by exists (Nlp.date e).
Qed.

Lemma read_row_date (r : StoredRow) (q : QueryRow) (t : Pandas.Timestamp) :
  Pandas.valid t = true → s_date r = Pandas.ts_str t → read_row r = Ok q → q_date q = t.
Proof.
  intros Ht Hr. unfold read_row. rewrite Hr, PandasFacts.to_datetime_ts_str by done.
  by intros [= <-].
Qed.

Lemma read_rows_Forall2 (rs : list StoredRow) :
  ∀ qs, read_rows rs = Ok qs → Forall2 (λ r q, read_row r = Ok q) rs qs.
Proof.
  induction rs as [|r rs IH]; intros qs H; cbn [read_rows] in H.
  - injection H as <-. constructor.
  - destruct (read_row r) as [q0|] eqn:Hq0; [|done]. cbn [bind] in H.
    destruct (read_rows rs) as [qs0|] eqn:Hqs0; [|done]. cbn [bind] in H.
    injection H as <-. constructor; [done|by apply IH].
Qed.

(** *** The range of dates *)

(** X17. On a store of timestamps, [get_entries_by_date_range] with the texts of
    two days for its bounds returns the records of [get_all_entries] from
    the first day on and before the second day, and no other: the day of the
    start date is part of the range, at any time of that day, and the day of
    the end date is not. *)
Theorem date_range_half_open (order_by_date_desc : SortBy date_desc)
    (db : Store) (start_day end_day : Pandas.Timestamp) :
  timestamped db → Pandas.valid start_day = true → Pandas.valid end_day = true →
  ∃ every qs,
    get_all_entries order_by_date_desc db = Ok every
    ∧ get_entries_by_date_range order_by_date_desc db
        (Pandas.date_str start_day) (Pandas.date_str end_day) = Ok qs
    ∧ ∀ q, q ∈ qs ↔
           q ∈ every
           ∧ (Pandas.day_number start_day <= Pandas.day_number (q_date q) < Pandas.day_number end_day)%Z.
Proof.
  intros Hdb Ha Hb.
  destruct (where_clause order_by_date_desc db
              (between_dates (Pandas.date_str start_day) (Pandas.date_str end_day))
              (λ q, (Pandas.day_number start_day <=? Pandas.day_number (q_date q))%Z
                    && (Pandas.day_number (q_date q) <? Pandas.day_number end_day)%Z)
              (timestamped_readable db Hdb)) as (every & qs & H1 & H2 & H3).
  { intros r q Hr Hq. unfold timestamped in Hdb. rewrite Forall_forall in Hdb.
    destruct (Hdb r Hr) as (t & Ht & Hs). rewrite (read_row_date r q t Ht Hs Hq).
    unfold between_dates. rewrite Hs.
    apply eq_true_iff_eq. rewrite !andb_true_iff, !bool_decide_eq_true.
    rewrite CalendarFacts.le_date_str_ts_str, CalendarFacts.le_ts_str_date_str by done.
    by rewrite Z.leb_le, Z.ltb_lt. }
  exists every, qs. split_and!; [done..|]. intros q. rewrite H3.
  rewrite andb_true_iff, Z.leb_le, Z.ltb_lt. done.
Qed.

Lemma date_range_half_open_witness :
  ∃ every qs,
    get_all_entries (merge_sorter date_desc)
      (insert_entries empty_store (row_of <$> [Nlp.sample_row "Positive"])).1 = Ok every
    ∧ get_entries_by_date_range (merge_sorter date_desc)
        (insert_entries empty_store (row_of <$> [Nlp.sample_row "Positive"])).1
        (Pandas.date_str (Pandas.mkTs 2025 1 10 0 0 0))
        (Pandas.date_str (Pandas.mkTs 2025 1 11 0 0 0)) = Ok qs
    ∧ ∀ q, q ∈ qs ↔
           q ∈ every
           ∧ (Pandas.day_number (Pandas.mkTs 2025 1 10 0 0 0) <= Pandas.day_number (q_date q)
              < Pandas.day_number (Pandas.mkTs 2025 1 11 0 0 0))%Z.
Proof.
  apply (date_range_half_open (merge_sorter date_desc)).
  - apply timestamped_insert; [constructor|]. repeat constructor.
  - reflexivity.
  - reflexivity.
Defined.

(** *** The order of the records *)

Lemma read_rows_sorted (rs : list StoredRow) (qs : list QueryRow) :
  Forall (λ r, ∃ t, Pandas.valid t = true ∧ s_date r = Pandas.ts_str t) rs →
  StronglySorted date_desc rs → read_rows rs = Ok qs →
  StronglySorted (λ a b, (Pandas.value (q_date b) <= Pandas.value (q_date a))%Z) qs.
Proof.
  intros Hts Hsorted Hread. apply read_rows_Forall2 in Hread.
  induction Hread as [|r q rs qs Hq Hrest IH]; [constructor|].
  apply Forall_cons in Hts as [(t & Ht & Hs) Hts].
  apply StronglySorted_inv in Hsorted as [Hsorted Hall].
  constructor; [by apply IH|].
  rewrite (read_row_date r q t Ht Hs Hq). clear IH Hsorted Hq.
  induction Hrest as [|r' q' rs qs Hq' Hrest IH]; [constructor|].
  apply Forall_cons in Hts as [(t' & Ht' & Hs') Hts].
  apply Forall_cons in Hall as [Hle Hall].
  constructor; [|by apply IH].
  rewrite (read_row_date r' q' t' Ht' Hs' Hq'). unfold date_desc in Hle.
  rewrite Hs, Hs' in Hle. by apply CalendarFacts.le_ts_str in Hle.
Qed.

Lemma query_sorted (order_by_date_desc : SortBy date_desc) (db : Store)
    (P : StoredRow → Prop) `{!∀ r, Decision (P r)} (qs : list QueryRow) :
  timestamped db →
  read_rows (sort_by order_by_date_desc (filter P (rows db))) = Ok qs →
  StronglySorted (λ a b, (Pandas.value (q_date b) <= Pandas.value (q_date a))%Z) qs.
Proof.
  intros Hdb. apply read_rows_sorted.
  - rewrite sort_by_perm. unfold timestamped in Hdb. rewrite Forall_forall in Hdb.
    apply Forall_forall. intros r [_ Hr]%list_elem_of_filter. by apply Hdb.
  - apply Sorted_StronglySorted; [apply _|]. apply sort_by_sorted.
Qed.

(** X18. On a store of timestamps every query returns its records from the
    newest to the oldest: no record stands before one of a later date and
    time, whichever sort the database uses and whatever the query selects. *)
Theorem queries_newest_first (order_by_date_desc : SortBy date_desc)
    (db : Store) (qs : list QueryRow) :
  timestamped db →
  get_all_entries order_by_date_desc db = Ok qs
  ∨ (∃ start_date end_date,
       get_entries_by_date_range order_by_date_desc db start_date end_date = Ok qs)
  ∨ (∃ mood_category, get_entries_by_mood order_by_date_desc db mood_category = Ok qs)
  ∨ (∃ search_term, search_entries order_by_date_desc db search_term = Ok qs) →
  StronglySorted (λ a b, (Pandas.value (q_date b) <= Pandas.value (q_date a))%Z) qs.
Proof.
  intros Hdb [H|[(s & e & H)|[(m & H)|(t & H)]]].
  - apply (query_sorted order_by_date_desc db (λ _, True)); [done|].
    unfold get_all_entries in H.
    assert (filter (λ _ : StoredRow, True) (rows db) = rows db) as ->; [|done].
    clear. induction (rows db) as [|r rs IH]; [done|]. by rewrite filter_cons, IH.
  - by eapply query_sorted.
  - by eapply query_sorted.
  - by eapply query_sorted.
Qed.

Lemma queries_newest_first_witness :
  StronglySorted (λ a b, (Pandas.value (q_date b) <= Pandas.value (q_date a))%Z)
    [query_of (Nlp.sample_row "Positive")].
Proof.
  apply (queries_newest_first (merge_sorter date_desc)
           (insert_entries empty_store (row_of <$> [Nlp.sample_row "Positive"])).1).
  - apply timestamped_insert; [constructor|]. repeat constructor.
  - left. vm_compute. reflexivity.
Defined.

End StoreFacts.

(** ** The check of the dates (test_date_validation.py) *)

Module DateValidationFacts.

Import PyStr Regex Converter DateValidation.
Import PyStrFacts RegexFacts MatchFacts DateTextFacts.
Local Open Scope string_scope.
Local Open Scope nat_scope.

(** X19. The validation script and the converter read the same date off a file
    name: what the one checks is what the other writes. *)
Theorem validation_reads_the_same_date (filename : string) :
  DateValidation.extract_date_from_filename filename
  = (Converter.extract_date_from_filename filename).1.
Proof.
  unfold DateValidation.extract_date_from_filename, Converter.extract_date_from_filename,
    match_patterns, clean_name.
  set (name := strip (re_sub_empty hash_re (splitext_root filename))).
  destruct (re_match weekday_re name) as [m|]; [done|].
  destruct (re_match numeric_re name) as [m|]; [done|].
  by destruct (re_search month_name_re name) as [m|].
Qed.

(** *** Classes of characters *)

Lemma elem_of_all_ascii (c : ascii) : In c all_ascii.
Proof.
  unfold all_ascii. rewrite <- (ascii_nat_embedding c). apply in_map, in_seq.
  pose proof (nat_ascii_bounded c). lia.
Qed.

Lemma iter_within (p : ascii → bool) (R : mstate → mstate → Prop) :
  (∀ a b, R a b → ∃ w, rest a = w +:+ rest b ∧ all_chars p w = true) →
  ∀ n a b, iter R n a b → ∃ w, rest a = w +:+ rest b ∧ all_chars p w = true.
Proof.
  intros HR. induction n as [|n IH]; intros a b H; cbn [iter] in H.
  - subst b. by exists "".
  - destruct H as (m & (w1 & Hw1 & Hp1)%HR & (w2 & Hw2 & Hp2)%IH).
    exists (w1 +:+ w2). rewrite PyStrFacts.app_assoc, <- Hw2, CharFacts.all_chars_app.
    by rewrite Hp1, Hp2.
Qed.

Lemma spans_within (p : ascii → bool) (r : regex) :
  chars_within p r = true →
  ∀ a b, spans r a b → ∃ w, rest a = w +:+ rest b ∧ all_chars p w = true.
Proof.
  induction r as [q|r1 IH1 r2 IH2|r1 IH1 r2 IH2|lo hi r IH|g r IH| |]; intros Hr a b H;
    cbn [spans chars_within] in *.
  - destruct H as (c & Hc & Hq & _). exists (String c ""). split; [done|].
    rewrite forallb_forall in Hr. specialize (Hr c (elem_of_all_ascii c)).
    rewrite Hq in Hr. simpl in *. by rewrite Hr.
  - apply andb_prop in Hr as [Hr1 Hr2].
    destruct H as (m & (w1 & Hw1 & Hp1)%IH1 & (w2 & Hw2 & Hp2)%IH2); [|done..].
    exists (w1 +:+ w2). rewrite PyStrFacts.app_assoc, <- Hw2, CharFacts.all_chars_app.
    by rewrite Hp1, Hp2.
  - apply andb_prop in Hr as [Hr1 Hr2]. destruct H as [H|H]; [by apply IH1|by apply IH2].
  - destruct H as (n & _ & _ & H). eapply iter_within; [|done]. by apply IH.
  - destruct H as (m & (w & Hw & Hp)%IH & ->); [|done]. by exists w.
  - destruct H as [_ ->]. by exists "".
  - destruct H as [_ ->]. by exists "".
Qed.

(** The text of a group whose expression holds no group and consumes
    characters of one class only. *)
Lemma spans_group_within (subject : string) (p : ascii → bool) (g : nat) (r : regex)
    (a b : mstate) :
  at_pos subject a → group_free r = true → chars_within p r = true →
  spans (Grp g r) a b →
  ∃ w, rest a = w +:+ rest b ∧ all_chars p w = true
       ∧ groups b = (g, (pos a, pos b)) :: groups a
       ∧ str_take (pos b - pos a) (str_drop (pos a) subject) = w
       ∧ (∃ m, spans r a m ∧ rest m = rest b)
       ∧ at_pos subject b.
Proof.
  intros Ha Hfree Hp H.
  apply (spans_group subject) in H as (m & Hm & Hrest & Hg & Ht & Hb); [|done..].
  destruct (spans_within p r Hp a m Hm) as (w & Hw & Hall).
  exists w. split_and!; try done.
  - by rewrite <- Hrest.
  - pose proof (eq_trans Ht Hw) as E. by apply app_inv_tail in E.
  - by exists m.
Qed.

(** *** What the format of [strptime] matches *)

Lemma lower_char_hyphen (x : ascii) : lower_char x = lower_char "-" → x = "-"%char.
Proof. destruct x as [[] [] [] [] [] [] [] []]; vm_compute; congruence. Qed.

Lemma spans_four (p : ascii → bool) (a b : mstate) :
  spans (seq [Chr p; Chr p; Chr p; Chr p]) a b →
  ∃ w, rest a = w +:+ rest b ∧ String.length w = 4.
Proof.
  cbn [seq]. intros (m1 & (c1 & H1 & _) & (m2 & (c2 & H2 & _) & (m3 & (c3 & H3 & _) & (c4 & H4 & _)))).
  exists (String c1 (String c2 (String c3 (String c4 "")))). split; [|done].
  by rewrite H1, H2, H3, H4.
Qed.

Lemma format_regex_match (d : string) (found : rmatch) :
  re_match format_regex d = Some found → m_end found = String.length d →
  ∃ w1 w2 w3,
    d = w1 +:+ "-" +:+ w2 +:+ "-" +:+ w3
    ∧ all_chars is_digit w1 = true ∧ String.length w1 = 4
    ∧ all_chars is_digit w2 = true
    ∧ all_chars digit_or_space w3 = true
    ∧ group found 1 = w1 ∧ group found 2 = w2 ∧ group found 3 = w3.
Proof.
  unfold re_match. intros H Hend.
  apply (match_at_sound format_regex d 0) in H as (b & Hb & ->). cbn [m_end] in Hend.
  assert (Ha0 : at_pos d (mkSt 0 d [])) by done.
  unfold format_regex in Hb. cbn [seq] in Hb.
  apply spans_Cat in Hb as (m1 & H1 & Hb). apply spans_Cat in Hb as (m2 & H2 & Hb).
  apply spans_Cat in Hb as (m3 & H3 & Hb). apply spans_Cat in Hb as (m4 & H4 & H5).
  apply (spans_group_within d is_digit) in H1
    as (w1 & Hw1 & Hd1 & Hg1 & Ht1 & (m1' & Hm1' & Hr1) & Ha1); [|done|done|vm_compute; reflexivity].
  apply spans_four in Hm1' as (w1' & Hw1' & Hl1).
  assert (w1' = w1) as ->.
  { rewrite Hr1 in Hw1'. pose proof (eq_trans (eq_sym Hw1') Hw1) as E. by apply app_inv_tail in E. }
  pose proof (spans_at_pos d _ _ _ Ha1 H2) as Ha2.
  apply spans_group_free in H2 as Hg2; [|done].
  apply spans_ichar in H2 as (x2 & Hx2 & ->%lower_char_hyphen & _).
  apply (spans_group_within d is_digit) in H3
    as (w2 & Hw2 & Hd2 & Hg3 & Ht2 & _ & Ha3); [|done|done|vm_compute; reflexivity].
  pose proof (spans_at_pos d _ _ _ Ha3 H4) as Ha4.
  apply spans_group_free in H4 as Hg4; [|done].
  apply spans_ichar in H4 as (x4 & Hx4 & ->%lower_char_hyphen & _).
  apply (spans_group_within d digit_or_space) in H5
    as (w3 & Hw3 & Hd3 & Hg5 & Ht3 & _ & Ha5); [|done|done|vm_compute; reflexivity].
  rewrite Hg4, Hg3, Hg2, Hg1 in Hg5. cbn [groups pos rest] in *.
  assert (Hrest : rest b = "").
  { unfold at_pos in Ha5. rewrite Ha5, Hend. by apply PyStrFacts.drop_all. }
  exists w1, w2, w3. split_and!; try done.
  - change (d = w1 +:+ rest m1) in Hw1.
    rewrite Hw1, Hx2, Hw2, Hx4, Hw3, Hrest, PyStrFacts.app_nil_r.
    by rewrite !(PyStrFacts.app_cons "-" ""), !PyStrFacts.app_nil_l.
  - rewrite <- Ht1.
    by apply (group_here _ _ _ _ _ _ _ [] [(3, (pos m4, pos b)); (2, (pos m2, pos m3))]);
      [|repeat constructor].
  - rewrite <- Ht2.
    by apply (group_here _ _ _ _ _ _ _ [(1, (0, pos m1))] [(3, (pos m4, pos b))]);
      [|repeat constructor].
  - rewrite <- Ht3.
    by apply (group_here _ _ _ _ _ _ _ [(2, (pos m2, pos m3)); (1, (0, pos m1))] []);
      [|repeat constructor].
Qed.

(** *** A date that passes the check is a timestamp *)

Lemma drop_while_head (p : ascii → bool) (w : string) :
  all_chars (λ c, negb (p c)) w = true → drop_while p w = w.
Proof.
  destruct w as [|c w]; [done|]. simpl. intros [Hc _]%andb_prop.
  apply negb_true_iff in Hc. by rewrite Hc.
Qed.

Lemma strip_digits (w : string) : all_chars is_digit w = true → strip w = w.
Proof.
  intros Hw.
  assert (Hns : all_chars (λ c, negb (is_space c)) w = true).
  { eapply CharFacts.all_chars_impl; [|done]. intros c Hc.
    destruct c as [[] [] [] [] [] [] [] []]; done. }
  unfold strip, rstrip_by, lstrip_by. rewrite (drop_while_head _ w Hns).
  rewrite drop_while_head by (by rewrite PyStrFacts.all_chars_rev).
  apply PyStrFacts.rev_involutive.
Qed.

Lemma digits_n_app (n : nat) (w r : string) :
  String.length w = n → all_chars is_digit w = true →
  Pandas.digits_n n (w +:+ r) = Some (int_of w, r).
Proof.
  intros <- Hw. unfold Pandas.digits_n.
  by rewrite PyStrFacts.take_app_length, PyStrFacts.drop_app_length, Nat.eqb_refl, Hw.
Qed.

Lemma in_bounds_years (y m d : Z) :
  (1900 <= y <= 2100)%Z → (1 <= m <= 12)%Z → (1 <= d <= 31)%Z →
  Pandas.in_bounds (Pandas.mkTs y m d 0 0 0) = true.
Proof.
  intros Hy Hm Hd. unfold Pandas.in_bounds, Pandas.value.
  cbn [Pandas.year Pandas.month Pandas.day Pandas.hour Pandas.minute Pandas.second].
  rewrite CalendarFacts.days_from_civil_jan1 by done.
  pose proof (CalendarFacts.days_before_month_bounds y m Hm) as [Hb1 Hb2].
  pose proof (CalendarFacts.jan1_mono 1900 y ltac:(lia)) as H1.
  pose proof (CalendarFacts.jan1_mono y 2100 ltac:(lia)) as H2.
  assert (E1 : Pandas.jan1 1900 = (-25567)%Z) by (vm_compute; reflexivity).
  assert (E2 : Pandas.jan1 2100 = 47482%Z) by (vm_compute; reflexivity).
  rewrite E1 in H1. rewrite E2 in H2.
  assert (Hdim : (1 <= Pandas.days_in_month y m)%Z)
    by (unfold Pandas.days_in_month; repeat case_match; lia).
  assert (Hl : ((if Pandas.is_leap y then 1 else 0) <= 1)%Z)
    by (destruct (Pandas.is_leap y); lia).
  apply andb_true_intro. split; [apply Z.ltb_lt|apply Z.leb_le]; lia.
Qed.

Lemma hyphen_free_digit_or_space (w : string) :
  all_chars digit_or_space w = true → all_chars (λ c, negb (Ascii.eqb c "-")) w = true.
Proof.
  apply CharFacts.all_chars_impl. intros c Hc.
  destruct (Ascii.eqb_spec c "-") as [->|]; done.
Qed.

(** A date text of the form Y-MM-DD that [is_valid_date] accepts is a
    timestamp for [pd.to_datetime]. *)
Lemma valid_date_parses (current_year : Z) (d : string) :
  is_date_text d = true → (is_valid_date current_year d).1 = true →
  ∃ t, Pandas.to_datetime d = Some t.
Proof.
  intros Hshape Hvalid. unfold is_valid_date in Hvalid.
  destruct (strptime d) as [[[Y M] D]|] eqn:Hs; [|done].
  destruct (Z.ltb_spec Y 1900), (Z.ltb_spec 2100 Y); try done. clear Hvalid.
  unfold strptime in Hs. destruct (re_match format_regex d) as [found|] eqn:Hmatch; [|done].
  destruct (Nat.eqb_spec (m_end found) (String.length d)) as [Hend|]; [|done].
  cbn [negb] in Hs.
  destruct (format_regex_match d found Hmatch Hend)
    as (w1 & w2 & w3 & Hd & Hd1 & Hl1 & Hd2 & Hd3 & Hg1 & Hg2 & Hg3).
  rewrite Hg1, Hg2, Hg3 in Hs.
  destruct (is_date_text_inv d Hshape) as (y & mm & dd & Hd' & Hy & _ & Hmm & Hlmm & Hdd & Hldd).
  assert (E : [w1; w2; w3] = [y; mm; dd]).
  { rewrite <- (PyStrFacts.split_join "-" [w1; w2; w3]), <- (PyStrFacts.split_join "-" [y; mm; dd]).
    - change (join "-" [w1; w2; w3]) with (w1 +:+ "-" +:+ w2 +:+ "-" +:+ w3).
      change (join "-" [y; mm; dd]) with (y +:+ "-" +:+ mm +:+ "-" +:+ dd). congruence.
    - done.
    - repeat constructor; by apply digits_no_hyphen.
    - done.
    - repeat constructor; [by apply digits_no_hyphen..|by apply hyphen_free_digit_or_space]. }
  injection E as -> -> ->. unfold py_int in Hs. rewrite !strip_digits in Hs by done.
  match type of Hs with (if ?c then _ else _) = _ => destruct c eqn:Hok end; [|done].
  injection Hs as <- <- <-.
  repeat (apply andb_prop in Hok as [Hok ?]).
  eexists. rewrite Hd. unfold Pandas.to_datetime.
  rewrite digits_n_app by done. cbn [mbind option_bind].
  rewrite PandasFacts.expect_app. cbn [mbind option_bind].
  rewrite digits_n_app by done. cbn [mbind option_bind].
  rewrite PandasFacts.expect_app. cbn [mbind option_bind].
  rewrite <- (PyStrFacts.app_nil_r dd), digits_n_app by done. cbn [mbind option_bind String.eqb].
  rewrite (PyStrFacts.app_nil_r dd). unfold Pandas.check, Pandas.valid.
  pose proof (PandasFacts.days_in_month_le (int_of y) (int_of mm)).
  rewrite in_bounds_years by lia. rewrite andb_true_r.
  assert (Pandas.calendar_ok (Pandas.mkTs (int_of y) (int_of mm) (int_of dd) 0 0 0) = true) as ->;
    [|done].
  unfold Pandas.calendar_ok.
  cbn [Pandas.year Pandas.month Pandas.day Pandas.hour Pandas.minute Pandas.second].
  repeat (apply andb_true_intro; split); try done; try (apply Z.leb_le; lia).
Qed.

(** *** A directory that passes the check *)

Lemma check_files_no_issue (current_year : Z) (names : list string) :
  ∀ acc, (foldl (check_file current_year) acc names).1 = [] →
    Forall (λ n, ∃ d, DateValidation.extract_date_from_filename n = Some d
                      ∧ (is_valid_date current_year d).1 = true) names.
Proof.
  assert (Hgrow : ∀ names acc, (foldl (check_file current_year) acc names).1 = [] → acc.1 = []).
  { clear names. induction names as [|n names IH]; intros acc H; [done|].
    cbn [foldl] in H. apply IH in H. destruct acc as [issues valid]. unfold check_file in H.
    destruct (DateValidation.extract_date_from_filename n) as [d|];
      [destruct (String.eqb d ""); [|destruct (is_valid_date current_year d) as [[] msg]]|];
      cbn [fst] in *; try done; by apply app_eq_nil in H as [? _]. }
  induction names as [|n names IH]; intros acc H; [constructor|].
  cbn [foldl] in H. constructor; [|by eapply IH].
  apply Hgrow in H. destruct acc as [issues valid]. unfold check_file in H.
  destruct (DateValidation.extract_date_from_filename n) as [d|].
  - destruct (String.eqb d ""); [by apply app_eq_nil in H as [_ ?]|].
    destruct (is_valid_date current_year d) as [[] msg] eqn:Hv.
    + exists d. by rewrite Hv.
    + by apply app_eq_nil in H as [_ ?].
  - by apply app_eq_nil in H as [_ ?].
Qed.

(** X20. When [test_journal_dates] passes on the names of a directory, the
    conversion of that directory, if its files can be read, loses nothing:
    it returns the output path, no file is skipped, no row is dropped for
    its date, and the table written has one row for each file. *)
Theorem validated_directory_converts_whole (sort_values : SortBy date_le)
    (current_year : Z) (md_files : list MdFile) (output_file : string) :
  test_journal_dates current_year (Some (name <$> md_files)) = true →
  Forall (λ f, is_Some (text f)) md_files →
  let o := convert_journal_files sort_values (Some md_files) output_file in
  returned o = Some output_file
  ∧ processed o = length md_files ∧ skipped o = 0 ∧ dropped o = 0
  ∧ ∃ rows, written o = Some rows ∧ length rows = length md_files.
Proof.
  intros Htest Hread. unfold test_journal_dates in Htest.
  case_bool_decide as Hne; [done|].
  destruct (foldl (check_file current_year) ([], 0) (name <$> md_files)) as [issues valid] eqn:Hfold.
  apply bool_decide_eq_true in Htest. subst issues.
  pose proof (check_files_no_issue current_year (name <$> md_files) ([], 0)) as Hall.
  rewrite Hfold in Hall. specialize (Hall eq_refl). rewrite Forall_fmap in Hall.
  assert (Hent : Forall (λ f, ∃ e, get_entry_details f = Some (Some (date e), title e, content e)
                                   ∧ is_Some (Pandas.to_datetime (date e))) md_files).
  { rewrite Forall_forall in Hall, Hread. apply Forall_forall. intros f Hf.
    destruct (Hall f Hf) as (d & Hd & Hv). destruct (Hread f Hf) as [txt Htxt].
    assert (Hsame : DateValidation.extract_date_from_filename (name f)
                    = (Converter.extract_date_from_filename (name f)).1).
    { unfold DateValidation.extract_date_from_filename,
        Converter.extract_date_from_filename, match_patterns, clean_name.
      destruct (re_match weekday_re _) as [m|]; [done|].
      destruct (re_match numeric_re _) as [m|]; [done|].
      by destruct (re_search month_name_re _) as [m|]. }
    rewrite Hsame in Hd. clear Hsame.
    unfold get_entry_details. rewrite Htxt. cbn [fmap option_fmap option_map].
    unfold entry_details.
    destruct (Converter.extract_date_from_filename (name f)) as [d' tf] eqn:Hx.
    cbn [fst] in Hd. subst d'.
    destruct (scan_lines _ _ _) as [tc body].
    eexists (mkEntry d _ _). split; [done|]. cbn [date].
    apply (valid_date_parses current_year); [|done].
    by eapply extracted_date_shape. }
  assert (Hlen : length (entries (process_files md_files)) = length md_files
                 ∧ length (valid_rows (entries (process_files md_files))) = length md_files).
  { rewrite ConverterFacts.process_files_entries. clear -Hent.
    induction Hent as [|f fs (e & He & [t Ht]) Hfs [IH1 IH2]]; [done|].
    cbn [omap list_omap]. rewrite He. destruct e as [d ti c]. cbn [date title content] in *.
    unfold valid_rows in *. cbn [omap list_omap date]. rewrite Ht.
    cbn [fmap option_fmap option_map length]. by rewrite IH1, IH2. }
  destruct Hlen as [Hlen1 Hlen2].
  destruct (EntryFacts.process_files_counts md_files (mkProgress [] 0 0))
    as (k & s & H1 & H2 & H3 & H4).
  fold (process_files md_files) in H1, H2, H3. cbn in H1, H2, H3.
  unfold convert_journal_files.
  destruct (entries (process_files md_files)) as [|e es] eqn:E.
  { destruct md_files; [by destruct Hne|done]. }
  cbn [returned processed skipped dropped written]. rewrite <- E.
  rewrite <- E in Hlen1, Hlen2, H3.
  split_and!; [done|lia|lia|lia|].
  eexists. split; [done|]. by rewrite sort_by_perm.
Qed.

Lemma validated_directory_converts_whole_witness :
  dropped (convert_journal_files (merge_sorter date_le) (Some two_same_day) "out.csv") = 0.
Proof.
  refine (proj1 (proj2 (proj2 (proj2 (validated_directory_converts_whole
            (merge_sorter date_le) 2025 two_same_day "out.csv" _ _))))).
  - vm_compute. reflexivity.
  - repeat constructor; vm_compute; eauto.
Defined.

End DateValidationFacts.
